(** * Savu plugin tools: parameter definitions, defaults and overrides

    A shallow embedding of [savu/plugins/plugin_tools.py] (class
    [PluginParameters] and the accessors of [PluginTools]) together with the
    properties of the parameter subsystem that are checked against it.

    Python values are an inductive type, dictionaries are insertion-ordered
    association lists compared with Python's [==] on hashable keys, and the
    methods of the class are computations in a state-and-exception monad over
    the fields of the instance. *)

From Stdlib Require Import ZArith List String Ascii Bool Lia.
From Stdlib Require Import Floats DecimalString.
Import ListNotations.
Open Scope string_scope.
Open Scope Z_scope.

(** ** Python values *)

Module Py.

(** The values that a YAML parameter block, a process list and the resolved
    value-set hold.  [PDict true] is a [collections.OrderedDict], [PDict false]
    a plain [dict]; both keep insertion order.  Tuples, sets and user objects
    do not occur in the methods modelled below. *)
#[local] Unset Elimination Schemes.
Inductive pyval : Type :=
| PNone
| PBool (b : bool)
| PInt (z : Z)
| PFloat (f : float)
| PStr (s : string)
| PList (l : list pyval)
| PDict (ordered : bool) (items : list (pyval * pyval)).
#[local] Set Elimination Schemes.

Definition dict : Type := list (pyval * pyval).

(** Python exceptions raised by the modelled code. *)
Inductive exn : Type :=
| KeyError (k : pyval)
| IndexError
| TypeError
| AttributeError (attr : string)
| ValueError (msg : string)
| Exception_ (msg : string).

(** The result of running a piece of Python: a value, an exception, or an
    exhausted recursion budget. *)
Inductive outcome (A : Type) : Type :=
| Ret (a : A)
| Raise (e : exn)
| Diverge.
Arguments Ret {A} a.
Arguments Raise {A} e.
Arguments Diverge {A}.

Definition obind {A B} (o : outcome A) (k : A -> outcome B) : outcome B :=
  match o with
  | Ret a => k a
  | Raise e => Raise e
  | Diverge => Diverge
  end.

(** *** Numbers and equality *)

(** The integer a float denotes, when it is finite and integral. *)
Definition float_to_Z (f : float) : option Z :=
  match Prim2SF f with
  | S754_zero _ => Some 0
  | S754_finite s m e =>
      let mag :=
        if 0 <=? e then Some (Z.pos m * 2 ^ e)
        else if Z.pos m mod 2 ^ (- e) =? 0 then Some (Z.pos m / 2 ^ (- e))
        else None in
      option_map (fun z => if s then - z else z) mag
  | _ => None
  end.

Inductive num : Type :=
| NInt (z : Z)
| NFloat (f : float).

(** [bool] is a subclass of [int]; an integral float equals the integer. *)
Definition as_num (v : pyval) : option num :=
  match v with
  | PBool b => Some (NInt (Z.b2z b))
  | PInt z => Some (NInt z)
  | PFloat f =>
      Some (match float_to_Z f with Some z => NInt z | None => NFloat f end)
  | _ => None
  end.

(** [a == b] when at least one side is a scalar (a hashable value): a scalar
    never equals a list or a dict.  Every comparison in the modelled code has a
    string or a dictionary key on one side. *)
Definition py_eq (a b : pyval) : bool :=
  match a, b with
  | PNone, PNone => true
  | PStr s, PStr t => String.eqb s t
  | _, _ =>
      match as_num a, as_num b with
      | Some (NInt x), Some (NInt y) => Z.eqb x y
      | Some (NFloat x), Some (NFloat y) => PrimFloat.eqb x y
      | _, _ => false
      end
  end.

Definition hashable (v : pyval) : bool :=
  match v with
  | PList _ | PDict _ _ => false
  | _ => true
  end.

(** *** Builtins *)

(** [bool(v)]. *)
Definition py_truthy (v : pyval) : bool :=
  match v with
  | PNone => false
  | PBool b => b
  | PInt z => negb (z =? 0)
  | PFloat f => negb (PrimFloat.eqb f 0%float)
  | PStr s => negb (String.eqb s "")
  | PList l => match l with [] => false | _ => true end
  | PDict _ d => match d with [] => false | _ => true end
  end.

(** [type(v).__name__]. *)
Definition type_name (v : pyval) : string :=
  match v with
  | PNone => "NoneType"
  | PBool _ => "bool"
  | PInt _ => "int"
  | PFloat _ => "float"
  | PStr _ => "str"
  | PList _ => "list"
  | PDict true _ => "OrderedDict"
  | PDict false _ => "dict"
  end.

(** [isinstance(v, dict)]. *)
Definition is_dict (v : pyval) : bool :=
  match v with PDict _ _ => true | _ => false end.

Definition str_of_Z (z : Z) : string := NilZero.string_of_int (Z.to_int z).

(** *** Dictionaries

    A dictionary is its list of items in insertion order.  Lookup compares the
    probe with each key by [==]; assignment to a present key keeps the key and
    its position, assignment to a new key appends.  Values carry no object
    identity, so a NaN key is not found again, as with two different NaN
    objects in Python. *)

Fixpoint assoc_get {V : Type} (d : list (pyval * V)) (k : pyval) : option V :=
  match d with
  | [] => None
  | (k', v) :: d' => if py_eq k k' then Some v else assoc_get d' k
  end.

Fixpoint assoc_set {V : Type} (d : list (pyval * V)) (k : pyval) (v : V)
  : list (pyval * V) :=
  match d with
  | [] => [(k, v)]
  | (k', v') :: d' =>
      if py_eq k k' then (k', v) :: d' else (k', v') :: assoc_set d' k v
  end.

Definition assoc_mem {V : Type} (d : list (pyval * V)) (k : pyval) : bool :=
  match assoc_get d k with Some _ => true | None => false end.

(** [k in d]: hashing an unhashable probe raises [TypeError]. *)
Definition dict_contains {V : Type} (d : list (pyval * V)) (k : pyval)
  : outcome bool :=
  if hashable k then Ret (assoc_mem d k) else Raise TypeError.

(** [d[k]]. *)
Definition dict_getitem {V : Type} (d : list (pyval * V)) (k : pyval)
  : outcome V :=
  if hashable k then
    match assoc_get d k with
    | Some v => Ret v
    | None => Raise (KeyError k)
    end
  else Raise TypeError.

(** [d[k] = v]. *)
Definition dict_setitem {V : Type} (d : list (pyval * V)) (k : pyval) (v : V)
  : outcome (list (pyval * V)) :=
  if hashable k then Ret (assoc_set d k v) else Raise TypeError.

(** *** Sequences and subscripts *)

(** A sequence index: [bool] and [int] are accepted, negative indices count
    from the end. *)
Definition seq_index (n : nat) (i : pyval) : outcome nat :=
  match as_num i, i with
  | Some (NInt z), (PBool _ | PInt _) =>
      let z' := if z <? 0 then z + Z.of_nat n else z in
      if (0 <=? z') && (z' <? Z.of_nat n) then Ret (Z.to_nat z')
      else Raise IndexError
  | _, _ => Raise TypeError
  end.

Definition char_at (s : string) (i : nat) : pyval :=
  match String.get i s with
  | Some c => PStr (String c EmptyString)
  | None => PStr ""
  end.

(** [x[i]]. *)
Definition py_getitem (x i : pyval) : outcome pyval :=
  match x with
  | PDict _ d => dict_getitem d i
  | PList l => obind (seq_index (List.length l) i) (fun n => Ret (nth n l PNone))
  | PStr s => obind (seq_index (String.length s) i) (fun n => Ret (char_at s n))
  | _ => Raise TypeError
  end.

(** [len(x)]. *)
Definition py_len (x : pyval) : outcome Z :=
  match x with
  | PStr s => Ret (Z.of_nat (String.length s))
  | PList l => Ret (Z.of_nat (List.length l))
  | PDict _ d => Ret (Z.of_nat (List.length d))
  | _ => Raise TypeError
  end.

(** [x.keys()]: only dictionaries have the method. *)
Definition py_keys (x : pyval) : outcome (list pyval) :=
  match x with
  | PDict _ d => Ret (map fst d)
  | _ => Raise (AttributeError "keys")
  end.

(** [list(ks)[0]]. *)
Definition first_of (ks : list pyval) : outcome pyval :=
  match ks with
  | k :: _ => Ret k
  | [] => Raise IndexError
  end.

Fixpoint is_substring (needle hay : string) : bool :=
  String.prefix needle hay
  || match hay with
     | EmptyString => false
     | String _ hay' => is_substring needle hay'
     end.

(** [s in c] for a string [s]: element of a list, key of a dictionary,
    substring of a string; the other values are not iterable. *)
Definition str_in (s : string) (c : pyval) : outcome bool :=
  match c with
  | PList l => Ret (existsb (py_eq (PStr s)) l)
  | PDict _ d => Ret (assoc_mem d (PStr s))
  | PStr t => Ret (is_substring s t)
  | _ => Raise TypeError
  end.

(** [x[k] = v] for a string key [k]: only a dictionary accepts it (a list
    wants an integer index, a string is immutable). *)
Definition setitem_str (x : pyval) (k : string) (v : pyval) : outcome pyval :=
  match x with
  | PDict o d => Ret (PDict o (assoc_set d (PStr k) v))
  | _ => Raise TypeError
  end.

(** [a + b] for a string literal [b]. *)
Definition add_str (a : pyval) (b : string) : outcome string :=
  match a with
  | PStr s => Ret (s ++ b)
  | _ => Raise TypeError
  end.

(** *** Containers on both sides *)

Fixpoint same_keys (ks1 ks2 : list pyval) : bool :=
  match ks1, ks2 with
  | [], [] => true
  | k1 :: ks1', k2 :: ks2' => py_eq k1 k2 && same_keys ks1' ks2'
  | _, _ => false
  end.

(** [a == b] in general.  Lists are compared element by element; two
    dictionaries are equal when they have the same number of items and every
    key of the first maps to an equal value in the second, and two
    [OrderedDict]s must moreover list their keys in the same order. *)
Fixpoint py_eq_deep (a b : pyval) {struct a} : bool :=
  match a with
  | PList l1 =>
      match b with
      | PList l2 =>
          (fix elementwise (l1 l2 : list pyval) {struct l1} : bool :=
             match l1, l2 with
             | [], [] => true
             | x :: l1', y :: l2' => py_eq_deep x y && elementwise l1' l2'
             | _, _ => false
             end) l1 l2
      | _ => false
      end
  | PDict o1 d1 =>
      match b with
      | PDict o2 d2 =>
          Nat.eqb (List.length d1) (List.length d2)
          && (fix items_in (d : list (pyval * pyval)) {struct d} : bool :=
                match d with
                | [] => true
                | (k, v) :: d' =>
                    match assoc_get d2 k with
                    | Some v' => py_eq_deep v v'
                    | None => false
                    end
                    && items_in d'
                end) d1
          && (negb (o1 && o2) || same_keys (map fst d1) (map fst d2))
      | _ => false
      end
  | _ =>
      match b with
      | PList _ | PDict _ _ => false
      | _ => py_eq a b
      end
  end.

(** [x.get(k)] for a string key [k]: the entry, or [None]. *)
Definition py_get (x : pyval) (k : string) : outcome pyval :=
  match x with
  | PDict _ d =>
      Ret (match assoc_get d (PStr k) with Some v => v | None => PNone end)
  | _ => Raise (AttributeError "get")
  end.

(** The elements that [for x in c] visits: the items of a list, the keys of a
    dictionary, the characters of a string. *)
Definition py_iter (c : pyval) : outcome (list pyval) :=
  match c with
  | PList l => Ret l
  | PDict _ d => Ret (map fst d)
  | PStr s =>
      Ret (map (fun ch => PStr (String ch EmptyString)) (list_ascii_of_string s))
  | _ => Raise TypeError
  end.

(** [x in c]: a list is searched with [==], a dictionary hashes [x], a string
    accepts only a string on the left. *)
Definition py_in (x c : pyval) : outcome bool :=
  match c with
  | PList l => Ret (existsb (py_eq_deep x) l)
  | PDict _ d => dict_contains d x
  | PStr t =>
      match x with
      | PStr s => Ret (is_substring s t)
      | _ => Raise TypeError
      end
  | _ => Raise TypeError
  end.

(** A list comprehension with a condition that can raise. *)
Fixpoint filter_outcome {A} (f : A -> outcome bool) (l : list A)
  : outcome (list A) :=
  match l with
  | [] => Ret []
  | a :: l' =>
      obind (f a) (fun keep =>
        obind (filter_outcome f l') (fun kept =>
          Ret (if keep then a :: kept else kept)))
  end.

(** *** Splitting text *)

Fixpoint string_drop (n : nat) (s : string) : string :=
  match n, s with
  | O, _ => s
  | S _, EmptyString => EmptyString
  | S n', String _ s' => string_drop n' s'
  end.

(** [s.partition(sep)] for a non-empty [sep]: the text before the first
    occurrence of [sep], [sep] itself and the text after it; [(s, "", "")]
    when [sep] does not occur. *)
Fixpoint partition (sep s : string) : string * string * string :=
  if String.prefix sep s then
    (EmptyString, sep, string_drop (String.length sep) s)
  else
    match s with
    | EmptyString => (EmptyString, EmptyString, EmptyString)
    | String c s' =>
        let '(before, found, after) := partition sep s' in
        (String c before, found, after)
    end.

End Py.
Import Py.

(** ** The plugin object seen by the tools class *)

Module Plugin.

(** Modelled from the spec: the plugin class of the orchestration layer
    ([savu/plugins/plugin.py]) is not among the sources.  Section 6 lists the
    sweep registration callbacks [alter_multi_params_dict] and
    [append_extra_dims]; section 4.5 says the first registers a sweep entry at
    the given sweep-dimension index and the second records the number of extra
    execution instances.  [name] is the attribute used in error messages. *)
Record t : Type := Build {
  name : string;
  multi_params_dict : dict;
  extra_dims : list pyval
}.

Definition get_multi_params_dict (p : t) : dict := multi_params_dict p.

Definition alter_multi_params_dict (p : t) (key value : pyval) : t :=
  Build (name p) (assoc_set (multi_params_dict p) key value) (extra_dims p).

Definition append_extra_dims (p : t) (value : pyval) : t :=
  Build (name p) (multi_params_dict p) (extra_dims p ++ [value]).

End Plugin.

(** ** The instance state and its monad *)

(** The fields of a [PluginTools] instance that the parameter methods touch:
    [param] is the dictionary of [self.param] (a [MetaData(ordered=True)]), one
    record per parameter name; [parameters] is [self.parameters], the current
    value-set; [stdout] collects what [print] writes, one entry per call.
    [plugin.set_parameters(self.parameters)] hands the plugin a reference to
    the same mapping, so the one field [parameters] stands for both views. *)
Record tools : Type := Tools {
  param : list (pyval * dict);
  parameters : dict;
  plugin_class : Plugin.t;
  stdout : list string
}.

Definition M (A : Type) : Type := tools -> outcome A * tools.

Definition ret {A} (a : A) : M A := fun s => (Ret a, s).

Definition bind {A B} (m : M A) (k : A -> M B) : M B :=
  fun s =>
    match m s with
    | (Ret a, s') => k a s'
    | (Raise e, s') => (Raise e, s')
    | (Diverge, s') => (Diverge, s')
    end.

Definition lift {A} (o : outcome A) : M A := fun s => (o, s).
Definition raise {A} (e : exn) : M A := lift (Raise e).
Definition get {A} (f : tools -> A) : M A := fun s => (Ret (f s), s).
Definition modify (f : tools -> tools) : M unit := fun s => (Ret tt, f s).

Declare Scope py_scope.
Delimit Scope py_scope with py.
Notation "x <- m ;; k" := (bind m (fun x => k))
  (at level 61, m at next level, right associativity) : py_scope.
Notation "' p <- m ;; k" := (bind m (fun p => k))
  (at level 61, p pattern, m at next level, right associativity) : py_scope.
Notation "m ;; k" := (bind m (fun _ => k))
  (at level 61, right associativity) : py_scope.
Open Scope py_scope.

(** [for a in l: body(a)]. *)
Fixpoint for_each {A} (l : list A) (body : A -> M unit) : M unit :=
  match l with
  | [] => ret tt
  | a :: l' => body a ;; for_each l' body
  end.

(** A comprehension whose element expression can raise. *)
Fixpoint map_outcome {A B} (f : A -> outcome B) (l : list A) : outcome (list B) :=
  match l with
  | [] => Ret []
  | a :: l' => obind (f a) (fun b => obind (map_outcome f l') (fun bs => Ret (b :: bs)))
  end.

Definition set_param (d : list (pyval * dict)) (s : tools) : tools :=
  Tools d (parameters s) (plugin_class s) (stdout s).
Definition set_parameters (ps : dict) (s : tools) : tools :=
  Tools (param s) ps (plugin_class s) (stdout s).
Definition set_plugin (p : Plugin.t) (s : tools) : tools :=
  Tools (param s) (parameters s) p (stdout s).

Definition print (line : string) : M unit :=
  modify (fun s => Tools (param s) (parameters s) (plugin_class s) (stdout s ++ [line])).

(** [self.parameters[k] = v]. *)
Definition assign_parameter (k v : pyval) : M unit :=
  ps <- get parameters ;;
  ps' <- lift (dict_setitem ps k v) ;;
  modify (set_parameters ps').

(** [self.param.get_dictionary()[p_name][field] = v]: the record is mutated in
    place, so the change is visible through [self.param]. *)
Definition assign_field (p_name : pyval) (field : string) (v : pyval) : M unit :=
  defs <- get param ;;
  rec <- lift (dict_getitem defs p_name) ;;
  modify (set_param (assoc_set defs p_name (assoc_set rec (PStr field) v))).

Definition nl : string := String (ascii_of_nat 10) EmptyString.
Definition esc : string := String (ascii_of_nat 27) EmptyString.
(** [colorama.Fore.RED] and [colorama.Fore.RESET]. *)
Definition Fore_RED : string := esc ++ "[31m".
Definition Fore_RESET : string := esc ++ "[39m".

Fixpoint join (sep : string) (l : list string) : string :=
  match l with
  | [] => ""
  | [a] => a
  | a :: l' => a ++ sep ++ join sep l'
  end.

(** ** The methods of [PluginParameters] *)

Module PluginParameters.

Section Methods.

(** [str()] of a float or of a container is the interpreter's [repr]; its
    text is left open. *)
Variable py_repr : pyval -> string.

(** [scripts.config_generator.parameter_utils.type_dict], the registry of
    accepted dtype names. *)
Variable type_dict : dict.

(** [parameter_utils.is_multi_param(key, value)] and
    [savu.plugins.utils.convert_multi_params(key, value)], which returns the
    pair [(value, error_str)]. *)
Variable is_multi_param : pyval -> pyval -> bool.
Variable convert_multi_params : pyval -> pyval -> pyval * pyval.

(** [str(v)]. *)
Definition py_str (v : pyval) : string :=
  match v with
  | PNone => "None"
  | PBool true => "True"
  | PBool false => "False"
  | PInt z => str_of_Z z
  | PStr s => s
  | PFloat _ | PList _ | PDict _ _ => py_repr v
  end.

Definition get_param_definitions : M (list (pyval * dict)) := get param.
Definition get_param_values : M dict := get parameters.

(** *** Validation of a class's parameter block *)

(** The order in which the members of a set of strings are iterated, and so
    the order in which [print] writes the unpacked [missing_values]: it
    follows the hashes of the strings, which change with the interpreter's
    hash seed, and is left open. *)
Variable key_order : list string -> list string.

(** The loop of [_check_required_keys]: [required_keys] is a local variable
    of the method, assigned inside the loop and carried to the next
    iteration.  The set [set(required_keys) - set(all_keys)] is kept as the
    list of its members, without an order of its own: the only use of the
    set, the [print] in [_check_required_keys], goes through [key_order].
    The call to [logger.error] before the [raise] writes to the documentation
    log only. *)
Fixpoint required_keys_loop (items : list (pyval * pyval))
    (required_keys : list string) (missing_keys : bool)
    (missing_key_dict : list (pyval * list string))
  : outcome (bool * list (pyval * list string)) :=
  match items with
  | [] => Ret (missing_keys, missing_key_dict)
  | (p_key, p) :: rest =>
      match p with
      | PDict _ d =>
          let all_keys := map fst d in
          let visibility :=
            match assoc_get d (PStr "visibility") with
            | Some v => v
            | None => PNone
            end in
          let required_keys :=
            if py_eq visibility (PStr "hidden") then ["default"]
            else required_keys in
          let present k := existsb (py_eq (PStr k)) all_keys in
          if negb (forallb present required_keys) then
            required_keys_loop rest required_keys true
              (assoc_set missing_key_dict p_key
                 (filter (fun k => negb (present k)) required_keys))
          else
            required_keys_loop rest required_keys missing_keys missing_key_dict
      | _ => Raise (AttributeError "keys")
      end
  end.

Definition _check_required_keys (param_info_dict : dict) (tool_class : string)
  : M unit :=
  let required_keys := ["dtype"; "description"; "visibility"; "default"] in
  '(missing_keys, missing_key_dict) <-
     lift (required_keys_loop param_info_dict required_keys false []) ;;
  if missing_keys then
    print (tool_class ++ " doesn't contain all of the required keys.") ;;
    for_each missing_key_dict (fun '(param, missing_values) =>
      print ("The missing required keys for '" ++ py_str param ++ "' are:") ;;
      print (join ", " (key_order missing_values))) ;;
    raise (Exception_ ("Please edit " ++ tool_class))
  else ret tt.

Definition invalid_type_line (p_key item : pyval) : string :=
  "The " ++ py_str p_key ++ " parameter has been assigned an invalid type '"
  ++ py_str item ++ "'.".

(** The loop of [_check_dtype], threading the flag [dtype_valid]. *)
Fixpoint dtype_loop (items : list (pyval * pyval)) (dtype_valid : bool)
  : M bool :=
  match items with
  | [] => ret dtype_valid
  | (p_key, p) :: rest =>
      dtype <- lift (py_getitem p (PStr "dtype")) ;;
      match dtype with
      | PList l =>
          for_each l (fun item =>
            known <- lift (dict_contains type_dict item) ;;
            if negb known then print (invalid_type_line p_key item)
            else ret tt) ;;
          dtype_loop rest dtype_valid
      | _ =>
          known <- lift (dict_contains type_dict dtype) ;;
          if negb known then
            print (invalid_type_line p_key dtype) ;;
            dtype_loop rest false
          else dtype_loop rest dtype_valid
      end
  end.

Definition _check_dtype (param_info_dict : dict) (tool_class : string)
  : M unit :=
  dtype_valid <- dtype_loop param_info_dict true ;;
  if negb dtype_valid then
    print "The type options are: " ;;
    print (join nl (map (fun key => "    " ++ py_str key) (map fst type_dict))) ;;
    raise (Exception_ ("Please edit " ++ tool_class))
  else ret tt.

(** The local list [visibility_levels] of [_check_visibility]. *)
Definition visibility_levels : list string :=
  ["basic"; "intermediate"; "advanced"; "datasets"; "hidden"; "not"].

(** [_check_data_keys(p_key, p)].  The record [p] is mutated in place; the
    result is the record as the caller sees it afterwards. *)
Definition _check_data_keys (p_key p : pyval) : outcome pyval :=
  let datasets := [PStr "in_datasets"; PStr "out_datasets"] in
  if existsb (py_eq p_key) datasets then
    obind (py_getitem p (PStr "visibility")) (fun visibility =>
      if negb (py_eq visibility (PStr "datasets"))
         && negb (py_eq visibility (PStr "not"))
      then setitem_str p "visibility" (PStr "datasets")
      else Ret p)
  else Ret p.

Definition invalid_visibility_line (tool_class : string)
    (p_key visibility : pyval) : string :=
  "Inside " ++ tool_class ++ " the " ++ py_str p_key
  ++ " parameter is assigned an invalid visibility level '"
  ++ py_str visibility ++ "'".

(** The loop of [_check_visibility], threading the flag [visibility_valid];
    it returns the flag and the block with the records as [_check_data_keys]
    left them. *)
Fixpoint visibility_loop (tool_class : string) (items : list (pyval * pyval))
    (visibility_valid : bool) : M (bool * list (pyval * pyval)) :=
  match items with
  | [] => ret (visibility_valid, [])
  | (p_key, p) :: rest =>
      p' <- lift (_check_data_keys p_key p) ;;
      visibility <- lift (py_getitem p' (PStr "visibility")) ;;
      if negb (existsb (py_eq visibility) (map PStr visibility_levels)) then
        print (invalid_visibility_line tool_class p_key visibility) ;;
        print "Valid choices are:" ;;
        print (join ", " visibility_levels) ;;
        '(valid, rest') <- visibility_loop tool_class rest false ;;
        ret (valid, (p_key, p') :: rest')
      else
        '(valid, rest') <- visibility_loop tool_class rest visibility_valid ;;
        ret (valid, (p_key, p') :: rest')
  end.

(** [_check_visibility]; the block it returns is [param_info_dict] after the
    call. *)
Definition _check_visibility (param_info_dict : dict) (tool_class : string)
  : M dict :=
  '(visibility_valid, block) <- visibility_loop tool_class param_info_dict true ;;
  if negb visibility_valid then
    raise (Exception_ ("Please change the file for " ++ tool_class))
  else ret block.

(** The loop of [_check_options]; the result is the flag [options_valid].
    [param_info_dict[p_key]] is the record [p] of the iteration, and the
    [break] leaves the records behind the first offending one unread. *)
Fixpoint options_loop (items : list (pyval * pyval)) : outcome bool :=
  match items with
  | [] => Ret true
  | (p_key, p) :: rest =>
      obind (py_getitem p (PStr "description")) (fun desc =>
        if is_dict desc then
          obind (py_get p "options") (fun options =>
            obind (py_get desc "options") (fun option_desc =>
              if py_truthy options && py_truthy option_desc then
                obind (py_iter option_desc) (fun opts =>
                  obind (filter_outcome
                           (fun opt =>
                              obind (py_in opt options) (fun found =>
                                Ret (negb found)))
                           opts) (fun invalid_option =>
                    match invalid_option with
                    | [] => options_loop rest
                    | _ :: _ => Ret false
                    end))
              else options_loop rest))
        else options_loop rest)
  end.

Definition _check_options (param_info_dict : dict) (tool_class : string)
  : M unit :=
  options_valid <- lift (options_loop param_info_dict) ;;
  if negb options_valid then
    raise (Exception_ ("Please check the parameter options for " ++ tool_class))
  else ret tt.

(** [_set_display] on a block whose records are dictionaries (the
    required-key check has already called [keys()] on each of them). *)
Definition _set_display (param_info_dict : list (pyval * dict))
  : list (pyval * dict) :=
  map (fun '(k, v) => (k, assoc_set v (PStr "display") (PStr "on")))
      param_info_dict.

(** *** Default resolution *)

Definition does_exist {V} (key : pyval) (ddict : list (pyval * V)) : outcome V :=
  obind (dict_contains ddict key) (fun found =>
    if negb found then
      Raise (Exception_ ("The dependency " ++ py_str key ++ " does not exist"))
    else dict_getitem ddict key).

(** [get_dependent_default(child)].  The recursion is not structural, so it
    carries a depth budget; [Diverge] is returned when the budget is used
    up. *)
Fixpoint get_dependent_default (fuel : nat) (child : dict) : M pyval :=
  match fuel with
  | O => lift Diverge
  | S fuel' =>
      pdefs <- get_param_definitions ;;
      default <- lift (dict_getitem child (PStr "default")) ;;
      keys <- lift (py_keys default) ;;
      parent_name <- lift (first_of keys) ;;
      parent <- lift (does_exist parent_name pdefs) ;;
      parent_default <- lift (dict_getitem parent (PStr "default")) ;;
      match parent_default with
      | PDict _ descriptor =>
          v <- get_dependent_default fuel' descriptor ;;
          assign_parameter parent_name v
      | _ => ret tt
      end ;;
      branches <- lift (py_getitem default parent_name) ;;
      ps <- get parameters ;;
      current <- lift (dict_getitem ps parent_name) ;;
      lift (py_getitem branches current)
  end.

(** The body of the loop of [update_dependent_defaults]. *)
Definition update_default (fuel : nat) (item : pyval * dict) : M unit :=
  let '(name, pdict) := item in
  default <- lift (dict_getitem pdict (PStr "default")) ;;
  if py_truthy default && is_dict default then
    v <- get_dependent_default fuel pdict ;;
    assign_parameter name v
  else ret tt.

Definition update_dependent_defaults (fuel : nat) : M unit :=
  pdefs <- get_param_definitions ;;
  for_each pdefs (update_default fuel).

(** *** Dependencies and display flags *)

(** [dep_list]: the parameters that carry a [dependency], with it. *)
Definition dependency_list (param_info_dict : list (pyval * dict))
  : list (pyval * pyval) :=
  flat_map (fun '(k, v) =>
              match assoc_get v (PStr "dependency") with
              | Some dependency => [(k, dependency)]
              | None => []
              end) param_info_dict.

(** The body of the loop of [check_dependencies]. *)
Definition check_dependency (parameters : dict) (item : pyval * pyval) : M unit :=
  let '(p_name, dependency) := item in
  match dependency with
  | PDict true dep =>
      parent_param_name <- lift (first_of (map fst dep)) ;;
      parent_choice_list <- lift (dict_getitem dep parent_param_name) ;;
      present <- lift (dict_contains parameters parent_param_name) ;;
      if present then
        parent_value <- lift (dict_getitem parameters parent_param_name) ;;
        chosen <- lift (str_in (py_str parent_value) parent_choice_list) ;;
        if chosen then assign_field p_name "display" (PStr "on")
        else assign_field p_name "display" (PStr "off")
      else ret tt
  | _ =>
      present <- lift (dict_contains parameters dependency) ;;
      if present then
        parent_value <- lift (dict_getitem parameters dependency) ;;
        if match parent_value with PNone => true | _ => false end
           || String.eqb (py_str parent_value) "None"
        then assign_field p_name "display" (PStr "off")
        else assign_field p_name "display" (PStr "on")
      else ret tt
  end.

Definition check_dependencies (parameters : dict) : M unit :=
  param_info_dict <- get param ;;
  for_each (dependency_list param_info_dict) (check_dependency parameters).

(** [set_docstring] writes [self.docstring_info] only, and the closing
    [set_parameters] call hands [self.parameters] to the plugin; neither
    touches the two dictionaries. *)
Definition _populate_default_parameters (fuel : nat) : M unit :=
  p_defs <- get_param_definitions ;;
  ps <- lift (map_outcome
                (fun '(k, v) =>
                   obind (dict_getitem v (PStr "default")) (fun d => Ret (k, d)))
                p_defs) ;;
  modify (set_parameters ps) ;;
  update_dependent_defaults fuel ;;
  current <- get parameters ;;
  check_dependencies current.

(** *** Loading the definitions of a tools class *)

(** [savu.plugins.utils._dumps], which turns the text of a default into a
    value or raises, and [MetaData.set] on the dictionary of [self.param];
    neither is among the sources. *)
Variable _dumps : pyval -> outcome pyval.
Variable metadata_set :
  list (pyval * dict) -> pyval -> dict -> outcome (list (pyval * dict)).

(** The type check that ends [_load_param_from_doc].  [parsed] is the value
    of the local [param_info_dict] before it: [None] when the class has no
    [define_parameters] docstring or a blank one, and what
    [doc.load_yaml_doc] made of the docstring otherwise. *)
Definition _load_param_from_doc (parsed : pyval) (tool_class : string)
  : outcome pyval :=
  if py_truthy parsed then
    match parsed with
    | PDict true _ => Ret parsed
    | _ =>
        Raise (Exception_ ("The parameters have not been read in correctly for "
                           ++ tool_class))
    end
  else Ret parsed.

(** The records of a block, for [_set_display]: [v["display"] = "on"] needs a
    dictionary. *)
Definition records_of (block : dict) : outcome (list (pyval * dict)) :=
  map_outcome (fun '(k, v) =>
                 match v with
                 | PDict _ d => Ret (k, d)
                 | _ => Raise TypeError
                 end) block.

(** The body of the last loop of [_set_parameter_definitions]. *)
Definition store_definition (item : pyval * dict) : M unit :=
  let '(p_name, p_value) := item in
  default <- lift (dict_getitem p_value (PStr "default")) ;;
  dumped <- lift (_dumps default) ;;
  let p_value := assoc_set p_value (PStr "default") dumped in
  defs <- get param ;;
  defs' <- lift (metadata_set defs p_name p_value) ;;
  modify (set_param defs').

Definition _set_parameter_definitions (parsed : pyval) (tool_class : string)
  : M unit :=
  param_info_dict <- lift (_load_param_from_doc parsed tool_class) ;;
  if py_truthy param_info_dict then
    match param_info_dict with
    | PDict _ block =>
        _check_required_keys block tool_class ;;
        _check_options block tool_class ;;
        block <- _check_visibility block tool_class ;;
        _check_dtype block tool_class ;;
        records <- lift (records_of block) ;;
        for_each (_set_display records) store_definition
    | _ => raise (AttributeError "items")
    end
  else ret tt.

(** [populate_parameters(tools_list)]; a tools class is given by what its
    docstring parses to and by its name. *)
Definition populate_parameters (fuel : nat) (tools_list : list (pyval * string))
  : M unit :=
  for_each tools_list (fun '(parsed, tool_class) =>
    _set_parameter_definitions parsed tool_class) ;;
  _populate_default_parameters fuel.

(** *** The parameters of one instance of a sweep *)

(** The order in which [for dim in set(keys)] visits the keys, which the
    language leaves to the implementation. *)
Variable set_order : list pyval -> list pyval.

(** [s.split(sep)[0]]: the text before the first [sep]. *)
Definition split_first (sep : string) (s : pyval) : outcome pyval :=
  match s with
  | PStr t => Ret (PStr (fst (fst (partition sep t))))
  | _ => Raise (AttributeError "split")
  end.

(** The loop of [_set_parameters_this_instance], threading [count]. *)
Fixpoint this_instance_loop (multi_params_dict : dict) (indices : pyval)
    (dims : list pyval) (count : Z) : M unit :=
  match dims with
  | [] => ret tt
  | dim :: dims' =>
      info <- lift (dict_getitem multi_params_dict dim) ;;
      label <- lift (py_getitem info (PStr "label")) ;;
      name <- lift (split_first "_param" label) ;;
      values <- lift (py_getitem info (PStr "values")) ;;
      index <- lift (py_getitem indices (PInt count)) ;;
      value <- lift (py_getitem values index) ;;
      assign_parameter name value ;;
      this_instance_loop multi_params_dict indices dims' (count + 1)
  end.

(** [_set_parameters_this_instance(indices)], with the value of the
    attribute [self.multi_params_dict] as an argument. *)
Definition _set_parameters_this_instance (multi_params_dict : dict)
    (indices : pyval) : M unit :=
  this_instance_loop multi_params_dict indices
    (set_order (map fst multi_params_dict)) 0.

(** *** Recommendations *)

(** [desc] is the description object of the record [child_name]:
    [desc["range"] = ...] mutates it in place, so the record stored in
    [self.param] changes with it. *)
Definition make_recommendation (child_name desc parent_name value : pyval)
  : M unit :=
  desc' <- lift (setitem_str desc "range"
             (PStr ("The recommended value with the chosen "
                    ++ py_str parent_name ++ " would be " ++ py_str value))) ;;
  assign_field child_name "description" desc' ;;
  let recommendation :=
    "It's recommended that you update " ++ py_str child_name
    ++ " to " ++ py_str value in
  print (Fore_RED ++ recommendation ++ Fore_RESET).

(** The body of the loop of [warn_dependents].  [pdict] is the record object
    stored under [name]; it is read through [self.param], because
    [make_recommendation] mutates records in place. *)
Definition warn_dependent (mod_param mod_value name : pyval) : M unit :=
  defs <- get param ;;
  pdict <- lift (dict_getitem defs name) ;;
  default <- lift (dict_getitem pdict (PStr "default")) ;;
  match default with
  | PDict true d =>
      parent_name <- lift (first_of (map fst d)) ;;
      if py_eq parent_name mod_param then
        branches <- lift (dict_getitem d parent_name) ;;
        keys <- lift (py_keys branches) ;;
        found <- lift (if hashable mod_value
                       then Ret (existsb (py_eq mod_value) keys)
                       else Raise TypeError) ;;
        if found then
          value <- lift (py_getitem branches mod_value) ;;
          desc <- lift (dict_getitem pdict (PStr "description")) ;;
          make_recommendation name desc parent_name value
        else ret tt
      else ret tt
  | _ => ret tt
  end.

Definition warn_dependents (mod_param mod_value : pyval) : M unit :=
  pdefs <- get_param_definitions ;;
  for_each (map fst pdefs) (warn_dependent mod_param mod_value).

(** *** Overrides from the process list *)

(** [check_for_default]: [self._set_default] is defined neither by
    [PluginParameters] nor by any other base of [PluginTools], so the
    attribute lookup fails once the default has been fetched. *)
Definition check_for_default (value param_name : pyval) (parameters : dict)
  : M pyval :=
  param_info_dict <- get param ;;
  if String.eqb (py_str value) "default" then
    record <- lift (dict_getitem param_info_dict param_name) ;;
    default <- lift (dict_getitem record (PStr "default")) ;;
    raise (AttributeError "_set_default")
  else ret value.

(** [__check_multi_params(parameters, value, key)]; its only caller passes
    [self.parameters], which is the mapping assigned to here. *)
Definition __check_multi_params (value key : pyval) : M unit :=
  plugin <- get plugin_class ;;
  if is_multi_param key value then
    let '(value, error_str) := convert_multi_params key value in
    if negb (py_truthy error_str) then
      assign_parameter key value ;;
      prefix <- lift (add_str key "_params.") ;;
      first <- lift (py_getitem value (PInt 0)) ;;
      let label := prefix ++ type_name first in
      let index := PInt (Z.of_nat (List.length (Plugin.get_multi_params_dict plugin))) in
      modify (fun s => set_plugin
        (Plugin.alter_multi_params_dict (plugin_class s) index
           (PDict false [(PStr "label", PStr label); (PStr "values", value)])) s) ;;
      n <- lift (py_len value) ;;
      modify (fun s => set_plugin
        (Plugin.append_extra_dims (plugin_class s) (PInt n)) s)
    else ret tt
  else assign_parameter key value.

Definition invalid_parameter_message (key : pyval) (plugin_name : string)
  : string :=
  "Parameter '" ++ py_str key ++ "' is not valid for plugin " ++ plugin_name
  ++ ". " ++ nl ++ "Try opening and re-saving the process list in the "
  ++ "configurator to auto remove " ++ nl ++ "obsolete parameters.".

(** The body of the loop of [set_plugin_list_parameters] for one key. *)
Definition override_body (input_parameters : dict) (key : pyval) : M unit :=
  ps <- get parameters ;;
  known <- lift (dict_contains ps key) ;;
  if known then
    new_value <- lift (dict_getitem input_parameters key) ;;
    __check_multi_params new_value key
  else
    plugin <- get plugin_class ;;
    raise (ValueError (invalid_parameter_message key (Plugin.name plugin))).

Definition set_plugin_list_parameters (input_parameters : dict) : M unit :=
  for_each (map fst input_parameters) (override_body input_parameters).

End Methods.

End PluginParameters.
Import PluginParameters.

(** ** The methods of [PluginCitations] *)

Module PluginCitations.

Section Methods.

Variable py_repr : pyval -> string.

(** [savu.plugins.docstring_parser.remove_new_lines], not among the
    sources. *)
Variable remove_new_lines : string -> string.

(** The local list [all_keys] of [_citation_keys_valid]. *)
Definition all_keys : list string :=
  ["short_name_article"; "description"; "bibtex"; "endnote"; "doi"; "dependency"].

(** [_citation_keys_valid(new_citation, tool_class)].  The last [print]
    writes its two arguments with a space between them, the second being the
    list [additional_keys]. *)
Definition _citation_keys_valid (new_citation : pyval) (tool_class : string)
  : M bool :=
  let required_keys := ["description"] in
  citation_keys <- lift (py_keys new_citation) ;;
  let check_keys :=
    forallb (fun item => existsb (py_eq (PStr item)) citation_keys)
            required_keys in
  let citation_keys_valid := if negb check_keys then false else true in
  let additional_keys :=
    filter (fun k => negb (existsb (py_eq k) (map PStr all_keys)))
           citation_keys in
  match additional_keys with
  | [] => ret tt
  | _ :: _ =>
      print ("Please only use the following keys inside the citation"
             ++ " definition for " ++ tool_class ++ ":") ;;
      print (join ", " all_keys) ;;
      print ("The incorrect keys used: " ++ py_str py_repr (PList additional_keys))
  end ;;
  ret citation_keys_valid.

Definition nonempty (s : string) : bool := negb (String.eqb s "").

(** [seperate_description(yaml_text)]. *)
Definition seperate_description (yaml_text : string) : string :=
  let description :=
    remove_new_lines (fst (fst (partition "bibtex:" yaml_text))) in
  let desc_str := "        description:" ++ description in
  let bibtex_text :=
    fst (fst (partition "endnote:" (snd (partition "bibtex:" yaml_text)))) in
  let end_text :=
    snd (partition "endnote:" (snd (partition "bibtex:" yaml_text))) in
  if nonempty bibtex_text && nonempty end_text then
    desc_str ++ nl ++ "        bibtex: |" ++ bibtex_text
    ++ "endnote: |" ++ end_text
  else if nonempty end_text then
    desc_str ++ nl ++ "        endnote: |" ++ end_text
  else if nonempty bibtex_text then
    desc_str ++ nl ++ "        bibtex: |" ++ bibtex_text
  else desc_str.

End Methods.

End PluginCitations.
Import PluginCitations.

(** ** Sample parameter blocks and instances *)

Module Samples.

(** The samples pass no float and no container to [str()], so the text that
    [py_repr] would give is never consulted. *)
Definition repr_unused : pyval -> string := fun _ => "".

(** A stand-in for the iteration order of a set of strings: the order in
    which the members are listed. *)
Definition listed_order : list string -> list string := fun keys => keys.

Definition record (visibility : string) (default : pyval) : dict :=
  [ (PStr "visibility", PStr visibility);
    (PStr "dtype", PStr "int");
    (PStr "description", PStr "A parameter.");
    (PStr "default", default);
    (PStr "display", PStr "on") ].

Definition demo_plugin : Plugin.t := Plugin.Build "DemoPlugin" [] [].

Definition instance (defs : list (pyval * dict)) (values : dict) : tools :=
  Tools defs values demo_plugin [].

(** The value-set that [_populate_default_parameters] starts from. *)
Definition defaults_of (defs : list (pyval * dict)) : dict :=
  flat_map (fun '(k, v) =>
              match assoc_get v (PStr "default") with
              | Some d => [(k, d)]
              | None => []
              end) defs.

(** A chain of depth two: [C] is a literal, [B] depends on [C], [A] on [B]. *)
Definition chain_C : dict := record "basic" (PInt 2).
Definition chain_B : dict :=
  record "basic" (PDict true [(PStr "C", PDict true [(PInt 2, PStr "x")])]).
Definition chain_A : dict :=
  record "basic" (PDict true [(PStr "B", PDict true [(PStr "x", PInt 42)])]).
Definition chain_defs : list (pyval * dict) :=
  [(PStr "C", chain_C); (PStr "B", chain_B); (PStr "A", chain_A)].
Definition chain : tools := instance chain_defs (defaults_of chain_defs).

(** A block in which a hidden parameter precedes a parameter that declares
    neither [dtype] nor [description]. *)
Definition hidden_param : pyval :=
  PDict true [(PStr "visibility", PStr "hidden"); (PStr "default", PInt 0)].
Definition bare_param : pyval :=
  PDict true [(PStr "visibility", PStr "basic"); (PStr "default", PInt 1)].
Definition hidden_first : dict :=
  [(PStr "secret", hidden_param); (PStr "size", bare_param)].
Definition hidden_last : dict :=
  [(PStr "size", bare_param); (PStr "secret", hidden_param)].

(** A block whose only parameter lists an unknown dtype token. *)
Definition bogus_list_block : dict :=
  [(PStr "size",
    PDict true [ (PStr "visibility", PStr "basic");
                 (PStr "dtype", PList [PStr "int"; PStr "bogus"]);
                 (PStr "description", PStr "A size.");
                 (PStr "default", PInt 1) ])].
Definition bogus_scalar_block : dict :=
  [(PStr "size",
    PDict true [ (PStr "visibility", PStr "basic");
                 (PStr "dtype", PStr "bogus");
                 (PStr "description", PStr "A size.");
                 (PStr "default", PInt 1) ])].
Definition small_registry : dict :=
  [(PStr "int", PNone); (PStr "float", PNone); (PStr "str", PNone)].

(** A plugin with a mode switch and a threshold shown in manual mode only. *)
Definition mode_record : dict := record "basic" (PStr "auto").
Definition threshold_record : dict :=
  (record "basic" (PFloat 0.5%float)
   ++ [(PStr "dependency", PDict true [(PStr "mode", PList [PStr "manual"])])])%list.
Definition tuned_defs : list (pyval * dict) :=
  [(PStr "mode", mode_record); (PStr "threshold", threshold_record)].
Definition tuned : tools := instance tuned_defs (defaults_of tuned_defs).

(** A threshold whose default follows the mode, with a structured
    description. *)
Definition advised_description : pyval :=
  PDict true [ (PStr "summary", PStr "The cut-off.");
               (PStr "verbose", PStr "Values above the cut-off are kept.") ].
Definition advised_threshold : dict :=
  [ (PStr "visibility", PStr "basic");
    (PStr "dtype", PStr "int");
    (PStr "description", advised_description);
    (PStr "default",
     PDict true [(PStr "mode",
                  PDict true [(PStr "auto", PInt 1); (PStr "manual", PInt 5)])]);
    (PStr "display", PStr "on") ].
Definition advised_defs : list (pyval * dict) :=
  [(PStr "mode", mode_record); (PStr "threshold", advised_threshold)].
Definition advised : tools :=
  instance advised_defs [(PStr "mode", PStr "manual"); (PStr "threshold", PInt 1)].

(** A set whose chains of parent names are acyclic: [A] depends on [X], [X]
    on the parameter called [default], which is a literal.  With [default]
    holding ["X"], [X] resolves to 5 and [A] to 1. *)
Definition looping_X_descriptor : dict :=
  [(PStr "default", PDict true [(PStr "X", PInt 5)])].
Definition looping_default : dict := record "basic" (PStr "X").
Definition looping_X : dict := record "basic" (PDict true looping_X_descriptor).
Definition looping_A : dict :=
  record "basic" (PDict true [(PStr "X", PDict true [(PInt 5, PInt 1)])]).
Definition looping_defs : list (pyval * dict) :=
  [ (PStr "default", looping_default); (PStr "X", looping_X);
    (PStr "A", looping_A) ].
Definition looping : tools := instance looping_defs [].

(** A parameter shown when [filter] is set, with [filter] holding the text
    ["None"]. *)
Definition gated_defs : list (pyval * dict) :=
  [ (PStr "filter", record "basic" (PStr "None"));
    (PStr "size",
     (record "basic" (PInt 3) ++ [(PStr "dependency", PStr "filter")])%list) ].
Definition gated : tools := instance gated_defs (defaults_of gated_defs).

(** Stand-ins for the two helpers on the overrides used below: a string with
    a semicolon is a multi-value, ["1;2;3"] converts to three floats and any
    other multi-value is reported as malformed. *)
Definition semicolon_syntax (key value : pyval) : bool :=
  match value with
  | PStr v => is_substring ";" v
  | _ => false
  end.
Definition convert_sample (key value : pyval) : pyval * pyval :=
  match value with
  | PStr "1;2;3" =>
      (PList [PFloat 1%float; PFloat 2%float; PFloat 3%float], PStr "")
  | _ => (value, PStr "Ensure start:stop:step; values are valid.")
  end.

(** A converter that drops the empty items of a multi-value: [";"] holds
    none. *)
Definition convert_blank (key value : pyval) : pyval * pyval :=
  match value with
  | PStr ";" => (PList [], PStr "")
  | _ => convert_sample key value
  end.

(** A plugin whose only parameter is a threshold declared as a float. *)
Definition float_threshold : dict :=
  [ (PStr "visibility", PStr "basic");
    (PStr "dtype", PStr "float");
    (PStr "description", PStr "The cut-off.");
    (PStr "default", PFloat 0.5%float);
    (PStr "display", PStr "on") ].
Definition swept_defs : list (pyval * dict) :=
  [(PStr "threshold", float_threshold)].
Definition swept : tools := instance swept_defs (defaults_of swept_defs).

(** A block with the two dataset parameters: [in_datasets] is declared
    [basic], [out_datasets] is switched off with [not]. *)
Definition full_record (visibility : string) (dtype default : pyval) : pyval :=
  PDict true [ (PStr "visibility", PStr visibility);
               (PStr "dtype", dtype);
               (PStr "description", PStr "A parameter.");
               (PStr "default", default) ].
Definition dataset_block : dict :=
  [ (PStr "in_datasets", full_record "basic" (PStr "list") (PList []));
    (PStr "out_datasets", full_record "not" (PStr "list") (PList []));
    (PStr "size", full_record "advanced" (PStr "int") (PInt 3)) ].

(** A block with two levels that do not exist. *)
Definition expert_block : dict :=
  [ (PStr "size", full_record "expert" (PStr "int") (PInt 3));
    (PStr "mode", full_record "basic" (PStr "str") (PStr "auto"));
    (PStr "depth", full_record "Basic" (PStr "int") (PInt 1)) ].

(** A parameter with two options, and a description that explains a third
    one. *)
Definition explained_options (names : list string) : pyval :=
  PDict true (map (fun n => (PStr n, PStr "What the option does.")) names).
Definition option_record (explained : list string) : pyval :=
  PDict true
    [ (PStr "visibility", PStr "basic");
      (PStr "dtype", PStr "str");
      (PStr "description",
       PDict true [ (PStr "summary", PStr "The method.");
                    (PStr "options", explained_options explained) ]);
      (PStr "default", PStr "auto");
      (PStr "options", PList [PStr "auto"; PStr "manual"]) ].
Definition stray_option_block : dict :=
  [ (PStr "size", full_record "basic" (PStr "int") (PInt 3));
    (PStr "mode", option_record ["auto"; "manual"; "guided"]) ].

(** A block without hidden parameters in which two records are incomplete. *)
Definition gappy_block : dict :=
  [ (PStr "size",
     PDict true [(PStr "visibility", PStr "basic"); (PStr "default", PInt 1)]);
    (PStr "mode", full_record "basic" (PStr "str") (PStr "auto"));
    (PStr "depth",
     PDict true [ (PStr "dtype", PStr "int");
                  (PStr "description", PStr "The depth.");
                  (PStr "visibility", PStr "advanced") ]) ].

(** A block with an unknown scalar dtype and an unknown token in a list. *)
Definition mistyped_block : dict :=
  [ (PStr "size", full_record "basic" (PList [PStr "int"; PStr "bogus"]) (PInt 1));
    (PStr "mode", full_record "basic" (PStr "text") (PStr "auto")) ].

(** A block that passes the four checks against [small_registry]. *)
Definition loadable_block : dict :=
  [ (PStr "in_datasets", full_record "basic" (PStr "str") (PStr "tomo"));
    (PStr "size", full_record "advanced" (PList [PStr "int"; PStr "float"]) (PInt 3)) ].

(** Stand-ins for the two helpers of the loading loop: the default is kept
    as it is, and [MetaData.set] assigns the item. *)
Definition dumps_sample (v : pyval) : outcome pyval := Ret v.
Definition metadata_set_sample (defs : list (pyval * dict)) (k : pyval)
    (v : dict) : outcome (list (pyval * dict)) :=
  Ret (assoc_set defs k v).

End Samples.
Import Samples.

(** ** Well-formed definition sets *)

(** Parameter names are strings, pairwise different. *)
Fixpoint distinct_names (names : list pyval) : bool :=
  match names with
  | [] => true
  | PStr a :: names' =>
      negb (existsb (py_eq (PStr a)) names') && distinct_names names'
  | _ => false
  end.

Definition iterable (v : pyval) : bool :=
  match v with
  | PStr _ | PList _ | PDict _ _ => true
  | _ => false
  end.

(** The two forms of a [dependency] attribute: a parent name, or an ordered
    mapping from a parent name to the collection of values that show the
    parameter. *)
Definition dependency_ok (dependency : pyval) : bool :=
  match dependency with
  | PStr _ => true
  | PDict true ((PStr _, choices) :: _) => iterable choices
  | _ => false
  end.

Definition dependencies_ok (defs : list (pyval * dict)) : bool :=
  forallb (fun '(_, rec) =>
             match assoc_get rec (PStr "dependency") with
             | Some dependency => dependency_ok dependency
             | None => true
             end) defs.

(** The display flag of the parameter [p]. *)
Definition display_of (defs : list (pyval * dict)) (p : pyval) : option pyval :=
  match assoc_get defs p with
  | Some rec => assoc_get rec (PStr "display")
  | None => None
  end.

(** The description of the parameter [p]. *)
Definition description_of (defs : list (pyval * dict)) (p : pyval)
  : option pyval :=
  match assoc_get defs p with
  | Some rec => assoc_get rec (PStr "description")
  | None => None
  end.

Definition parent_of (dependency : pyval) : pyval :=
  match dependency with
  | PDict true ((parent, _) :: _) => parent
  | _ => dependency
  end.

Definition is_none (v : pyval) : bool :=
  match v with PNone => true | _ => false end.

Definition flag (on : bool) : pyval := PStr (if on then "on" else "off").

(** Whether a parameter is shown, given the current value [v] of its
    parent. *)
Definition shown (repr : pyval -> string) (dependency v : pyval) : bool :=
  match dependency with
  | PDict true ((_, choices) :: _) =>
      match str_in (py_str repr v) choices with
      | Ret b => b
      | _ => false
      end
  | _ => negb (is_none v || String.eqb (py_str repr v) "None")
  end.

(** A record after the dependency check against the value mapping [ps]. *)
Definition checked_record (repr : pyval -> string) (ps : dict) (rec : dict)
  : dict :=
  match assoc_get rec (PStr "dependency") with
  | None => rec
  | Some dependency =>
      match assoc_get ps (parent_of dependency) with
      | None => rec
      | Some v => assoc_set rec (PStr "display") (flag (shown repr dependency v))
      end
  end.

(** ** Frame conditions *)

(** What an override never changes: the definitions, the set of keys of
    the value-set and the plugin's name. *)
Definition stable (s s' : tools) : Prop :=
  param s' = param s
  /\ map fst (parameters s') = map fst (parameters s)
  /\ Plugin.name (plugin_class s') = Plugin.name (plugin_class s).

(** A computation keeps the definitions within the relation [R]. *)
Definition preserves (R : list (pyval * dict) -> list (pyval * dict) -> Prop)
    {A} (m : M A) : Prop :=
  forall s : tools, R (param s) (param (snd (m s))).

(** Two definition sets with the same names in the same order whose records
    are related by [Q]. *)
Definition recordwise (Q : dict -> dict -> Prop)
    (defs defs' : list (pyval * dict)) : Prop :=
  Forall2 (fun x y => fst y = fst x /\ Q (snd x) (snd y)) defs defs'.

(** Records that agree on every key but [display]. *)
Definition same_but_display (r r' : dict) : Prop :=
  forall k : pyval,
    py_eq k (PStr "display") = false -> assoc_get r' k = assoc_get r k.

(** A description is unchanged, or it is a dictionary that agrees with the
    old one on every key but [range]. *)
Definition description_frame (d d' : option pyval) : Prop :=
  d' = d
  \/ exists (o : bool) (items items' : dict),
       d = Some (PDict o items) /\ d' = Some (PDict o items')
       /\ forall k : pyval,
            py_eq k (PStr "range") = false ->
            assoc_get items' k = assoc_get items k.

(** Records that agree on every key but [display] and [description], and
    whose descriptions differ at most in the [range] entry. *)
Definition record_frame (r r' : dict) : Prop :=
  (forall k : pyval,
     py_eq k (PStr "display") = false ->
     py_eq k (PStr "description") = false ->
     assoc_get r' k = assoc_get r k)
  /\ description_frame (assoc_get r (PStr "description"))
                       (assoc_get r' (PStr "description")).

Definition display_only : list (pyval * dict) -> list (pyval * dict) -> Prop :=
  recordwise same_but_display.

Definition definitions_frame : list (pyval * dict) -> list (pyval * dict) -> Prop :=
  recordwise record_frame.

(** ** Default resolution: what it reads, and when it stops *)

(** What default resolution and the dependency check read of the
    definitions: for each name, the [default] and the [dependency]. *)
Definition resolution_view (defs : list (pyval * dict))
  : list (pyval * (option pyval * option pyval)) :=
  map (fun '(k, r) =>
         (k, (assoc_get r (PStr "default"), assoc_get r (PStr "dependency"))))
      defs.

Definition same_view (defs defs' : list (pyval * dict)) : Prop :=
  resolution_view defs' = resolution_view defs.

(** Two instances that default resolution cannot tell apart. *)
Definition alike (s s' : tools) : Prop :=
  same_view (param s) (param s') /\ parameters s = parameters s'.

(** Two runs with the same outcome from alike instances to alike
    instances. *)
Definition agree {A} (m m' : M A) (s s' : tools) : Prop :=
  exists (o : outcome A) (t t' : tools),
    m s = (o, t) /\ m' s' = (o, t') /\ alike t t'.

(** The dictionary that [get_dependent_default] hands to its recursive call
    when it is called on [child], if it makes one: the default of the parent
    named by the first key of [child['default']]. *)
Definition recursive_argument (defs : list (pyval * dict)) (child : dict)
  : option dict :=
  match assoc_get child (PStr "default") with
  | Some (PDict _ ((parent_name, _) :: _)) =>
      if hashable parent_name then
        match assoc_get defs parent_name with
        | Some parent =>
            match assoc_get parent (PStr "default") with
            | Some (PDict _ descriptor) => Some descriptor
            | _ => None
            end
        | None => None
        end
      else None
  | _ => None
  end.

(** The chain of recursive calls that starts at [child] ends within [n]
    calls. *)
Fixpoint call_chain_ends (defs : list (pyval * dict)) (n : nat) (child : dict)
  : bool :=
  match n with
  | O => false
  | S n' =>
      match recursive_argument defs child with
      | None => true
      | Some next => call_chain_ends defs n' next
      end
  end.

(** The chains of recursive calls are finite: the one that starts at any
    record ends within [n] calls. *)
Definition call_chains_end (defs : list (pyval * dict)) (n : nat) : bool :=
  forallb (fun '(_, r) => call_chain_ends defs n r) defs.

(** The parent that a record's default depends on, if it is a descriptor. *)
Definition parent_name_of (rec : dict) : option pyval :=
  match assoc_get rec (PStr "default") with
  | Some (PDict _ ((parent_name, _) :: _)) => Some parent_name
  | _ => None
  end.

(** The chain of parents that starts at [rec] ends within [n] steps: at a
    literal default, or at a parent that is not declared. *)
Fixpoint parents_end (defs : list (pyval * dict)) (n : nat) (rec : dict)
  : bool :=
  match n with
  | O => false
  | S n' =>
      match parent_name_of rec with
      | None => true
      | Some parent_name =>
          match assoc_get defs parent_name with
          | Some parent => parents_end defs n' parent
          | None => true
          end
      end
  end.

(** The dependency chains of the definition set are acyclic: following the
    parents from any parameter ends, within [n] steps.  (With finitely many
    parameters a chain of parents either ends or runs into a cycle.) *)
Definition acyclic (defs : list (pyval * dict)) (n : nat) : bool :=
  forallb (fun '(_, r) => parents_end defs n r) defs.

(** No descriptor is keyed by the word [default]. *)
Definition plain_descriptors (defs : list (pyval * dict)) : bool :=
  forallb (fun '(_, r) =>
             match assoc_get r (PStr "default") with
             | Some (PDict _ d) => negb (assoc_mem d (PStr "default"))
             | _ => true
             end) defs.

(** A computation never runs out of budget. *)
Definition halts {A} (m : M A) : Prop :=
  forall s : tools, fst (m s) <> Diverge.

(** The same on the instances whose definitions are [defs], which it keeps. *)
Definition halts_on (defs : list (pyval * dict)) {A} (m : M A) : Prop :=
  forall s : tools,
    param s = defs -> fst (m s) <> Diverge /\ param (snd (m s)) = defs.

(** ** Loading: what the validators look at *)

(** The instance after some lines have been printed. *)
Definition printed (lines : list string) (s : tools) : tools :=
  Tools (param s) (parameters s) (plugin_class s) (stdout s ++ lines)%list.

(** The two instances differ in what has been printed only. *)
Definition only_printed (s s' : tools) : Prop :=
  exists lines : list string, s' = printed lines s.

(** A computation that returns or raises, and prints at most. *)
Definition prints_only {A} (m : M A) : Prop :=
  forall s : tools, fst (m s) <> Diverge /\ only_printed s (snd (m s)).

Definition dataset_key (k : pyval) : bool :=
  existsb (py_eq k) [PStr "in_datasets"; PStr "out_datasets"].

Definition visibility_of (p : pyval) : option pyval :=
  match p with
  | PDict _ d => assoc_get d (PStr "visibility")
  | _ => None
  end.

Definition valid_level (v : pyval) : bool :=
  existsb (py_eq v) (map PStr visibility_levels).

(** A dataset parameter shown at another level than [datasets] or [not] is
    moved to [datasets]. *)
Definition as_dataset (k p : pyval) : pyval :=
  match p with
  | PDict o d =>
      match assoc_get d (PStr "visibility") with
      | Some v =>
          if dataset_key k && negb (py_eq v (PStr "datasets"))
             && negb (py_eq v (PStr "not"))
          then PDict o (assoc_set d (PStr "visibility") (PStr "datasets"))
          else p
      | None => p
      end
  | _ => p
  end.

Definition after_data_keys (block : dict) : dict :=
  map (fun '(k, p) => (k, as_dataset k p)) block.

Definition level_ok (item : pyval * pyval) : bool :=
  match visibility_of (snd item) with
  | Some v => valid_level v
  | None => false
  end.

(** What is printed for a parameter whose visibility is not a level. *)
Definition visibility_report (repr : pyval -> string) (tool_class : string)
    (item : pyval * pyval) : list string :=
  match visibility_of (snd item) with
  | Some v =>
      if valid_level v then []
      else [ invalid_visibility_line repr tool_class (fst item) v;
             "Valid choices are:";
             join ", " visibility_levels ]
  | None => []
  end.

(** A record that carries the four keys. *)
Definition complete_record (p : pyval) : bool :=
  match p with
  | PDict _ d =>
      forallb (fun key => assoc_mem d (PStr key))
              ["dtype"; "description"; "visibility"; "default"]
  | _ => false
  end.

(** The entries that [_check_options] compares have the expected shapes:
    the record has a description, and when the description is structured and
    both [options] entries are non-empty, the record's is a list and the
    description's a dictionary. *)
Definition options_typed (p : pyval) : bool :=
  match p with
  | PDict _ d =>
      match assoc_get d (PStr "description") with
      | Some (PDict _ dd) =>
          match assoc_get d (PStr "options"), assoc_get dd (PStr "options") with
          | Some options, Some option_desc =>
              negb (py_truthy options && py_truthy option_desc)
              || match options, option_desc with
                 | PList _, PDict _ _ => true
                 | _, _ => false
                 end
          | _, _ => true
          end
      | Some _ => true
      | None => false
      end
  | _ => false
  end.

(** Every option that the description explains is one of the options of the
    record, when the record lists any. *)
Definition option_descriptions_ok (p : pyval) : bool :=
  match p with
  | PDict _ d =>
      match assoc_get d (PStr "description"), assoc_get d (PStr "options") with
      | Some (PDict _ dd), Some (PList (x :: l)) =>
          match assoc_get dd (PStr "options") with
          | Some (PDict _ od) =>
              forallb (fun opt => existsb (py_eq_deep opt) (x :: l)) (map fst od)
          | _ => true
          end
      | _, _ => true
      end
  | _ => true
  end.

(** ** Overrides: what is printed and what is registered *)

(** Nothing has been printed, and the extra dimensions have at most been
    extended. *)
Definition grows (s s' : tools) : Prop :=
  stdout s' = stdout s
  /\ exists added : list pyval,
       Plugin.extra_dims (plugin_class s')
       = (Plugin.extra_dims (plugin_class s) ++ added)%list.

(** The value-set after the overrides [input] have been assigned one after
    the other. *)
Definition overridden (input ps : dict) : dict :=
  fold_left (fun ps '(k, v) => assoc_set ps k v) input ps.

(** ** Required keys and dtypes: what is reported *)

(** The required keys that a record does not have, in the order of the
    list of required keys. *)
Definition missing_required (p : pyval) : list string :=
  match p with
  | PDict _ d =>
      filter (fun key => negb (assoc_mem d (PStr key)))
             ["dtype"; "description"; "visibility"; "default"]
  | _ => []
  end.

(** The two lines printed for a parameter that lacks required keys. *)
Definition missing_report (repr : pyval -> string)
    (key_order : list string -> list string) (item : pyval * pyval)
  : list string :=
  match missing_required (snd item) with
  | [] => []
  | missing =>
      [ "The missing required keys for '" ++ py_str repr (fst item) ++ "' are:";
        join ", " (key_order missing) ]
  end.

(** A record that is a dictionary and is not hidden. *)
Definition shown_record (p : pyval) : bool :=
  match p with
  | PDict _ d =>
      match assoc_get d (PStr "visibility") with
      | Some v => negb (py_eq v (PStr "hidden"))
      | None => true
      end
  | _ => false
  end.

Definition dtype_of (p : pyval) : option pyval :=
  match p with
  | PDict _ d => assoc_get d (PStr "dtype")
  | _ => None
  end.

(** The dtype is a hashable token or a list of hashable tokens. *)
Definition dtype_typed (p : pyval) : bool :=
  match dtype_of p with
  | Some (PList l) => forallb hashable l
  | Some v => hashable v
  | None => false
  end.

(** A scalar dtype is in the registry; a list is never held against the
    record. *)
Definition dtype_accepted (type_dict : dict) (p : pyval) : bool :=
  match dtype_of p with
  | Some (PList _) => true
  | Some v => assoc_mem type_dict v
  | None => true
  end.

(** The lines printed for the tokens of a record that the registry lacks. *)
Definition dtype_report (repr : pyval -> string) (type_dict : dict)
    (item : pyval * pyval) : list string :=
  match dtype_of (snd item) with
  | Some (PList l) =>
      map (invalid_type_line repr (fst item))
          (filter (fun token => negb (assoc_mem type_dict token)) l)
  | Some v =>
      if assoc_mem type_dict v then []
      else [invalid_type_line repr (fst item) v]
  | None => []
  end.

(** The two lines that list the registry before the dtype check raises. *)
Definition type_options_lines (repr : pyval -> string) (type_dict : dict)
  : list string :=
  [ "The type options are: ";
    join nl (map (fun key => "    " ++ py_str repr key) (map fst type_dict)) ].

(** ** The names of the value-set *)

(** The value-set holds exactly the names of the definitions, in their
    order, and these are distinct strings. *)
Definition named (s : tools) : Prop :=
  map fst (parameters s) = map fst (param s)
  /\ distinct_names (map fst (param s)) = true.

(** The next instance is named and has the names of the previous one. *)
Definition keeps_names (s s' : tools) : Prop :=
  named s' /\ map fst (param s') = map fst (param s).

(** The parameter names of a parsed block are strings. *)
Definition string_names (parsed : pyval) : bool :=
  match parsed with
  | PDict _ block =>
      forallb (fun k => match k with PStr _ => true | _ => false end)
              (map fst block)
  | _ => true
  end.

(** The definitions have distinct string names and a [default] each. *)
Definition defaults_declared (s : tools) : Prop :=
  distinct_names (map fst (param s)) = true
  /\ forall k r, In (k, r) (param s) -> assoc_mem r (PStr "default") = true.

(** ** Recommendations: the records that are passed over *)

(** A record that [warn_dependents] passes over, for the modified parameter
    [mod_param] and its new value [mod_value]: its default is not an ordered
    descriptor, or the descriptor is keyed by another parameter, or it is
    keyed by [mod_param] and holds no branch for [mod_value]. *)
Definition passed_over (mod_param mod_value : pyval) (pdict : dict) : bool :=
  match assoc_get pdict (PStr "default") with
  | Some (PDict true ((parent_name, branches) :: _)) =>
      if py_eq parent_name mod_param then
        hashable parent_name && py_eq parent_name parent_name
        && hashable mod_value
        && match branches with
           | PDict _ bd => negb (assoc_mem bd mod_value)
           | _ => false
           end
      else true
  | Some (PDict true []) => false
  | Some _ => true
  | None => false
  end.

(** ** Properties *)

(** *** Running monadic code *)

Lemma bind_ret {A B} (a : A) (k : A -> M B) (s : tools) :
  bind (ret a) k s = k a s.
Proof. reflexivity. Qed.

Lemma bind_lift_Ret {A B} (a : A) (k : A -> M B) (s : tools) :
  bind (lift (Ret a)) k s = k a s.
Proof. reflexivity. Qed.

Lemma bind_lift_Raise {A B} (e : exn) (k : A -> M B) (s : tools) :
  bind (lift (Raise e)) k s = (Raise e, s).
Proof. reflexivity. Qed.

Lemma bind_raise {A B} (e : exn) (k : A -> M B) (s : tools) :
  bind (raise e) k s = (Raise e, s).
Proof. reflexivity. Qed.

Lemma bind_lift_Diverge {A B} (k : A -> M B) (s : tools) :
  bind (lift Diverge) k s = (Diverge, s).
Proof. reflexivity. Qed.

Lemma bind_get {A B} (f : tools -> A) (k : A -> M B) (s : tools) :
  bind (get f) k s = k (f s) s.
Proof. reflexivity. Qed.

Lemma bind_modify {B} (f : tools -> tools) (k : unit -> M B) (s : tools) :
  bind (modify f) k s = k tt (f s).
Proof. reflexivity. Qed.

Lemma bind_bind {A B C} (m : M A) (f : A -> M B) (g : B -> M C) (s : tools) :
  bind (bind m f) g s = bind m (fun a => bind (f a) g) s.
Proof. unfold bind. destruct (m s) as [[a| |] s']; reflexivity. Qed.

Lemma bind_run {A B} (m : M A) (k : A -> M B) (s : tools) :
  bind m k s
  = match m s with
    | (Ret a, s') => k a s'
    | (Raise e, s') => (Raise e, s')
    | (Diverge, s') => (Diverge, s')
    end.
Proof. reflexivity. Qed.

Lemma for_each_cons {A} (a : A) (l : list A) (body : A -> M unit) (s : tools) :
  for_each (a :: l) body s
  = match body a s with
    | (Ret _, s') => for_each l body s'
    | (Raise e, s') => (Raise e, s')
    | (Diverge, s') => (Diverge, s')
    end.
Proof. reflexivity. Qed.

Lemma for_each_app {A} (l1 l2 : list A) (body : A -> M unit) (s : tools) :
  for_each (l1 ++ l2)%list body s
  = match for_each l1 body s with
    | (Ret _, s') => for_each l2 body s'
    | (Raise e, s') => (Raise e, s')
    | (Diverge, s') => (Diverge, s')
    end.
Proof.
  revert s. induction l1 as [|a l1 IH]; intro s.
  - reflexivity.
  - rewrite <- app_comm_cons, !for_each_cons.
    destruct (body a s) as [[[]| |] s']; auto.
Qed.

Create Rewrite HintDb run.
#[local] Hint Rewrite @bind_ret @bind_lift_Ret @bind_lift_Raise @bind_raise
  @bind_lift_Diverge @bind_get @bind_modify @bind_bind : run.

Ltac run :=
  repeat (progress (autorewrite with run;
                    cbn [py_keys first_of map fst snd negb andb orb];
                    cbv beta)).

(** *** Dictionary lookups *)

Lemma dict_getitem_Some {V} (d : list (pyval * V)) (k : pyval) (v : V) :
  hashable k = true -> assoc_get d k = Some v -> dict_getitem d k = Ret v.
Proof. intros Hh Hg. unfold dict_getitem. now rewrite Hh, Hg. Qed.

Lemma dict_getitem_None {V} (d : list (pyval * V)) (k : pyval) :
  hashable k = true -> assoc_get d k = None ->
  dict_getitem d k = Raise (KeyError k).
Proof. intros Hh Hg. unfold dict_getitem. now rewrite Hh, Hg. Qed.

Lemma dict_getitem_Ret {V} (d : list (pyval * V)) (k : pyval) (v : V) :
  dict_getitem d k = Ret v -> hashable k = true /\ assoc_get d k = Some v.
Proof.
  unfold dict_getitem. destruct (hashable k); [|discriminate].
  destruct (assoc_get d k); [|discriminate]. intros [= ->]. auto.
Qed.

Lemma dict_getitem_str_Some {V} (d : list (pyval * V)) (f : string) (v : V) :
  assoc_get d (PStr f) = Some v -> dict_getitem d (PStr f) = Ret v.
Proof. now apply dict_getitem_Some. Qed.

Lemma dict_getitem_str_None {V} (d : list (pyval * V)) (f : string) :
  assoc_get d (PStr f) = None -> dict_getitem d (PStr f) = Raise (KeyError (PStr f)).
Proof. now apply dict_getitem_None. Qed.


Lemma dict_contains_hashable {V} (d : list (pyval * V)) (k : pyval) :
  hashable k = true -> dict_contains d k = Ret (assoc_mem d k).
Proof. intros Hh. unfold dict_contains. now rewrite Hh. Qed.

Lemma assoc_mem_Some {V} (d : list (pyval * V)) (k : pyval) (v : V) :
  assoc_get d k = Some v -> assoc_mem d k = true.
Proof. intros H. unfold assoc_mem. now rewrite H. Qed.

Lemma does_exist_Some {V} (repr : pyval -> string) (d : list (pyval * V))
    (k : pyval) (v : V) :
  hashable k = true -> assoc_get d k = Some v -> does_exist repr k d = Ret v.
Proof.
  intros Hh Hg. unfold does_exist.
  rewrite (dict_contains_hashable _ _ Hh), (assoc_mem_Some _ _ _ Hg); cbn.
  now apply dict_getitem_Some.
Qed.

(** *** Association lists *)

Lemma py_eq_str_l (a : string) (x : pyval) :
  py_eq (PStr a) x = true -> x = PStr a.
Proof.
  destruct x as [| [] | | f | | |]; cbn; try discriminate;
    try (destruct (float_to_Z f); discriminate).
  intros H. apply String.eqb_eq in H. now subst.
Qed.

Lemma py_eq_str_r (a : string) (x : pyval) :
  py_eq x (PStr a) = true -> x = PStr a.
Proof.
  destruct x as [| [] | | f | | |]; cbn; try discriminate;
    try (destruct (float_to_Z f); discriminate).
  intros H. apply String.eqb_eq in H. now subst.
Qed.

Lemma py_eq_str_refl (a : string) : py_eq (PStr a) (PStr a) = true.
Proof. cbn. apply String.eqb_refl. Qed.

Lemma assoc_mem_keys {V} (d : list (pyval * V)) (q : pyval) :
  assoc_mem d q = existsb (py_eq q) (map fst d).
Proof.
  unfold assoc_mem. induction d as [|[k v] d IH]; cbn; [reflexivity|].
  destruct (py_eq q k); [reflexivity|exact IH].
Qed.

Lemma assoc_set_keys {V} (d : list (pyval * V)) (k : pyval) (v : V) :
  assoc_mem d k = true -> map fst (assoc_set d k v) = map fst d.
Proof.
  unfold assoc_mem. induction d as [|[k' v'] d IH]; cbn; [discriminate|].
  destruct (py_eq k k'); cbn; [reflexivity|].
  intros H. now rewrite IH.
Qed.

Lemma assoc_set_absent {V} (d : list (pyval * V)) (k : pyval) (v : V) :
  assoc_mem d k = false -> assoc_set d k v = (d ++ [(k, v)])%list.
Proof.
  unfold assoc_mem. induction d as [|[k' v'] d IH]; cbn; [reflexivity|].
  destruct (py_eq k k'); [discriminate|].
  intros H. now rewrite IH.
Qed.

Lemma assoc_get_set_str_same {V} (d : list (pyval * V)) (a : string) (v : V) :
  assoc_get (assoc_set d (PStr a) v) (PStr a) = Some v.
Proof.
  induction d as [|[k' v'] d IH]; cbn [assoc_set assoc_get].
  - now rewrite py_eq_str_refl.
  - destruct (py_eq (PStr a) k') eqn:E; cbn [assoc_get]; rewrite E; auto.
Qed.

(** Assigning under a string key leaves every other key's entry alone. *)
Lemma assoc_get_set_str_other {V} (d : list (pyval * V)) (a : string) (v : V)
    (q : pyval) :
  py_eq q (PStr a) = false ->
  assoc_get (assoc_set d (PStr a) v) q = assoc_get d q.
Proof.
  intros Hq. induction d as [|[k' v'] d IH]; cbn [assoc_set assoc_get].
  - now rewrite Hq.
  - destruct (py_eq (PStr a) k') eqn:E; cbn [assoc_get].
    + apply py_eq_str_l in E. subst k'. now rewrite Hq.
    + now rewrite IH.
Qed.

Lemma assoc_get_app_Some {V} (d1 d2 : list (pyval * V)) (k : pyval) (v : V) :
  assoc_get d1 k = Some v -> assoc_get (d1 ++ d2)%list k = Some v.
Proof.
  induction d1 as [|[k' v'] d1 IH]; cbn; [discriminate|].
  destruct (py_eq k k'); auto.
Qed.

(** *** Default resolution on a chain *)

(** A dependent whose parent's default is a descriptor without a key
    ["default"] cannot be resolved: the recursive call receives the descriptor
    where a definition record is expected and fails on [child['default']]. *)
Lemma get_dependent_default_nested_raises
    (repr : pyval -> string) (fuel : nat) (child : dict) (s : tools)
    (o1 o2 : bool) (parent_name branches : pyval) (rest : dict)
    (parent descriptor : dict) :
  assoc_get child (PStr "default") = Some (PDict o1 ((parent_name, branches) :: rest)) ->
  hashable parent_name = true ->
  assoc_get (param s) parent_name = Some parent ->
  assoc_get parent (PStr "default") = Some (PDict o2 descriptor) ->
  assoc_get descriptor (PStr "default") = None ->
  get_dependent_default repr (S (S fuel)) child s
  = (Raise (KeyError (PStr "default")), s).
Proof.
  intros Hd Hh Hp Hpd Hnone.
  cbn [get_dependent_default]. unfold get_param_definitions. run.
  rewrite (dict_getitem_str_Some _ _ _ Hd). run.
  rewrite (does_exist_Some _ _ _ _ Hh Hp). run.
  rewrite (dict_getitem_str_Some _ _ _ Hpd). run.
  rewrite (dict_getitem_str_None _ _ Hnone). run.
  reflexivity.
Qed.

(** C1 (the code fails it): on the chain C = 2, B = {C: {2: "x"}},
    A = {B: {"x": 42}}, resolving A's default does not return 42: with any
    recursion budget of two or more [get_dependent_default] raises
    [KeyError('default')], and so does the resolution pass
    [update_dependent_defaults], which has resolved B to "x" by then. *)
Theorem chain_default_raises_key_error :
  forall fuel : nat,
    get_dependent_default repr_unused (S (S fuel)) chain_A chain
    = (Raise (KeyError (PStr "default")), chain)
    /\ fst (update_dependent_defaults repr_unused (S (S fuel)) chain)
       = Raise (KeyError (PStr "default"))
    /\ assoc_get
         (parameters (snd (update_dependent_defaults repr_unused (S (S fuel)) chain)))
         (PStr "B") = Some (PStr "x").
Proof.
  intro fuel.
  assert (HA : get_dependent_default repr_unused (S (S fuel)) chain_A chain
               = (Raise (KeyError (PStr "default")), chain)).
  { eapply get_dependent_default_nested_raises with (parent_name := PStr "B");
      reflexivity. }
  split; [exact HA|].
  split; reflexivity.
Qed.

(** The same chain cut after B resolves as intended: B becomes "x". *)
Example chain_depth_one_resolves :
  fst (get_dependent_default repr_unused 1 chain_B chain) = Ret (PStr "x").
Proof. reflexivity. Qed.

(** *** Required keys *)

(** C2 (the code fails it): once a hidden parameter has been seen, the
    required keys stay reduced to [default] for the rest of the block, so a
    later non-hidden parameter without [dtype] and [description] passes the
    check and nothing is reported. *)
Theorem required_keys_after_hidden_not_checked :
  forall (repr : pyval -> string) (key_order : list string -> list string)
         (tool_class : string) (s : tools),
    _check_required_keys repr key_order hidden_first tool_class s = (Ret tt, s).
Proof. intros. reflexivity. Qed.

(** With the hidden parameter last, the same two records fail the check and
    the missing keys of [size] are reported, in the order in which their set
    is iterated. *)
Example required_keys_before_hidden_checked
    (key_order : list string -> list string) :
  _check_required_keys repr_unused key_order hidden_last "DemoTools"
    (instance [] [])
  = (Raise (Exception_ "Please edit DemoTools"),
     Tools [] [] demo_plugin
       [ "DemoTools doesn't contain all of the required keys.";
         "The missing required keys for 'size' are:";
         join ", " (key_order ["dtype"; "description"]) ]).
Proof. reflexivity. Qed.

(** The same for every block: behind a leading hidden parameter, records
    that carry a [default] pass whatever else they lack. *)
Lemma required_keys_loop_default_only
    (items : list (pyval * pyval)) (missing_keys : bool)
    (missing_key_dict : list (pyval * list string)) :
  (forall k p, In (k, p) items ->
     exists o d, p = PDict o d /\ assoc_mem d (PStr "default") = true) ->
  required_keys_loop items ["default"] missing_keys missing_key_dict
  = Ret (missing_keys, missing_key_dict).
Proof.
  revert missing_keys missing_key_dict.
  induction items as [|[k p] items IH]; intros mk mkd Hall; [reflexivity|].
  destruct (Hall k p (or_introl eq_refl)) as (o & d & -> & Hd).
  cbn [required_keys_loop].
  assert (Hreq : forall (b : bool),
             (if b then ["default"] else ["default"]) = ["default"])
    by (now intros []).
  rewrite Hreq. cbn [forallb].
  rewrite <- (assoc_mem_keys d (PStr "default")), Hd. cbn [andb negb].
  apply IH. intros k' p' Hin. apply (Hall k' p'). now right.
Qed.

(** X25: behind a leading hidden parameter the required keys stay reduced
    to [default], so the check passes on every block whose first record is
    hidden and whose records all carry a [default], whatever else the later
    records lack, and nothing is printed. *)
Lemma required_keys_hidden_first_passes
    (repr : pyval -> string) (key_order : list string -> list string)
    (name : pyval) (o : bool) (hidden : dict)
    (rest : list (pyval * pyval)) (tool_class : string) (s : tools) :
  assoc_get hidden (PStr "visibility") = Some (PStr "hidden") ->
  assoc_mem hidden (PStr "default") = true ->
  (forall k p, In (k, p) rest ->
     exists o' d, p = PDict o' d /\ assoc_mem d (PStr "default") = true) ->
  _check_required_keys repr key_order ((name, PDict o hidden) :: rest) tool_class s
  = (Ret tt, s).
Proof.
  intros Hv Hd Hrest. unfold _check_required_keys.
  cbn [required_keys_loop]. rewrite Hv. cbn [py_eq String.eqb Ascii.eqb Bool.eqb].
  cbn [forallb]. rewrite <- (assoc_mem_keys hidden (PStr "default")), Hd.
  cbn [andb negb].
  now rewrite (required_keys_loop_default_only rest false [] Hrest).
Qed.

(** *** Dtype tokens *)

(** C7 (the code fails it): whatever the registry, an unknown token inside a
    list-valued dtype is at most printed; the validity flag is not cleared and
    the check returns normally. *)
Theorem dtype_list_unknown_token_passes :
  forall (repr : pyval -> string) (type_dict : dict) (tool_class : string)
         (s : tools),
    fst (_check_dtype repr type_dict bogus_list_block tool_class s) = Ret tt.
Proof.
  intros. unfold _check_dtype, bogus_list_block.
  cbn [dtype_loop]. unfold bind, lift, py_getitem, dict_getitem; cbn.
  unfold bind, lift, dict_contains; cbn.
  destruct (assoc_mem type_dict (PStr "int"));
    destruct (assoc_mem type_dict (PStr "bogus")); reflexivity.
Qed.

(** The same for every block whose dtypes are lists of tokens. *)
Lemma dtype_tokens_reported_only
    (repr : pyval -> string) (type_dict : dict) (p_key : pyval)
    (l : list pyval) (s : tools) :
  forallb hashable l = true ->
  fst (for_each l (fun item =>
         known <- lift (dict_contains type_dict item) ;;
         if negb known then print (invalid_type_line repr p_key item)
         else ret tt) s) = Ret tt.
Proof.
  revert s. induction l as [|item l IH]; intros s Hl; [reflexivity|].
  cbn [forallb] in Hl. apply andb_true_iff in Hl. destruct Hl as [Hi Hl].
  rewrite for_each_cons. run.
  rewrite (dict_contains_hashable _ _ Hi). run.
  destruct (negb (assoc_mem type_dict item)); cbn; now apply IH.
Qed.

Lemma dtype_lists_never_fatal
    (repr : pyval -> string) (type_dict : dict) (block : dict)
    (tool_class : string) :
  (forall k p, In (k, p) block ->
     exists o d l, p = PDict o d /\ assoc_get d (PStr "dtype") = Some (PList l)
                   /\ forallb hashable l = true) ->
  forall s, fst (_check_dtype repr type_dict block tool_class s) = Ret tt.
Proof.
  intros Hall.
  assert (Hloop : forall s, fst (dtype_loop repr type_dict block true s) = Ret true).
  { induction block as [|[k p] block IH]; intro s; [reflexivity|].
    destruct (Hall k p (or_introl eq_refl)) as (o & d & l & -> & Hd & Hl).
    cbn [dtype_loop py_getitem]. rewrite (dict_getitem_str_Some _ _ _ Hd). run.
    rewrite bind_run.
    pose proof (dtype_tokens_reported_only repr type_dict k l s Hl) as Hf.
    destruct (for_each l _ s) as [[[]| |] s1]; cbn [fst] in Hf; try discriminate.
    apply IH. intros k' p' Hin. apply (Hall k' p'). now right. }
  intro s. unfold _check_dtype. rewrite bind_run. specialize (Hloop s).
  destruct (dtype_loop repr type_dict block true s) as [[[|]| |] s1];
    cbn [fst] in Hloop; try discriminate. reflexivity.
Qed.

(** The same token as a scalar dtype is fatal, and [small_registry] prints the
    token of the list without failing. *)
Example dtype_scalar_unknown_token_fatal :
  fst (_check_dtype repr_unused small_registry bogus_scalar_block "DemoTools"
         (instance [] []))
  = Raise (Exception_ "Please edit DemoTools").
Proof. reflexivity. Qed.

Example dtype_list_unknown_token_printed :
  _check_dtype repr_unused small_registry bogus_list_block "DemoTools"
    (instance [] [])
  = (Ret tt,
     Tools [] [] demo_plugin
       ["The size parameter has been assigned an invalid type 'bogus'."]).
Proof. reflexivity. Qed.

(** *** Restoring a default *)

(** C10 (the code fails it): asking for the default of a declared parameter
    fetches the declared default and then fails on the lookup of
    [self._set_default], for a literal default (C) and for a descriptor (B)
    alike; no value is returned. *)
Theorem check_for_default_raises_attribute_error :
  forall (repr : pyval -> string),
    check_for_default repr (PStr "default") (PStr "C") (parameters chain) chain
    = (Raise (AttributeError "_set_default"), chain)
    /\ check_for_default repr (PStr "default") (PStr "B") (parameters chain) chain
       = (Raise (AttributeError "_set_default"), chain).
Proof. intros. split; reflexivity. Qed.

(** Any other value is handed back untouched. *)
Lemma check_for_default_other_value
    (repr : pyval -> string) (value param_name : pyval) (ps : dict) (s : tools) :
  py_str repr value <> "default" ->
  check_for_default repr value param_name ps s = (Ret value, s).
Proof.
  intro H. unfold check_for_default, bind, get.
  destruct (String.eqb_spec (py_str repr value) "default"); [contradiction|].
  reflexivity.
Qed.

(** *** Overrides *)

(** A value that equals some value equals itself: only a NaN does not equal
    itself, and it equals nothing. *)
Lemma float_eqb_self (x y : float) :
  PrimFloat.eqb x y = true -> PrimFloat.eqb x x = true.
Proof.
  rewrite !eqb_spec. unfold SFeqb.
  destruct (Prim2SF x) as [sx|sx| |sx mx ex]; cbn [SFcompare].
  - reflexivity.
  - now destruct sx.
  - discriminate.
  - intros _. destruct sx; rewrite Z.compare_refl.
    + now rewrite Pos.compare_cont_refl.
    + now rewrite Pos.compare_cont_refl.
Qed.

Lemma py_eq_self (a b : pyval) : py_eq a b = true -> py_eq a a = true.
Proof.
  destruct a as [|x|x|x|x|x|o x]; cbn [py_eq as_num]; try discriminate.
  - reflexivity.
  - intros _. apply Z.eqb_refl.
  - intros _. apply Z.eqb_refl.
  - destruct (float_to_Z x); [intros _; apply Z.eqb_refl|].
    destruct (as_num b) as [[z|y]|]; try discriminate. apply float_eqb_self.
  - intros _. apply String.eqb_refl.
Qed.

(** A key that a dictionary holds under some name equals itself. *)
Lemma assoc_mem_self {V} (d : list (pyval * V)) (k : pyval) :
  assoc_mem d k = true -> py_eq k k = true.
Proof.
  unfold assoc_mem. induction d as [|[k' v] d IH]; cbn [assoc_get];
    [discriminate|].
  destruct (py_eq k k') eqn:E; [intros _; exact (py_eq_self _ _ E)|exact IH].
Qed.

(** A key of the dictionary that equals itself is found in it. *)
Lemma assoc_mem_key {V} (d : list (pyval * V)) (k : pyval) :
  In k (map fst d) -> py_eq k k = true -> assoc_mem d k = true.
Proof.
  unfold assoc_mem. intros Hin Hr.
  induction d as [|[k' v] d IH]; cbn [map fst In assoc_get] in *; [easy|].
  destruct (py_eq k k') eqn:E; [reflexivity|].
  destruct Hin as [->|Hin]; [congruence|exact (IH Hin)].
Qed.

Lemma for_each_agree_on {A} (f g : A -> M unit) (l : list A) (s : tools) :
  (forall a s0, In a l -> f a s0 = g a s0) ->
  for_each l f s = for_each l g s.
Proof.
  revert s. induction l as [|a l IH]; intros s Hfg; [reflexivity|].
  rewrite !for_each_cons, (Hfg a s (or_introl eq_refl)).
  destruct (g a s) as [[[]| |] s0]; try reflexivity.
  apply IH. intros b s1 Hb. apply Hfg. now right.
Qed.

Section Overrides.

Variable repr : pyval -> string.
Variable is_multi_param : pyval -> pyval -> bool.
Variable convert_multi_params : pyval -> pyval -> pyval * pyval.

Let check_multi := __check_multi_params is_multi_param convert_multi_params.
Let set_list := set_plugin_list_parameters repr is_multi_param convert_multi_params.
Let override := override_body repr is_multi_param convert_multi_params.


Lemma check_multi_params_error (value key v' err : pyval) (s : tools) :
  is_multi_param key value = true ->
  convert_multi_params key value = (v', err) ->
  py_truthy err = true ->
  check_multi value key s = (Ret tt, s).
Proof.
  intros Hm Hc He. unfold check_multi, __check_multi_params. run.
  now rewrite Hm, Hc, He.
Qed.

Lemma set_list_single (key value : pyval) (s : tools) :
  hashable key = true -> py_eq key key = true ->
  assoc_mem (parameters s) key = true ->
  set_list [(key, value)] s
  = match check_multi value key s with
    | (Ret _, s') => (Ret tt, s')
    | other => other
    end.
Proof.
  intros Hh Hr Hk. unfold set_list, set_plugin_list_parameters.
  cbn [map fst for_each]. unfold override_body. run.
  rewrite (dict_contains_hashable _ _ Hh), Hk. run.
  assert (Hg : dict_getitem [(key, value)] key = Ret value).
  { apply dict_getitem_Some; [exact Hh|]. cbn. now rewrite Hr. }
  rewrite Hg. run. fold check_multi.
  rewrite bind_run. destruct (check_multi value key s) as [[[]| |] s']; reflexivity.
Qed.



(** C5 (amended): when the conversion of a multi-value override reports an
    error string, the override is dropped: the call returns without raising
    and the instance (value-set, sweep entries, extra dimensions) is exactly
    as before. *)
Theorem failed_conversion_override_is_dropped
    (s : tools) (key value v' err : pyval) :
  hashable key = true -> py_eq key key = true ->
  assoc_mem (parameters s) key = true ->
  is_multi_param key value = true ->
  convert_multi_params key value = (v', err) ->
  py_truthy err = true ->
  check_multi value key s = (Ret tt, s)
  /\ set_list [(key, value)] s = (Ret tt, s).
Proof.
  intros Hh Hr Hk Hm Hc He.
  pose proof (check_multi_params_error _ _ _ _ s Hm Hc He) as H.
  split; [exact H|].
  rewrite set_list_single by assumption. now rewrite H.
Qed.

Lemma stable_refl (s : tools) : stable s s.
Proof. repeat split. Qed.

Lemma stable_trans (s1 s2 s3 : tools) :
  stable s1 s2 -> stable s2 s3 -> stable s1 s3.
Proof.
  intros (A1 & B1 & C1) (A2 & B2 & C2).
  repeat split; etransitivity; eauto.
Qed.

Lemma assign_parameter_stable (key value : pyval) (s : tools) :
  assoc_mem (parameters s) key = true ->
  stable s (snd (assign_parameter key value s)).
Proof.
  intros Hk. unfold assign_parameter, dict_setitem. run.
  destruct (hashable key); run; [|apply stable_refl].
  repeat split. cbn. now apply assoc_set_keys.
Qed.

Lemma check_multi_stable (value key : pyval) (s : tools) :
  assoc_mem (parameters s) key = true ->
  stable s (snd (check_multi value key s)).
Proof.
  intros Hk. unfold check_multi, __check_multi_params. run.
  destruct (is_multi_param key value); [|now apply assign_parameter_stable].
  destruct (convert_multi_params key value) as [v' err].
  destruct (py_truthy err); cbn [negb]; [apply stable_refl|].
  pose proof (assign_parameter_stable key v' s Hk) as Ha.
  rewrite bind_run.
  destruct (assign_parameter key v' s) as [[[]| |] s1]; cbn [snd] in *; try exact Ha.
  destruct (add_str key "_params.") as [prefix| |]; run; try exact Ha.
  destruct (py_getitem v' (PInt 0)) as [first| |]; run; try exact Ha.
  destruct (py_len v') as [n| |]; run; exact Ha.
Qed.

Lemma set_list_unfold (input_parameters : dict) :
  set_list input_parameters
  = for_each (map fst input_parameters) (override input_parameters).
Proof. reflexivity. Qed.

Lemma override_body_stable (input : dict) (key : pyval) (s : tools) :
  stable s (snd (override input key s)).
Proof.
  unfold override, override_body. run.
  destruct (dict_contains (parameters s) key) as [[|]| |] eqn:Hc; run;
    try apply stable_refl.
  destruct (dict_getitem input key) as [v| |]; run; try apply stable_refl.
  apply check_multi_stable.
  unfold dict_contains in Hc. destruct (hashable key); congruence.
Qed.

Lemma for_each_stable {A} (body : A -> M unit) (l : list A) (s : tools) :
  (forall a s0, stable s0 (snd (body a s0))) ->
  stable s (snd (for_each l body s)).
Proof.
  intros Hb. revert s. induction l as [|a l IH]; intro s.
  - apply stable_refl.
  - rewrite for_each_cons. pose proof (Hb a s) as Ha.
    destruct (body a s) as [[[]| |] s1]; cbn [snd] in *; try exact Ha.
    eapply stable_trans; [exact Ha|apply IH].
Qed.

Lemma set_list_stable (input : dict) (s : tools) :
  stable s (snd (set_list input s)).
Proof.
  rewrite set_list_unfold. apply for_each_stable.
  intros. apply override_body_stable.
Qed.

(** For a key listed in [pre], the loop body reads the same override from
    [pre] and from a mapping that starts with [pre]. *)
Lemma override_body_prefix (pre rest : dict) (key : pyval) (s : tools) :
  In key (map fst pre) ->
  override (pre ++ rest)%list key s = override pre key s.
Proof.
  intros Hin. unfold override, override_body. run.
  unfold dict_contains. destruct (hashable key) eqn:Hh; [|reflexivity].
  run. destruct (assoc_mem (parameters s) key) eqn:Hk; [|reflexivity].
  pose proof (assoc_mem_key pre key Hin (assoc_mem_self _ _ Hk)) as Hm.
  unfold assoc_mem in Hm.
  destruct (assoc_get pre key) as [v|] eqn:Hg; [|discriminate].
  rewrite (dict_getitem_Some _ _ _ Hh (assoc_get_app_Some _ rest _ _ Hg)).
  now rewrite (dict_getitem_Some _ _ _ Hh Hg).
Qed.

(** C6 (amended): an override mapping whose entries [pre] are followed by a
    key that the value-set does not have behaves as [pre] does up to that
    key.  When the entries of [pre] are accepted, the call raises
    [ValueError] with the message naming the key and the plugin, and the
    state left behind is the one reached by applying [pre]: the entries
    before the unknown key have been applied and those after it have not.
    When an entry of [pre] raises, that exception is the outcome, with the
    state in which it was raised, and the unknown key is not reached. *)
Theorem unknown_override_key_raises_after_prefix
    (s : tools) (pre post : dict) (key value : pyval) :
  hashable key = true ->
  assoc_mem (parameters s) key = false ->
  set_list (pre ++ (key, value) :: post)%list s
  = match set_list pre s with
    | (Ret _, s1) =>
        (Raise (ValueError
                  (invalid_parameter_message repr key
                     (Plugin.name (plugin_class s)))),
         s1)
    | (Raise e, s1) => (Raise e, s1)
    | (Diverge, s1) => (Diverge, s1)
    end.
Proof.
  intros Hh Hk.
  pose proof (set_list_stable pre s) as (_ & Hkeys & Hname).
  rewrite !set_list_unfold in *. rewrite map_app, for_each_app.
  rewrite (for_each_agree_on (override (pre ++ (key, value) :: post)%list)
             (override pre) (map fst pre) s)
    by (intros a s0 Ha; now apply override_body_prefix).
  destruct (for_each (map fst pre) (override pre) s) as [[[]| |] s1];
    try reflexivity.
  cbn [snd] in Hkeys, Hname.
  cbn [map fst]. rewrite for_each_cons.
  unfold override, override_body at 1. run.
  rewrite (dict_contains_hashable _ _ Hh).
  rewrite assoc_mem_keys, Hkeys, <- assoc_mem_keys, Hk. run.
  now rewrite Hname.
Qed.

End Overrides.



(** C5 as stated fails: the malformed multi-value ["1;;x"] for the known key
    [threshold] raises nothing, and the instance is left as it was. *)
Lemma failed_conversion_raises_no_value_error :
  semicolon_syntax (PStr "threshold") (PStr "1;;x") = true
  /\ py_truthy (snd (convert_sample (PStr "threshold") (PStr "1;;x"))) = true
  /\ set_plugin_list_parameters repr_unused semicolon_syntax convert_sample
       [(PStr "threshold", PStr "1;;x")] tuned = (Ret tt, tuned)
  /\ forall msg : string,
       fst (set_plugin_list_parameters repr_unused semicolon_syntax convert_sample
              [(PStr "threshold", PStr "1;;x")] tuned)
       <> Raise (ValueError msg).
Proof.
  repeat split; try reflexivity.
  intros msg. vm_compute. discriminate.
Qed.

Lemma failed_conversion_override_is_dropped_witness :
  __check_multi_params semicolon_syntax convert_sample (PStr "1;;x")
    (PStr "threshold") tuned = (Ret tt, tuned)
  /\ set_plugin_list_parameters repr_unused semicolon_syntax convert_sample
       [(PStr "threshold", PStr "1;;x")] tuned = (Ret tt, tuned).
Proof.
  exact (failed_conversion_override_is_dropped repr_unused semicolon_syntax
           convert_sample tuned (PStr "threshold") (PStr "1;;x") (PStr "1;;x")
           (PStr "Ensure start:stop:step; values are valid.")
           eq_refl eq_refl eq_refl eq_refl eq_refl eq_refl).
Defined.

(** C6 as stated fails: the known key [mode] listed before the unknown key
    [zz] has been overwritten by the time the error is raised. *)
Lemma unknown_key_after_known_key_mutates :
  let run :=
    set_plugin_list_parameters repr_unused semicolon_syntax convert_sample
      [(PStr "mode", PStr "manual"); (PStr "zz", PInt 3)] tuned in
  assoc_get (parameters tuned) (PStr "mode") = Some (PStr "auto")
  /\ fst run
     = Raise (ValueError (invalid_parameter_message repr_unused (PStr "zz") "DemoPlugin"))
  /\ assoc_get (parameters (snd run)) (PStr "mode") = Some (PStr "manual")
  /\ parameters (snd run) <> parameters tuned.
Proof.
  cbv zeta. repeat split; try reflexivity.
  vm_compute. discriminate.
Qed.

Lemma unknown_override_key_raises_after_prefix_witness :
  set_plugin_list_parameters repr_unused semicolon_syntax convert_sample
    ([(PStr "mode", PStr "manual")] ++ (PStr "zz", PInt 3) :: [(PStr "threshold", PInt 1)])%list
    tuned
  = (Raise (ValueError (invalid_parameter_message repr_unused (PStr "zz") "DemoPlugin")),
     Tools tuned_defs
       [(PStr "mode", PStr "manual"); (PStr "threshold", PFloat 0.5%float)]
       demo_plugin []).
Proof.
  exact (unknown_override_key_raises_after_prefix repr_unused semicolon_syntax
           convert_sample tuned [(PStr "mode", PStr "manual")]
           [(PStr "threshold", PInt 1)] (PStr "zz") (PInt 3)
           eq_refl eq_refl).
Defined.

(** An earlier override that raises is the outcome of the call: the unknown
    key [zz] listed after it is not reached. *)
Example unknown_key_after_failing_override :
  set_plugin_list_parameters repr_unused semicolon_syntax convert_blank
    [(PStr "threshold", PStr ";"); (PStr "zz", PInt 3)] swept
  = (Raise IndexError,
     set_parameters [(PStr "threshold", PList [])] swept).
Proof. vm_compute. reflexivity. Qed.

(** *** Dependencies and display flags *)

(** After loading every display flag is on. *)
Lemma set_display_all_on (block : list (pyval * dict)) (p : pyval) (rec : dict) :
  In (p, rec) (_set_display block) ->
  assoc_get rec (PStr "display") = Some (PStr "on").
Proof.
  unfold _set_display. intros Hin. apply in_map_iff in Hin.
  destruct Hin as ([k v] & [= <- <-] & _). apply assoc_get_set_str_same.
Qed.

Lemma assoc_mem_app {V} (d1 d2 : list (pyval * V)) (k : pyval) :
  assoc_mem (d1 ++ d2)%list k = assoc_mem d1 k || assoc_mem d2 k.
Proof. rewrite !assoc_mem_keys, map_app. apply existsb_app. Qed.

Lemma assoc_get_app_skip {V} (d1 d2 : list (pyval * V)) (k : pyval) :
  assoc_mem d1 k = false -> assoc_get (d1 ++ d2)%list k = assoc_get d2 k.
Proof.
  unfold assoc_mem. induction d1 as [|[k' v'] d1 IH]; cbn; [reflexivity|].
  destruct (py_eq k k'); [discriminate|exact IH].
Qed.

Lemma assoc_set_app_skip {V} (d1 d2 : list (pyval * V)) (k : pyval) (v : V) :
  assoc_mem d1 k = false ->
  assoc_set (d1 ++ d2)%list k v = (d1 ++ assoc_set d2 k v)%list.
Proof.
  unfold assoc_mem. induction d1 as [|[k' v'] d1 IH]; cbn; [reflexivity|].
  destruct (py_eq k k'); [discriminate|].
  intros H. now rewrite IH.
Qed.

Lemma distinct_names_cons (k : pyval) (names : list pyval) :
  distinct_names (k :: names) = true ->
  exists a, k = PStr a
            /\ existsb (py_eq (PStr a)) names = false
            /\ distinct_names names = true.
Proof.
  destruct k as [| | | | a | |]; cbn; try discriminate.
  intros H. apply andb_true_iff in H. destruct H as [H1 H2].
  exists a. repeat split; [|exact H2].
  now destruct (existsb _ names).
Qed.

Lemma distinct_names_str (names : list pyval) (k : pyval) :
  distinct_names names = true -> In k names -> exists a, k = PStr a.
Proof.
  induction names as [|k' names IH]; [intros _ []|].
  intros H Hin. apply distinct_names_cons in H.
  destruct H as (a & -> & _ & Hd). destruct Hin as [<- | Hin]; eauto.
Qed.

(** A name of the tail does not hit the head of a list of distinct names. *)
Lemma distinct_names_tail (a : string) (names : list pyval) (k : pyval) :
  distinct_names (PStr a :: names) = true -> In k names ->
  py_eq k (PStr a) = false.
Proof.
  intros H Hin. apply distinct_names_cons in H.
  destruct H as (a' & [= <-] & Hex & Hd).
  destruct (distinct_names_str _ _ Hd Hin) as [b ->].
  destruct (py_eq (PStr b) (PStr a)) eqn:E; [|reflexivity].
  apply py_eq_str_l in E. injection E as ->.
  assert (existsb (py_eq (PStr b)) names = true).
  { apply existsb_exists. exists (PStr b). split; [exact Hin|apply py_eq_str_refl]. }
  congruence.
Qed.

Lemma assoc_get_map_distinct {V W} (f : V -> W) (d : list (pyval * V))
    (p : pyval) (r : V) :
  distinct_names (map fst d) = true -> In (p, r) d ->
  assoc_get (map (fun '(k, v) => (k, f v)) d) p = Some (f r).
Proof.
  induction d as [|[k v] d IH]; [intros _ []|].
  intros Hd Hin. cbn [map fst] in Hd.
  destruct (distinct_names_cons _ _ Hd) as (a & -> & Hex & Hd').
  cbn [map assoc_get]. destruct Hin as [[= <- <-] | Hin].
  - now rewrite py_eq_str_refl.
  - rewrite (distinct_names_tail a (map fst d) p Hd) by (now apply (in_map fst _ (p, r))).
    now apply IH.
Qed.

Lemma assign_field_run (p : pyval) (f : string) (v : pyval) (rec : dict)
    (s : tools) :
  hashable p = true -> assoc_get (param s) p = Some rec ->
  assign_field p f v s
  = (Ret tt, set_param (assoc_set (param s) p (assoc_set rec (PStr f) v)) s).
Proof.
  intros Hh Hg. unfold assign_field. run.
  rewrite (dict_getitem_Some _ _ _ Hh Hg). run. reflexivity.
Qed.

Lemma assign_field_str_run (a f : string) (v : pyval) (rec : dict) (s : tools) :
  assoc_get (param s) (PStr a) = Some rec ->
  assign_field (PStr a) f v s
  = (Ret tt, set_param (assoc_set (param s) (PStr a) (assoc_set rec (PStr f) v)) s).
Proof. now apply assign_field_run. Qed.

Lemma assoc_set_same {V} (d : list (pyval * V)) (k : pyval) (v : V) :
  assoc_get d k = Some v -> assoc_set d k v = d.
Proof.
  induction d as [|[k' v'] d IH]; cbn; [discriminate|].
  destruct (py_eq k k'); [now intros [= ->]|].
  intros H. now rewrite IH.
Qed.

Lemma set_param_same (s : tools) : set_param (param s) s = s.
Proof. now destruct s. Qed.

Section Dependencies.

Variable repr : pyval -> string.
Variable ps : dict.

(** One step of the loop rewrites the record of its parameter. *)
Lemma check_dependency_run (a : string) (dependency : pyval) (rec : dict)
    (s : tools) :
  dependency_ok dependency = true ->
  assoc_get (param s) (PStr a) = Some rec ->
  assoc_get rec (PStr "dependency") = Some dependency ->
  check_dependency repr ps (PStr a, dependency) s
  = (Ret tt,
     set_param (assoc_set (param s) (PStr a) (checked_record repr ps rec)) s).
Proof.
  intros Hok Hrec Hdep. unfold checked_record. rewrite Hdep.
  assert (Hsame : (Ret tt, s) = (Ret tt, set_param (assoc_set (param s) (PStr a) rec) s)).
  { now rewrite (assoc_set_same _ _ _ Hrec), set_param_same. }
  unfold check_dependency.
  destruct dependency as [| | | | parent | |[] [|[[| | | | parent | |] choices] rest]];
    try discriminate; cbn [dependency_ok] in Hok; cbn [parent_of].
  - (* a parent name *)
    run. rewrite dict_contains_hashable by reflexivity. unfold assoc_mem.
    destruct (assoc_get ps (PStr parent)) as [v|] eqn:Hv; run; [|exact Hsame].
    rewrite (dict_getitem_str_Some _ _ _ Hv). run.
    unfold shown, flag, is_none.
    destruct (match v with PNone => true | _ => false end
              || String.eqb (py_str repr v) "None"); cbn [negb];
      now rewrite (assign_field_str_run _ _ _ _ _ Hrec).
  - (* a mapping from the parent name to the values that show the parameter *)
    run.
    rewrite (dict_getitem_str_Some ((PStr parent, choices) :: rest) parent choices)
      by (cbn; now rewrite String.eqb_refl).
    run. rewrite dict_contains_hashable by reflexivity. unfold assoc_mem.
    destruct (assoc_get ps (PStr parent)) as [v|] eqn:Hv; run; [|exact Hsame].
    rewrite (dict_getitem_str_Some _ _ _ Hv). run.
    unfold shown, flag.
    destruct choices; try discriminate; cbn [str_in]; run;
      match goal with
      | |- context [if ?b then _ else _] => destruct b
      end; now rewrite (assign_field_str_run _ _ _ _ _ Hrec).
Qed.

Lemma check_dependencies_loop (defs pre : list (pyval * dict)) (s : tools) :
  distinct_names (map fst defs) = true ->
  dependencies_ok defs = true ->
  (forall k, In k (map fst defs) -> assoc_mem pre k = false) ->
  param s = (pre ++ defs)%list ->
  for_each (dependency_list defs) (check_dependency repr ps) s
  = (Ret tt,
     set_param (pre ++ map (fun '(k, r) => (k, checked_record repr ps r)) defs)%list s).
Proof.
  revert pre s. induction defs as [|[k r] defs IH]; intros pre s Hd Hok Hpre Hs.
  - cbn. now rewrite <- Hs, set_param_same.
  - cbn [map fst] in Hd.
    destruct (distinct_names_cons _ _ Hd) as (a & -> & Hex & Hd').
    cbn [dependencies_ok forallb] in Hok. apply andb_true_iff in Hok.
    destruct Hok as [Hok1 Hok2].
    assert (Hget : assoc_get (param s) (PStr a) = Some r).
    { rewrite Hs, assoc_get_app_skip by (apply Hpre; now left).
      cbn. now rewrite String.eqb_refl. }
    assert (Hset : forall r', assoc_set (param s) (PStr a) r'
                              = ((pre ++ [(PStr a, r')]) ++ defs)%list).
    { intros r'. rewrite Hs, assoc_set_app_skip by (apply Hpre; now left).
      cbn. rewrite String.eqb_refl. now rewrite <- app_assoc. }
    assert (Hpre' : forall r' k, In k (map fst defs) ->
                                 assoc_mem (pre ++ [(PStr a, r')])%list k = false).
    { intros r' k Hin. rewrite assoc_mem_app, Hpre by (now right).
      unfold assoc_mem. cbn.
      now rewrite (distinct_names_tail a (map fst defs) k Hd Hin). }
    cbn [dependency_list flat_map map]. fold (dependency_list defs).
    destruct (assoc_get r (PStr "dependency")) as [dependency|] eqn:Hdep.
    + cbn [app]. rewrite for_each_cons.
      rewrite (check_dependency_run a dependency r s Hok1 Hget Hdep).
      rewrite (IH (pre ++ [(PStr a, checked_record repr ps r)])%list); auto.
      * cbn. now rewrite <- app_assoc.
      * cbn [param set_param]. apply Hset.
    + cbn [app]. rewrite (IH (pre ++ [(PStr a, r)])%list s); auto.
      * unfold checked_record at 2. rewrite Hdep. now rewrite <- app_assoc.
      * rewrite <- (Hset r). now rewrite (assoc_set_same _ _ _ Hget).
Qed.

Lemma check_dependencies_run (s : tools) :
  distinct_names (map fst (param s)) = true ->
  dependencies_ok (param s) = true ->
  check_dependencies repr ps s
  = (Ret tt,
     set_param (map (fun '(k, r) => (k, checked_record repr ps r)) (param s)) s).
Proof.
  intros Hd Hok. unfold check_dependencies. run.
  now rewrite (check_dependencies_loop (param s) [] s Hd Hok).
Qed.

(** C3 (amended): on a definition set with distinct string names whose
    dependencies have one of the two forms, [check_dependencies] returns and
    leaves the value mapping alone; a record without a dependency is
    unchanged; for a dependency on a parent that the mapping lacks the record,
    and with it the display flag, is unchanged; for a plain parent name with
    current value [v] the flag is off when [v] is [None] or prints as
    ["None"] and on otherwise; for a mapping to the allowed values the flag is
    on when [str(v)] is among them and off otherwise. *)
Theorem check_dependencies_sets_display (s : tools) :
  distinct_names (map fst (param s)) = true ->
  dependencies_ok (param s) = true ->
  exists s' : tools,
    check_dependencies repr ps s = (Ret tt, s')
    /\ parameters s' = parameters s
    /\ forall (p : pyval) (rec : dict),
         In (p, rec) (param s) ->
         (assoc_get rec (PStr "dependency") = None ->
          assoc_get (param s') p = Some rec)
         /\ (forall parent : string,
               assoc_get rec (PStr "dependency") = Some (PStr parent) ->
               match assoc_get ps (PStr parent) with
               | None => assoc_get (param s') p = Some rec
               | Some v =>
                   assoc_get (param s') p
                   = Some (assoc_set rec (PStr "display")
                             (flag (negb (is_none v
                                          || String.eqb (py_str repr v) "None"))))
               end)
         /\ (forall (parent : string) (choices : pyval) (rest : dict),
               assoc_get rec (PStr "dependency")
               = Some (PDict true ((PStr parent, choices) :: rest)) ->
               match assoc_get ps (PStr parent) with
               | None => assoc_get (param s') p = Some rec
               | Some v =>
                   exists on : bool,
                     str_in (py_str repr v) choices = Ret on
                     /\ assoc_get (param s') p
                        = Some (assoc_set rec (PStr "display") (flag on))
               end).
Proof.
  intros Hd Hok. eexists. split; [now apply check_dependencies_run|].
  split; [reflexivity|].
  intros p rec Hin. cbn [param set_param].
  rewrite (assoc_get_map_distinct (checked_record repr ps) _ _ _ Hd Hin).
  unfold checked_record. repeat split.
  - now intros ->.
  - intros parent ->. cbn [parent_of].
    now destruct (assoc_get ps (PStr parent)).
  - intros parent choices rest Hdep. rewrite Hdep. cbn [parent_of].
    destruct (assoc_get ps (PStr parent)) as [v|]; [|reflexivity].
    assert (Hit : iterable choices = true).
    { unfold dependencies_ok in Hok. rewrite forallb_forall in Hok.
      specialize (Hok _ Hin). cbn in Hok. now rewrite Hdep in Hok. }
    unfold shown.
    destruct choices; try discriminate; cbn [str_in]; eauto.
Qed.

End Dependencies.

(** C3 as stated fails.  With the parent [mode] missing from the value
    mapping, the flag of [threshold] (dependency [{mode: [manual]}]) stays on
    instead of going off; and a plain dependency on [filter], whose current
    value is the string ["None"] and not [None], turns [size] off. *)
Lemma absent_parent_leaves_display_on :
  let values := [(PStr "threshold", PFloat 0.5%float)] in
  let after := snd (check_dependencies repr_unused values tuned) in
  assoc_mem values (PStr "mode") = false
  /\ fst (check_dependencies repr_unused values tuned) = Ret tt
  /\ display_of (param after) (PStr "threshold") = Some (PStr "on")
  /\ assoc_get (parameters gated) (PStr "filter") = Some (PStr "None")
  /\ display_of
       (param (snd (check_dependencies repr_unused (parameters gated) gated)))
       (PStr "size") = Some (PStr "off").
Proof. cbv zeta. repeat split. Qed.

(** The switch of section 8: in mode ["auto"] the threshold is hidden, in
    mode ["manual"] it is shown. *)
Lemma check_dependencies_sets_display_witness :
  (exists s' : tools,
     check_dependencies repr_unused [(PStr "mode", PStr "auto")] tuned = (Ret tt, s')
     /\ display_of (param s') (PStr "threshold") = Some (PStr "off"))
  /\ (exists s' : tools,
        check_dependencies repr_unused [(PStr "mode", PStr "manual")] tuned = (Ret tt, s')
        /\ display_of (param s') (PStr "threshold") = Some (PStr "on")).
Proof.
  split.
  - destruct (check_dependencies_sets_display repr_unused
                [(PStr "mode", PStr "auto")] tuned eq_refl eq_refl)
      as (s' & Hrun & _ & Hrec).
    exists s'. split; [exact Hrun|].
    destruct (Hrec (PStr "threshold") threshold_record (or_intror (or_introl eq_refl)))
      as (_ & _ & Hmap).
    destruct (Hmap "mode" (PList [PStr "manual"]) [] eq_refl) as (on & Hin & Hget).
    injection Hin as <-. unfold display_of. rewrite Hget. reflexivity.
  - destruct (check_dependencies_sets_display repr_unused
                [(PStr "mode", PStr "manual")] tuned eq_refl eq_refl)
      as (s' & Hrun & _ & Hrec).
    exists s'. split; [exact Hrun|].
    destruct (Hrec (PStr "threshold") threshold_record (or_intror (or_introl eq_refl)))
      as (_ & _ & Hmap).
    destruct (Hmap "mode" (PList [PStr "manual"]) [] eq_refl) as (on & Hin & Hget).
    injection Hin as <-. unfold display_of. rewrite Hget. reflexivity.
Defined.

(** *** What the operations leave of the definitions *)

Section Preservation.

Variable R : list (pyval * dict) -> list (pyval * dict) -> Prop.
Hypothesis R_refl : forall d, R d d.
Hypothesis R_trans : forall a b c, R a b -> R b c -> R a c.

Lemma preserves_ret {A} (a : A) : preserves R (ret a).
Proof. intro s. apply R_refl. Qed.

Lemma preserves_lift {A} (o : outcome A) : preserves R (lift o).
Proof. intro s. apply R_refl. Qed.

Lemma preserves_get {A} (f : tools -> A) : preserves R (get f).
Proof. intro s. apply R_refl. Qed.

Lemma preserves_modify (f : tools -> tools) :
  (forall s, param (f s) = param s) -> preserves R (modify f).
Proof. intros Hf s. cbn. rewrite Hf. apply R_refl. Qed.

Lemma preserves_bind {A B} (m : M A) (k : A -> M B) :
  preserves R m -> (forall a, preserves R (k a)) -> preserves R (bind m k).
Proof.
  intros Hm Hk s. rewrite bind_run. pose proof (Hm s) as H.
  destruct (m s) as [[a| |] s1]; cbn [snd] in *; try exact H.
  eapply R_trans; [exact H|apply Hk].
Qed.

Lemma preserves_for_each {A} (body : A -> M unit) (l : list A) :
  (forall a, preserves R (body a)) -> preserves R (for_each l body).
Proof.
  intros Hb. induction l as [|a l IH]; [apply preserves_ret|].
  cbn [for_each]. apply preserves_bind; auto.
Qed.

Lemma preserves_print (line : string) : preserves R (print line).
Proof. apply preserves_modify. reflexivity. Qed.

Lemma preserves_assign_parameter (k v : pyval) :
  preserves R (assign_parameter k v).
Proof.
  unfold assign_parameter.
  apply preserves_bind; [apply preserves_get|intro ps].
  apply preserves_bind; [apply preserves_lift|intro ps'].
  apply preserves_modify. reflexivity.
Qed.

(** Any relation that tolerates a new display flag is kept by the
    operations on defaults, dependencies and overrides. *)
Hypothesis R_display :
  forall (defs : list (pyval * dict)) (p : pyval) (rec : dict) (v : pyval),
    assoc_get defs p = Some rec ->
    R defs (assoc_set defs p (assoc_set rec (PStr "display") v)).

Lemma preserves_assign_display (p v : pyval) :
  preserves R (assign_field p "display" v).
Proof.
  intro s. unfold assign_field. run.
  destruct (dict_getitem (param s) p) as [rec| |] eqn:Hg; run; try apply R_refl.
  cbn. apply R_display. now apply dict_getitem_Ret in Hg.
Qed.

Ltac frame :=
  repeat first
    [ apply preserves_ret | apply preserves_lift | apply preserves_get
    | apply preserves_print | apply preserves_assign_parameter
    | apply preserves_assign_display
    | apply preserves_modify; reflexivity
    | apply preserves_bind; [|intro]
    | apply preserves_for_each; intro
    | match goal with
      | |- preserves _ (match ?x with _ => _ end) => destruct x
      end ].

Variable repr : pyval -> string.
Variable is_multi_param : pyval -> pyval -> bool.
Variable convert_multi_params : pyval -> pyval -> pyval * pyval.

Lemma preserves_get_dependent_default (fuel : nat) (child : dict) :
  preserves R (get_dependent_default repr fuel child).
Proof.
  revert child. induction fuel as [|fuel IH]; intro child; cbn [get_dependent_default].
  - frame.
  - unfold get_param_definitions. frame. apply IH.
Qed.

Lemma preserves_update_dependent_defaults (fuel : nat) :
  preserves R (update_dependent_defaults repr fuel).
Proof.
  unfold update_dependent_defaults, update_default, get_param_definitions.
  frame. apply preserves_get_dependent_default.
Qed.

Lemma preserves_check_dependencies (ps : dict) :
  preserves R (check_dependencies repr ps).
Proof.
  unfold check_dependencies, check_dependency. frame.
Qed.

Lemma preserves_populate_default_parameters (fuel : nat) :
  preserves R (_populate_default_parameters repr fuel).
Proof.
  unfold _populate_default_parameters, get_param_definitions.
  apply preserves_bind; [apply preserves_get|intro p_defs].
  apply preserves_bind; [apply preserves_lift|intro ps].
  apply preserves_bind; [apply preserves_modify; reflexivity|intros _].
  apply preserves_bind; [apply preserves_update_dependent_defaults|intros _].
  apply preserves_bind; [apply preserves_get|intro current].
  apply preserves_check_dependencies.
Qed.

Lemma preserves_check_for_default (value name : pyval) (ps : dict) :
  preserves R (check_for_default repr value name ps).
Proof. unfold check_for_default, raise. frame. Qed.

Lemma preserves_check_multi_params (value key : pyval) :
  preserves R (__check_multi_params is_multi_param convert_multi_params value key).
Proof. unfold __check_multi_params. frame. Qed.

Lemma preserves_set_plugin_list_parameters (input : dict) :
  preserves R (set_plugin_list_parameters repr is_multi_param
                 convert_multi_params input).
Proof.
  unfold set_plugin_list_parameters, override_body, __check_multi_params, raise.
  frame.
Qed.

(** The recommendation also needs the relation to tolerate a new [range]
    entry in a structured description. *)
Hypothesis R_range :
  forall (defs : list (pyval * dict)) (p : pyval) (rec : dict) (o : bool)
         (items : dict) (v : pyval),
    assoc_get defs p = Some rec ->
    assoc_get rec (PStr "description") = Some (PDict o items) ->
    R defs (assoc_set defs p
              (assoc_set rec (PStr "description")
                 (PDict o (assoc_set items (PStr "range") v)))).

Lemma preserves_warn_dependent (mod_param mod_value name : pyval) :
  preserves R (warn_dependent repr mod_param mod_value name).
Proof.
  intro s. unfold warn_dependent. run.
  destruct (dict_getitem (param s) name) as [pdict| |] eqn:Hp; run;
    try apply R_refl.
  destruct (dict_getitem pdict (PStr "default")) as [default| |]; run;
    try apply R_refl.
  destruct default as [| | | | | |[] d]; try apply R_refl.
  destruct (first_of (map fst d)) as [parent_name| |]; run; try apply R_refl.
  destruct (py_eq parent_name mod_param); try apply R_refl.
  destruct (dict_getitem d parent_name) as [branches| |]; run; try apply R_refl.
  destruct (py_keys branches) as [keys| |]; run; try apply R_refl.
  destruct (hashable mod_value); run; try apply R_refl.
  destruct (existsb (py_eq mod_value) keys); try apply R_refl.
  destruct (py_getitem branches mod_value) as [value| |]; run; try apply R_refl.
  destruct (dict_getitem pdict (PStr "description")) as [desc| |] eqn:Hd; run;
    try apply R_refl.
  unfold make_recommendation. run.
  destruct desc as [| | | | | |o items]; cbn [setitem_str]; run; try apply R_refl.
  unfold assign_field. run. rewrite Hp. run. unfold print. run. cbn.
  apply dict_getitem_Ret in Hp, Hd. now apply R_range.
Qed.

Lemma preserves_warn_dependents (mod_param mod_value : pyval) :
  preserves R (warn_dependents repr mod_param mod_value).
Proof.
  unfold warn_dependents, get_param_definitions.
  apply preserves_bind; [apply preserves_get|intro pdefs].
  apply preserves_for_each. intro name. apply preserves_warn_dependent.
Qed.

End Preservation.


Lemma recordwise_refl (Q : dict -> dict -> Prop) (defs : list (pyval * dict)) :
  (forall r, Q r r) -> recordwise Q defs defs.
Proof.
  intros HQ. induction defs as [|x defs IH]; constructor; auto.
Qed.

Lemma recordwise_trans (Q : dict -> dict -> Prop)
    (a b c : list (pyval * dict)) :
  (forall r1 r2 r3, Q r1 r2 -> Q r2 r3 -> Q r1 r3) ->
  recordwise Q a b -> recordwise Q b c -> recordwise Q a c.
Proof.
  intros HQ Hab. revert c. induction Hab as [|x y a b [Hk Hr] Hab IH];
    intros c Hbc; inversion Hbc as [|y' z b' c' [Hk' Hr'] Hbc']; subst.
  - constructor.
  - constructor; [|now apply IH].
    split; [congruence|eauto].
Qed.

(** Replacing the record found under a name by a related record. *)
Lemma recordwise_assoc_set (Q : dict -> dict -> Prop)
    (defs : list (pyval * dict)) (p : pyval) (rec rec' : dict) :
  (forall r, Q r r) -> assoc_get defs p = Some rec -> Q rec rec' ->
  recordwise Q defs (assoc_set defs p rec').
Proof.
  intros HQ Hg Hr. induction defs as [|[k r] defs IH]; [discriminate|].
  cbn in *. destruct (py_eq p k).
  - injection Hg as ->. constructor; [now split|now apply recordwise_refl].
  - constructor; [now split|now apply IH].
Qed.

Lemma same_but_display_refl (r : dict) : same_but_display r r.
Proof. now intros k _. Qed.

Lemma same_but_display_trans (r1 r2 r3 : dict) :
  same_but_display r1 r2 -> same_but_display r2 r3 -> same_but_display r1 r3.
Proof. intros H12 H23 k Hk. now rewrite H23, H12. Qed.

Lemma same_but_display_set (r : dict) (v : pyval) :
  same_but_display r (assoc_set r (PStr "display") v).
Proof. intros k Hk. now apply assoc_get_set_str_other. Qed.

Lemma description_frame_refl (d : option pyval) : description_frame d d.
Proof. now left. Qed.

Lemma description_frame_trans (d1 d2 d3 : option pyval) :
  description_frame d1 d2 -> description_frame d2 d3 -> description_frame d1 d3.
Proof.
  intros [->|(o & i1 & i2 & -> & -> & H12)] [->|(o' & i2' & i3 & E & -> & H23)];
    try (now left).
  - right. eauto 7.
  - right. exists o, i1, i2. auto.
  - injection E as <- <-. right. exists o, i1, i3. repeat split.
    intros k Hk. now rewrite H23, H12.
Qed.

Lemma record_frame_refl (r : dict) : record_frame r r.
Proof. split; [now intros k _ _|apply description_frame_refl]. Qed.

Lemma record_frame_trans (r1 r2 r3 : dict) :
  record_frame r1 r2 -> record_frame r2 r3 -> record_frame r1 r3.
Proof.
  intros [H12 D12] [H23 D23]. split.
  - intros k Hk Hk'. now rewrite H23, H12.
  - eapply description_frame_trans; eauto.
Qed.

Lemma same_but_display_frame (r r' : dict) :
  same_but_display r r' -> record_frame r r'.
Proof.
  intros H. split; [intros k Hk _; now apply H|].
  left. now apply H.
Qed.

Lemma record_frame_range (r : dict) (o : bool) (items : dict) (v : pyval) :
  assoc_get r (PStr "description") = Some (PDict o items) ->
  record_frame r (assoc_set r (PStr "description")
                    (PDict o (assoc_set items (PStr "range") v))).
Proof.
  intros Hd. split.
  - intros k _ Hk. now apply assoc_get_set_str_other.
  - right. exists o, items, (assoc_set items (PStr "range") v).
    repeat split; [exact Hd|apply assoc_get_set_str_same|].
    intros k Hk. now apply assoc_get_set_str_other.
Qed.

Lemma display_only_refl (d : list (pyval * dict)) : display_only d d.
Proof. apply recordwise_refl, same_but_display_refl. Qed.

Lemma display_only_trans (a b c : list (pyval * dict)) :
  display_only a b -> display_only b c -> display_only a c.
Proof. apply recordwise_trans, same_but_display_trans. Qed.

Lemma display_only_display (defs : list (pyval * dict)) (p : pyval)
    (rec : dict) (v : pyval) :
  assoc_get defs p = Some rec ->
  display_only defs (assoc_set defs p (assoc_set rec (PStr "display") v)).
Proof.
  intros Hg. eapply recordwise_assoc_set; eauto using same_but_display_refl.
  apply same_but_display_set.
Qed.

Lemma definitions_frame_refl (d : list (pyval * dict)) : definitions_frame d d.
Proof. apply recordwise_refl, record_frame_refl. Qed.

Lemma definitions_frame_trans (a b c : list (pyval * dict)) :
  definitions_frame a b -> definitions_frame b c -> definitions_frame a c.
Proof. apply recordwise_trans, record_frame_trans. Qed.

Lemma definitions_frame_display (defs : list (pyval * dict)) (p : pyval)
    (rec : dict) (v : pyval) :
  assoc_get defs p = Some rec ->
  definitions_frame defs (assoc_set defs p (assoc_set rec (PStr "display") v)).
Proof.
  intros Hg. eapply recordwise_assoc_set; eauto using record_frame_refl.
  apply same_but_display_frame, same_but_display_set.
Qed.

Lemma definitions_frame_range (defs : list (pyval * dict)) (p : pyval)
    (rec : dict) (o : bool) (items : dict) (v : pyval) :
  assoc_get defs p = Some rec ->
  assoc_get rec (PStr "description") = Some (PDict o items) ->
  definitions_frame defs
    (assoc_set defs p
       (assoc_set rec (PStr "description")
          (PDict o (assoc_set items (PStr "range") v)))).
Proof.
  intros Hg Hd. eapply recordwise_assoc_set; eauto using record_frame_refl.
  now apply record_frame_range.
Qed.

(** C8 (amended): every operation after loading keeps the definitions within
    [definitions_frame]: the names and their order stay, and each record
    agrees with its old self on every key other than [display] and
    [description]; its description is the old one or, when it is a dictionary,
    differs from the old one in the [range] entry only. *)
Theorem definitions_change_only_display_and_range
    (repr : pyval -> string) (is_multi_param : pyval -> pyval -> bool)
    (convert_multi_params : pyval -> pyval -> pyval * pyval) :
  (forall fuel, preserves definitions_frame (_populate_default_parameters repr fuel))
  /\ (forall fuel, preserves definitions_frame (update_dependent_defaults repr fuel))
  /\ (forall fuel child,
        preserves definitions_frame (get_dependent_default repr fuel child))
  /\ (forall ps, preserves definitions_frame (check_dependencies repr ps))
  /\ (forall input,
        preserves definitions_frame
          (set_plugin_list_parameters repr is_multi_param convert_multi_params input))
  /\ (forall value name ps,
        preserves definitions_frame (check_for_default repr value name ps))
  /\ (forall mod_param mod_value,
        preserves definitions_frame (warn_dependents repr mod_param mod_value)).
Proof.
  pose proof definitions_frame_refl as Hr.
  pose proof definitions_frame_trans as Ht.
  pose proof definitions_frame_display as Hd.
  pose proof definitions_frame_range as Hg.
  repeat split; intros.
  - now apply preserves_populate_default_parameters.
  - now apply preserves_update_dependent_defaults.
  - now apply preserves_get_dependent_default.
  - now apply preserves_check_dependencies.
  - now apply preserves_set_plugin_list_parameters.
  - now apply preserves_check_for_default.
  - now apply preserves_warn_dependents.
Qed.

(** Without a recommendation only the display flags can change. *)
Lemma resolution_changes_only_display (repr : pyval -> string) (fuel : nat)
    (ps : dict) :
  preserves display_only (_populate_default_parameters repr fuel)
  /\ preserves display_only (check_dependencies repr ps).
Proof.
  pose proof display_only_refl as Hr.
  pose proof display_only_trans as Ht.
  pose proof display_only_display as Hd.
  split.
  - now apply preserves_populate_default_parameters.
  - now apply preserves_check_dependencies.
Qed.

(** C8 as stated fails: after [mode] has been set to ["manual"], warning the
    dependents writes the recommendation into the description of
    [threshold]. *)
Lemma recommendation_rewrites_description :
  let run := warn_dependents repr_unused (PStr "mode") (PStr "manual") advised in
  fst run = Ret tt
  /\ description_of (param advised) (PStr "threshold") = Some advised_description
  /\ description_of (param (snd run)) (PStr "threshold")
     = Some (PDict true
               [ (PStr "summary", PStr "The cut-off.");
                 (PStr "verbose", PStr "Values above the cut-off are kept.");
                 (PStr "range",
                  PStr "The recommended value with the chosen mode would be 5") ])
  /\ description_of (param (snd run)) (PStr "threshold")
     <> description_of (param advised) (PStr "threshold")
  /\ stdout (snd run)
     = [Fore_RED ++ "It's recommended that you update threshold to 5" ++ Fore_RESET].
Proof.
  cbv zeta. repeat split; try reflexivity.
  vm_compute. discriminate.
Qed.

(** *** Two default-resolution passes in a row *)

Lemma assoc_get_map {V W} (f : V -> W) (d : list (pyval * V)) (k : pyval) :
  assoc_get (map (fun '(k, v) => (k, f v)) d) k = option_map f (assoc_get d k).
Proof.
  induction d as [|[k' v] d IH]; cbn; [reflexivity|].
  destruct (py_eq k k'); [reflexivity|exact IH].
Qed.

Lemma same_view_refl (defs : list (pyval * dict)) : same_view defs defs.
Proof. reflexivity. Qed.

Lemma same_view_trans (a b c : list (pyval * dict)) :
  same_view a b -> same_view b c -> same_view a c.
Proof. unfold same_view. congruence. Qed.

Lemma same_view_display (defs : list (pyval * dict)) (p : pyval) (rec : dict)
    (v : pyval) :
  assoc_get defs p = Some rec ->
  same_view defs (assoc_set defs p (assoc_set rec (PStr "display") v)).
Proof.
  unfold same_view, resolution_view.
  induction defs as [|[k r] defs IH]; cbn; [discriminate|].
  destruct (py_eq p k); cbn.
  - intros [= ->]. now rewrite !assoc_get_set_str_other by reflexivity.
  - intros H. now rewrite IH.
Qed.

(** Under the same view a name is found on both sides or on neither, and the
    two records found have the same default and the same dependency. *)
Lemma same_view_lookup (defs defs' : list (pyval * dict)) (k : pyval) :
  same_view defs defs' ->
  match assoc_get defs k, assoc_get defs' k with
  | Some r, Some r' =>
      assoc_get r' (PStr "default") = assoc_get r (PStr "default")
      /\ assoc_get r' (PStr "dependency") = assoc_get r (PStr "dependency")
  | None, None => True
  | _, _ => False
  end.
Proof.
  intros Hv.
  pose proof (f_equal (fun d => assoc_get d k) Hv) as H. cbv beta in H.
  unfold resolution_view in H. rewrite !assoc_get_map in H. revert H.
  unfold dict.
  destruct (@assoc_get (list (pyval * pyval)) defs k),
           (@assoc_get (list (pyval * pyval)) defs' k); cbn; intros H;
    try discriminate; [|exact I].
  injection H as H1 H2. auto.
Qed.

Section Agreement.

Variable repr : pyval -> string.

Lemma agree_bind {A B} (m m' : M A) (k k' : A -> M B) (s s' : tools) :
  agree m m' s s' ->
  (forall a t t', alike t t' -> agree (k a) (k' a) t t') ->
  agree (bind m k) (bind m' k') s s'.
Proof.
  intros (o & t & t' & E & E' & Ha) Hk. unfold agree.
  rewrite !bind_run, E, E'. destruct o as [a|e|].
  - now apply Hk.
  - now exists (Raise e), t, t'.
  - now exists Diverge, t, t'.
Qed.

Lemma agree_lift {A} (o : outcome A) (s s' : tools) :
  alike s s' -> agree (lift o) (lift o) s s'.
Proof. intros Ha. now exists o, s, s'. Qed.

Lemma agree_ret {A} (a : A) (s s' : tools) :
  alike s s' -> agree (ret a) (ret a) s s'.
Proof. intros Ha. now exists (Ret a), s, s'. Qed.

Lemma agree_get_parameters (s s' : tools) :
  alike s s' -> agree (get parameters) (get parameters) s s'.
Proof.
  intros Ha. exists (Ret (parameters s)), s, s'.
  split; [reflexivity|]. split; [|exact Ha].
  unfold get. destruct Ha as [_ <-]. reflexivity.
Qed.

(** Reading the definitions gives each side its own. *)
Lemma agree_get_param {B} (k k' : list (pyval * dict) -> M B) (s s' : tools) :
  agree (k (param s)) (k' (param s')) s s' ->
  agree (bind (get param) k) (bind (get param) k') s s'.
Proof. intros H. unfold agree. now rewrite !bind_get. Qed.

Lemma agree_values {A B} (a a' : A) (k k' : A -> M B) (s s' : tools) :
  agree (k a) (k' a') s s' ->
  agree (bind (lift (Ret a)) k) (bind (lift (Ret a')) k') s s'.
Proof. intros H. unfold agree. now rewrite !bind_lift_Ret. Qed.

Lemma agree_raised {A B} (e : exn) (k k' : A -> M B) (s s' : tools) :
  alike s s' ->
  agree (bind (lift (Raise e)) k) (bind (lift (Raise e)) k') s s'.
Proof. intros Ha. now exists (Raise e), s, s'. Qed.

Lemma agree_modify_parameters (ps : dict) (s s' : tools) :
  alike s s' ->
  agree (modify (set_parameters ps)) (modify (set_parameters ps)) s s'.
Proof.
  intros [Hv _]. exists (Ret tt), (set_parameters ps s), (set_parameters ps s').
  repeat split. exact Hv.
Qed.

Lemma agree_assign_parameter (k v : pyval) (s s' : tools) :
  alike s s' -> agree (assign_parameter k v) (assign_parameter k v) s s'.
Proof.
  intros Ha. unfold assign_parameter.
  apply agree_bind; [now apply agree_get_parameters|intros ps t t' Ht].
  apply agree_bind; [now apply agree_lift|intros ps' u u' Hu].
  now apply agree_modify_parameters.
Qed.

Lemma agree_assign_display (p v : pyval) (s s' : tools) :
  alike s s' ->
  agree (assign_field p "display" v) (assign_field p "display" v) s s'.
Proof.
  intros [Hv Hp]. unfold assign_field. apply agree_get_param.
  pose proof (same_view_lookup _ _ p Hv) as Hl.
  unfold dict_getitem. destruct (hashable p).
  - destruct (assoc_get (param s) p) as [r|] eqn:Er,
             (assoc_get (param s') p) as [r'|] eqn:Er'; try contradiction.
    + apply agree_values. unfold agree, modify.
      do 3 eexists. repeat split; cbn [param parameters set_param]; [|exact Hp].
      eapply same_view_trans; [|eapply same_view_trans; [exact Hv|]].
      * symmetry. now apply same_view_display.
      * now apply same_view_display.
    + apply agree_raised. now split.
  - apply agree_raised. now split.
Qed.

Lemma agree_for_each {A} (Rel : A -> A -> Prop) (body : A -> M unit)
    (l l' : list A) :
  Forall2 Rel l l' ->
  (forall a a' t t', Rel a a' -> alike t t' -> agree (body a) (body a') t t') ->
  forall s s', alike s s' -> agree (for_each l body) (for_each l' body) s s'.
Proof.
  intros Hl Hb. induction Hl as [|a a' l l' Ha Hl IH]; intros s s' Hs.
  - now apply agree_ret.
  - cbn [for_each]. apply agree_bind; [now apply Hb|].
    intros _ t t' Ht. now apply IH.
Qed.

Lemma does_exist_same_view (defs defs' : list (pyval * dict)) (k : pyval) :
  same_view defs defs' ->
  (exists e, does_exist repr k defs = Raise e /\ does_exist repr k defs' = Raise e)
  \/ (exists r r',
        does_exist repr k defs = Ret r /\ does_exist repr k defs' = Ret r'
        /\ assoc_get r' (PStr "default") = assoc_get r (PStr "default")).
Proof.
  intros Hv. pose proof (same_view_lookup _ _ k Hv) as Hl.
  unfold does_exist, dict_contains, dict_getitem, assoc_mem.
  destruct (hashable k); cbn [obind]; [|left; eauto].
  destruct (assoc_get defs k) as [r|], (assoc_get defs' k) as [r'|];
    try contradiction; cbn [negb].
  - right. exists r, r'. now destruct Hl.
  - left. eauto.
Qed.

Lemma same_view_records (defs defs' : list (pyval * dict)) :
  same_view defs defs' ->
  Forall2 (fun x y => fst y = fst x
                      /\ assoc_get (snd y) (PStr "default")
                         = assoc_get (snd x) (PStr "default"))
          defs defs'.
Proof.
  unfold same_view, resolution_view. revert defs'.
  induction defs as [|[k r] defs IH]; intros [|[k' r'] defs']; cbn;
    try discriminate; [constructor|].
  intros [= -> Hd _ Hrest]. constructor; auto.
Qed.

Lemma same_view_dependency_list (defs defs' : list (pyval * dict)) :
  same_view defs defs' -> dependency_list defs' = dependency_list defs.
Proof.
  unfold same_view, resolution_view. revert defs'.
  induction defs as [|[k r] defs IH]; intros [|[k' r'] defs']; cbn [map];
    try discriminate; [reflexivity|].
  intros [= -> _ Hdep Hrest]. unfold dependency_list in *. cbn [flat_map].
  rewrite Hdep. f_equal. now apply IH.
Qed.

Lemma same_view_defaults (defs defs' : list (pyval * dict)) :
  same_view defs defs' ->
  map_outcome (fun '(k, v) =>
                 obind (dict_getitem v (PStr "default")) (fun d => Ret (k, d)))
              defs'
  = map_outcome (fun '(k, v) =>
                   obind (dict_getitem v (PStr "default")) (fun d => Ret (k, d)))
                defs.
Proof.
  unfold same_view, resolution_view. revert defs'.
  induction defs as [|[k r] defs IH]; intros [|[k' r'] defs']; cbn [map];
    try discriminate; [reflexivity|].
  intros [= -> Hd _ Hrest]. cbn [map_outcome]. unfold dict_getitem at 1 3.
  cbn [hashable]. now rewrite Hd, (IH _ Hrest).
Qed.

Lemma get_dependent_default_agree (fuel : nat) (child child' : dict)
    (s s' : tools) :
  alike s s' ->
  assoc_get child' (PStr "default") = assoc_get child (PStr "default") ->
  agree (get_dependent_default repr fuel child)
        (get_dependent_default repr fuel child') s s'.
Proof.
  revert child child' s s'.
  induction fuel as [|fuel IH]; intros child child' s s' Hs Hc;
    cbn [get_dependent_default].
  - now apply agree_lift.
  - unfold get_param_definitions. apply agree_get_param.
    assert (Hd : dict_getitem child' (PStr "default")
                 = dict_getitem child (PStr "default")).
    { unfold dict_getitem. now rewrite Hc. }
    rewrite Hd.
    apply agree_bind; [now apply agree_lift|intros default t t' Ht].
    apply agree_bind; [now apply agree_lift|intros keys u u' Hu].
    apply agree_bind; [now apply agree_lift|intros parent_name w w' Hw].
    destruct (does_exist_same_view (param s) (param s') parent_name (proj1 Hs))
      as [(e & E1 & E2)|(r & r' & E1 & E2 & Er)]; rewrite E1, E2.
    + now apply agree_raised.
    + apply agree_values.
      assert (Hr : dict_getitem r' (PStr "default") = dict_getitem r (PStr "default")).
      { unfold dict_getitem. now rewrite Er. }
      rewrite Hr.
      apply agree_bind; [now apply agree_lift|intros parent_default x x' Hx].
      apply agree_bind.
      * destruct parent_default; try now apply agree_ret.
        apply agree_bind; [now apply IH|intros v y y' Hy].
        now apply agree_assign_parameter.
      * intros _ y y' Hy.
        apply agree_bind; [now apply agree_lift|intros branches z z' Hz].
        apply agree_bind; [now apply agree_get_parameters|intros ps a a' Ha].
        apply agree_bind; [now apply agree_lift|intros current b b' Hb].
        now apply agree_lift.
Qed.

Lemma update_dependent_defaults_agree (fuel : nat) (s s' : tools) :
  alike s s' ->
  agree (update_dependent_defaults repr fuel)
        (update_dependent_defaults repr fuel) s s'.
Proof.
  intros Hs. unfold update_dependent_defaults, get_param_definitions.
  apply agree_get_param.
  eapply agree_for_each; [apply same_view_records, Hs| |exact Hs].
  intros [name pdict] [name' pdict'] t t' [Hn Hd] Ht. cbn [fst snd] in Hn, Hd.
  subst name'. unfold update_default.
  assert (Hg : dict_getitem pdict' (PStr "default")
               = dict_getitem pdict (PStr "default")).
  { unfold dict_getitem. now rewrite Hd. }
  rewrite Hg.
  apply agree_bind; [now apply agree_lift|intros default u u' Hu].
  destruct (py_truthy default && is_dict default); [|now apply agree_ret].
  apply agree_bind; [now apply get_dependent_default_agree|intros v w w' Hw].
  now apply agree_assign_parameter.
Qed.

Lemma check_dependency_agree (ps : dict) (item : pyval * pyval) (s s' : tools) :
  alike s s' ->
  agree (check_dependency repr ps item) (check_dependency repr ps item) s s'.
Proof.
  intros Hs. destruct item as [p_name dependency]. unfold check_dependency.
  destruct dependency as [| | | | | |[] dep];
    repeat first
      [ now apply agree_ret
      | now apply agree_assign_display
      | apply agree_bind; [now apply agree_lift|intros ? ? ? ?]
      | match goal with
        | |- agree (if ?b then _ else _) _ _ _ => destruct b
        end ].
Qed.

Lemma check_dependencies_agree (ps : dict) (s s' : tools) :
  alike s s' ->
  agree (check_dependencies repr ps) (check_dependencies repr ps) s s'.
Proof.
  intros Hs. unfold check_dependencies. apply agree_get_param.
  rewrite (same_view_dependency_list _ _ (proj1 Hs)).
  eapply (agree_for_each eq); [|intros a a' t t' <-; apply check_dependency_agree|exact Hs].
  clear. induction (dependency_list (param s)); constructor; auto.
Qed.

(** The pass after the value-set has been reset to the declared defaults. *)
Lemma populate_default_parameters_run (fuel : nat) (s : tools) :
  _populate_default_parameters repr fuel s
  = match map_outcome
            (fun '(k, v) =>
               obind (dict_getitem v (PStr "default")) (fun d => Ret (k, d)))
            (param s) with
    | Ret ps =>
        bind (update_dependent_defaults repr fuel)
             (fun _ => bind (get parameters) (check_dependencies repr))
             (set_parameters ps s)
    | Raise e => (Raise e, s)
    | Diverge => (Diverge, s)
    end.
Proof.
  unfold _populate_default_parameters, get_param_definitions. run.
  match goal with
  | |- context [map_outcome ?f ?l] => destruct (map_outcome f l)
  end; run; reflexivity.
Qed.

Lemma resolution_agree (fuel : nat) (s s' : tools) :
  alike s s' ->
  agree (bind (update_dependent_defaults repr fuel)
              (fun _ => bind (get parameters) (check_dependencies repr)))
        (bind (update_dependent_defaults repr fuel)
              (fun _ => bind (get parameters) (check_dependencies repr))) s s'.
Proof.
  intros Hs.
  apply agree_bind; [now apply update_dependent_defaults_agree|intros _ t t' Ht].
  apply agree_bind; [now apply agree_get_parameters|intros ps u u' Hu].
  now apply check_dependencies_agree.
Qed.

(** A second pass repeats the first: same outcome, same value-set. *)
Lemma populate_twice (fuel : nat) (s : tools) :
  let first := _populate_default_parameters repr fuel s in
  let second := _populate_default_parameters repr fuel (snd first) in
  fst second = fst first /\ parameters (snd second) = parameters (snd first).
Proof.
  cbv zeta.
  pose proof (preserves_populate_default_parameters same_view same_view_refl
                same_view_trans same_view_display repr fuel s) as Hv.
  revert Hv. rewrite (populate_default_parameters_run fuel s).
  match goal with
  | |- context [map_outcome ?f ?l] =>
      destruct (map_outcome f l) as [ps| |] eqn:Hps
  end; cbn [snd fst]; intros Hv.
  - set (rest := bind (update_dependent_defaults repr fuel)
                      (fun _ => bind (get parameters) (check_dependencies repr))) in *.
    destruct (rest (set_parameters ps s)) as [o s1] eqn:E1. cbn [snd fst] in *.
    rewrite (populate_default_parameters_run fuel s1).
    rewrite (same_view_defaults _ _ Hv), Hps. fold rest.
    assert (Ha : alike (set_parameters ps s) (set_parameters ps s1)) by now split.
    destruct (resolution_agree fuel _ _ Ha) as (o' & t & t' & Et & Et' & Ht).
    fold rest in Et, Et'. rewrite E1 in Et. injection Et as <- <-.
    rewrite Et'. cbn [fst snd]. split; [reflexivity|]. symmetry. apply Ht.
  - rewrite (populate_default_parameters_run fuel s), Hps. now split.
  - rewrite (populate_default_parameters_run fuel s), Hps. now split.
Qed.

End Agreement.

(** *** Termination of default resolution *)

Lemma dict_getitem_halts {V} (d : list (pyval * V)) (k : pyval) :
  dict_getitem d k <> Diverge.
Proof.
  unfold dict_getitem. destruct (hashable k); [|discriminate].
  destruct (assoc_get d k); discriminate.
Qed.

Lemma dict_contains_halts {V} (d : list (pyval * V)) (k : pyval) :
  dict_contains d k <> Diverge.
Proof. unfold dict_contains. destruct (hashable k); discriminate. Qed.

Lemma dict_setitem_halts {V} (d : list (pyval * V)) (k : pyval) (v : V) :
  dict_setitem d k v <> Diverge.
Proof. unfold dict_setitem. destruct (hashable k); discriminate. Qed.

Lemma py_keys_halts (x : pyval) : py_keys x <> Diverge.
Proof. destruct x; discriminate. Qed.

Lemma first_of_halts (ks : list pyval) : first_of ks <> Diverge.
Proof. destruct ks; discriminate. Qed.

Lemma does_exist_halts {V} (repr : pyval -> string) (k : pyval)
    (d : list (pyval * V)) :
  does_exist repr k d <> Diverge.
Proof.
  unfold does_exist, dict_contains. destruct (hashable k) eqn:Hh; [|discriminate].
  cbn [obind]. destruct (negb (assoc_mem d k)); [discriminate|].
  apply dict_getitem_halts.
Qed.

Lemma seq_index_halts (n : nat) (i : pyval) : seq_index n i <> Diverge.
Proof.
  unfold seq_index.
  destruct (as_num i) as [[z|f]|]; try discriminate.
  destruct i; try discriminate;
    match goal with
    | |- (if ?b then _ else _) <> _ => destruct b; discriminate
    end.
Qed.

Lemma py_getitem_halts (x i : pyval) : py_getitem x i <> Diverge.
Proof.
  destruct x; try discriminate; cbn [py_getitem].
  - pose proof (seq_index_halts (String.length s) i).
    destruct (seq_index (String.length s) i); [discriminate|discriminate|contradiction].
  - pose proof (seq_index_halts (List.length l) i).
    destruct (seq_index (List.length l) i); [discriminate|discriminate|contradiction].
  - apply dict_getitem_halts.
Qed.

Lemma str_in_halts (a : string) (c : pyval) : str_in a c <> Diverge.
Proof. destruct c; discriminate. Qed.

Lemma map_outcome_halts {A B} (f : A -> outcome B) (l : list A) :
  (forall a, f a <> Diverge) -> map_outcome f l <> Diverge.
Proof.
  intros Hf. induction l as [|a l IH]; cbn; [discriminate|].
  pose proof (Hf a). destruct (f a); cbn; try discriminate; [|contradiction].
  destruct (map_outcome f l); cbn; try discriminate. contradiction.
Qed.

Lemma halts_ret {A} (a : A) : halts (ret a).
Proof. intro s. discriminate. Qed.

Lemma halts_lift {A} (o : outcome A) : o <> Diverge -> halts (lift o).
Proof. intros H s. exact H. Qed.

Lemma halts_get {A} (f : tools -> A) : halts (get f).
Proof. intro s. discriminate. Qed.

Lemma halts_modify (f : tools -> tools) : halts (modify f).
Proof. intro s. discriminate. Qed.

Lemma halts_bind {A B} (m : M A) (k : A -> M B) :
  halts m -> (forall a, halts (k a)) -> halts (bind m k).
Proof.
  intros Hm Hk s. rewrite bind_run. pose proof (Hm s) as H.
  destruct (m s) as [[a| |] s1]; cbn [fst] in *;
    [apply Hk|discriminate|contradiction].
Qed.

Lemma halts_for_each {A} (body : A -> M unit) (l : list A) :
  (forall a, halts (body a)) -> halts (for_each l body).
Proof.
  intros Hb. induction l as [|a l IH]; [apply halts_ret|].
  cbn [for_each]. apply halts_bind; auto.
Qed.

Lemma halts_assign_field (p : pyval) (f : string) (v : pyval) :
  halts (assign_field p f v).
Proof.
  unfold assign_field.
  apply halts_bind; [apply halts_get|intro defs].
  apply halts_bind; [apply halts_lift, dict_getitem_halts|intro rec].
  apply halts_modify.
Qed.

Lemma halts_check_dependencies (repr : pyval -> string) (ps : dict) :
  halts (check_dependencies repr ps).
Proof.
  unfold check_dependencies.
  apply halts_bind; [apply halts_get|intro defs].
  apply halts_for_each. intros [p_name dependency]. unfold check_dependency.
  destruct dependency as [| | | | | |[] dep];
    repeat first
      [ apply halts_ret
      | apply halts_assign_field
      | apply halts_bind; [apply halts_lift|intro]
      | apply dict_getitem_halts | apply dict_contains_halts
      | apply first_of_halts | apply str_in_halts
      | match goal with
        | |- halts (if ?b then _ else _) => destruct b
        end ].
Qed.

Section Termination.

Variable repr : pyval -> string.
Variable defs : list (pyval * dict).

Lemma halts_on_ret {A} (a : A) : halts_on defs (ret a).
Proof. intros s Hs. split; [discriminate|exact Hs]. Qed.

Lemma halts_on_bind {A B} (m : M A) (k : A -> M B) :
  halts_on defs m -> (forall a, halts_on defs (k a)) -> halts_on defs (bind m k).
Proof.
  intros Hm Hk s Hs. rewrite bind_run. destruct (Hm s Hs) as [H1 H2].
  destruct (m s) as [[a| |] s1]; cbn [fst snd] in *.
  - now apply Hk.
  - split; [discriminate|exact H2].
  - contradiction.
Qed.

(** A step whose result is remembered by the steps after it. *)
Lemma halts_on_bind_lift {A B} (o : outcome A) (k : A -> M B) :
  o <> Diverge ->
  (forall a, o = Ret a -> halts_on defs (k a)) ->
  halts_on defs (bind (lift o) k).
Proof.
  intros Ho Hk s Hs. destruct o as [a|e|]; run.
  - now apply Hk.
  - split; [discriminate|exact Hs].
  - contradiction.
Qed.

Lemma halts_on_get_param {B} (k : list (pyval * dict) -> M B) :
  halts_on defs (k defs) -> halts_on defs (bind (get param) k).
Proof. intros Hk s Hs. run. rewrite Hs. now apply Hk. Qed.

Lemma halts_on_assign_parameter (k v : pyval) :
  halts_on defs (assign_parameter k v).
Proof.
  intros s Hs. unfold assign_parameter, dict_setitem. run.
  destruct (hashable k); run; split; try discriminate; exact Hs.
Qed.

Lemma halts_on_for_each {A} (body : A -> M unit) (l : list A) :
  (forall a, In a l -> halts_on defs (body a)) -> halts_on defs (for_each l body).
Proof.
  induction l as [|a l IH]; intros Hb; [apply halts_on_ret|].
  cbn [for_each]. apply halts_on_bind.
  - apply Hb. now left.
  - intros _. apply IH. intros b Hin. apply Hb. now right.
Qed.

Lemma recursive_argument_of_run (child : dict) (default : pyval)
    (keys : list pyval) (parent_name : pyval) (parent : dict) (o : bool)
    (descriptor : dict) :
  dict_getitem child (PStr "default") = Ret default ->
  py_keys default = Ret keys ->
  first_of keys = Ret parent_name ->
  does_exist repr parent_name defs = Ret parent ->
  dict_getitem parent (PStr "default") = Ret (PDict o descriptor) ->
  recursive_argument defs child = Some descriptor.
Proof.
  intros Hd Hk Hf He Hp. unfold recursive_argument.
  apply dict_getitem_Ret in Hd. destruct Hd as [_ ->].
  destruct default as [| | | | | |o' [|[k0 v0] items]]; try discriminate;
    injection Hk as <-; try discriminate.
  injection Hf as ->.
  unfold does_exist, dict_contains in He.
  destruct (hashable parent_name) eqn:Hh; [|discriminate]. cbn [obind] in He.
  destruct (negb (assoc_mem defs parent_name)); [discriminate|].
  apply dict_getitem_Ret in He. destruct He as [_ ->].
  apply dict_getitem_Ret in Hp. destruct Hp as [_ ->]. reflexivity.
Qed.

Lemma call_chain_ends_mono (n m : nat) (child : dict) :
  (n <= m)%nat -> call_chain_ends defs n child = true -> call_chain_ends defs m child = true.
Proof.
  revert m child. induction n as [|n IH]; intros m child Hle; [discriminate|].
  destruct m as [|m]; [lia|]. cbn [call_chain_ends].
  destruct (recursive_argument defs child); [|reflexivity].
  apply IH. lia.
Qed.

Lemma get_dependent_default_halts (fuel : nat) (child : dict) :
  call_chain_ends defs fuel child = true ->
  halts_on defs (get_dependent_default repr fuel child).
Proof.
  revert child. induction fuel as [|fuel IH]; intros child Hc; [discriminate|].
  cbn [get_dependent_default call_chain_ends] in *. unfold get_param_definitions.
  apply halts_on_get_param.
  apply halts_on_bind_lift; [apply dict_getitem_halts|intros default Hd].
  apply halts_on_bind_lift; [apply py_keys_halts|intros keys Hk].
  apply halts_on_bind_lift; [apply first_of_halts|intros parent_name Hf].
  apply halts_on_bind_lift; [apply does_exist_halts|intros parent He].
  apply halts_on_bind_lift; [apply dict_getitem_halts|intros parent_default Hp].
  apply halts_on_bind.
  - destruct parent_default as [| | | | | |o descriptor]; try apply halts_on_ret.
    rewrite (recursive_argument_of_run _ _ _ _ _ _ _ Hd Hk Hf He Hp) in Hc.
    apply halts_on_bind; [now apply IH|intro v].
    apply halts_on_assign_parameter.
  - intros _.
    apply halts_on_bind_lift; [apply py_getitem_halts|intros branches _].
    intros s Hs. run.
    pose proof (dict_getitem_halts (parameters s) parent_name) as H1.
    destruct (dict_getitem (parameters s) parent_name) as [current| |]; run;
      [|split; [discriminate|exact Hs]|contradiction].
    split; [apply py_getitem_halts|exact Hs].
Qed.

Lemma update_dependent_defaults_halts (n fuel : nat) :
  call_chains_end defs n = true -> (n <= fuel)%nat ->
  halts_on defs (update_dependent_defaults repr fuel).
Proof.
  intros Ha Hle. unfold update_dependent_defaults, get_param_definitions.
  apply halts_on_get_param. apply halts_on_for_each.
  intros [name pdict] Hin. unfold update_default.
  apply halts_on_bind_lift; [apply dict_getitem_halts|intros default _].
  destruct (py_truthy default && is_dict default); [|apply halts_on_ret].
  apply halts_on_bind; [|intro v; apply halts_on_assign_parameter].
  apply get_dependent_default_halts.
  unfold call_chains_end in Ha. rewrite forallb_forall in Ha.
  apply (call_chain_ends_mono n fuel _ Hle). exact (Ha _ Hin).
Qed.

Lemma populate_default_parameters_halts (n fuel : nat) (s : tools) :
  param s = defs -> call_chains_end defs n = true -> (n <= fuel)%nat ->
  fst (_populate_default_parameters repr fuel s) <> Diverge.
Proof.
  intros Hs Ha Hle. rewrite populate_default_parameters_run.
  match goal with
  | |- context [map_outcome ?f ?l] =>
      pose proof (map_outcome_halts f l) as Hm;
      destruct (map_outcome f l) as [ps| |]
  end; cbn [fst]; try discriminate.
  - rewrite bind_run.
    destruct (update_dependent_defaults_halts n fuel Ha Hle (set_parameters ps s) Hs)
      as [H1 _].
    destruct (update_dependent_defaults repr fuel (set_parameters ps s))
      as [[[]| |] s1]; cbn [fst] in *; try discriminate; try contradiction.
    run. apply halts_check_dependencies.
  - exfalso. apply Hm; [|reflexivity].
    intros [k v]. pose proof (dict_getitem_halts v (PStr "default")).
    destruct (dict_getitem v (PStr "default")); cbn; try discriminate.
    contradiction.
Qed.

End Termination.

(** X24: when the chains of recursive calls are finite (each ends within
    [n] calls) the default-resolution pass [_populate_default_parameters], given
    a budget of at least [n], terminates, and a second pass right after the
    first ends in the same way and leaves the same current-value mapping. *)
Theorem default_resolution_idempotent
    (repr : pyval -> string) (s : tools) (n fuel : nat) :
  call_chains_end (param s) n = true -> (n <= fuel)%nat ->
  let first := _populate_default_parameters repr fuel s in
  let second := _populate_default_parameters repr fuel (snd first) in
  fst first <> Diverge
  /\ fst second = fst first
  /\ parameters (snd second) = parameters (snd first).
Proof.
  intros Ha Hle. cbv zeta. split.
  - now apply (populate_default_parameters_halts repr (param s) n).
  - apply populate_twice.
Qed.

(** On the mode switch with a dependent threshold the pass resolves the
    threshold to the default for mode ["auto"], twice over. *)
Lemma default_resolution_idempotent_witness :
  let first := _populate_default_parameters repr_unused 1 (instance advised_defs []) in
  let second := _populate_default_parameters repr_unused 1 (snd first) in
  fst first <> Diverge
  /\ fst second = fst first
  /\ parameters (snd second) = parameters (snd first).
Proof.
  exact (default_resolution_idempotent repr_unused (instance advised_defs [])
           1 1 eq_refl (le_n 1)).
Defined.

Example default_resolution_values :
  let first := _populate_default_parameters repr_unused 1 (instance advised_defs []) in
  fst first = Ret tt
  /\ parameters (snd first) = [(PStr "mode", PStr "auto"); (PStr "threshold", PInt 1)].
Proof. split; reflexivity. Qed.

(** On the chain of depth two the pass is cut short by the [KeyError] each
    time, with B resolved and A still holding its descriptor. *)
Example default_resolution_on_chain :
  let first := _populate_default_parameters repr_unused 2 (instance chain_defs []) in
  let second := _populate_default_parameters repr_unused 2 (snd first) in
  call_chains_end chain_defs 2 = true
  /\ fst first = Raise (KeyError (PStr "default"))
  /\ fst second = fst first
  /\ parameters (snd second) = parameters (snd first)
  /\ assoc_get (parameters (snd first)) (PStr "B") = Some (PStr "x").
Proof. cbv zeta. repeat split. Qed.

Lemma assoc_get_In {V} (d : list (pyval * V)) (k : pyval) (v : V) :
  assoc_get d k = Some v -> exists k', In (k', v) d.
Proof.
  induction d as [|[k0 v0] d IH]; cbn; [discriminate|].
  destruct (py_eq k k0).
  - intros [= ->]. exists k0. now left.
  - intros H. destruct (IH H) as [k' Hin]. exists k'. now right.
Qed.

(** Unless a descriptor is keyed by [default], every chain of recursive
    calls ends at its second call, whatever the parents are. *)
Lemma plain_descriptors_call_chains_end (defs : list (pyval * dict)) :
  plain_descriptors defs = true -> call_chains_end defs 2 = true.
Proof.
  intros Hp. unfold call_chains_end. apply forallb_forall. intros [k r] _.
  cbn [call_chain_ends]. destruct (recursive_argument defs r) as [next|] eqn:Hn;
    [|reflexivity].
  unfold recursive_argument in Hn.
  destruct (assoc_get r (PStr "default")) as [[| | | | | |o [|[pn v] items]]|];
    try discriminate.
  destruct (hashable pn); [|discriminate].
  destruct (assoc_get defs pn) as [parent|] eqn:Hparent; [|discriminate].
  destruct (assoc_get_In _ _ _ Hparent) as [k' Hin].
  unfold plain_descriptors in Hp. rewrite forallb_forall in Hp.
  specialize (Hp _ Hin). cbn in Hp.
  destruct (assoc_get parent (PStr "default")) as [[| | | | | |o' d]|];
    try discriminate.
  injection Hn as <-. unfold recursive_argument, assoc_mem in *.
  now destruct (assoc_get d (PStr "default")).
Qed.

(** On [looping] the recursive call made for [A] receives the descriptor of
    [X], reads its entry [default] as if it were a record's default, finds
    the parent [X] again and calls itself with the same descriptor. *)
Lemma get_dependent_default_loops (repr : pyval -> string) (fuel : nat)
    (s : tools) :
  param s = looping_defs ->
  get_dependent_default repr fuel looping_X_descriptor s = (Diverge, s).
Proof.
  intros Hs. induction fuel as [|fuel IH]; [reflexivity|].
  cbn [get_dependent_default]. unfold get_param_definitions. run.
  rewrite Hs. cbn [looping_X_descriptor].
  erewrite dict_getitem_str_Some by reflexivity. run.
  erewrite (does_exist_Some repr looping_defs (PStr "X")) by reflexivity. run.
  erewrite dict_getitem_str_Some by reflexivity. run.
  fold looping_X_descriptor. rewrite bind_run, IH. reflexivity.
Qed.

Lemma update_default_loops (repr : pyval -> string) (fuel : nat) (s : tools) :
  param s = looping_defs ->
  update_default repr fuel (PStr "A", looping_A) s = (Diverge, s).
Proof.
  intros Hs. unfold update_default. run.
  erewrite dict_getitem_str_Some by reflexivity. run.
  cbn [py_truthy is_dict andb].
  destruct fuel as [|fuel]; [reflexivity|].
  cbn [get_dependent_default]. unfold get_param_definitions. run.
  rewrite Hs.
  erewrite dict_getitem_str_Some by reflexivity. run.
  erewrite (does_exist_Some repr looping_defs (PStr "X")) by reflexivity. run.
  erewrite dict_getitem_str_Some by reflexivity. run.
  now rewrite bind_run, (get_dependent_default_loops repr fuel s Hs).
Qed.

(** C9 (the code fails it): [looping] is a definition set without overrides
    whose dependency chain A, X, default is acyclic, and the
    default-resolution pass does not terminate on it: whatever the recursion
    budget, the pass runs out of it. *)
Theorem default_resolution_loops_on_acyclic_set :
  acyclic looping_defs 3 = true
  /\ parent_name_of looping_A = Some (PStr "X")
  /\ parent_name_of looping_X = Some (PStr "default")
  /\ parent_name_of looping_default = None
  /\ forall fuel : nat,
       fst (_populate_default_parameters repr_unused fuel looping) = Diverge.
Proof.
  repeat split. intros [|fuel]; [reflexivity|].
  rewrite populate_default_parameters_run. cbn [looping param instance].
  match goal with
  | |- context [map_outcome ?f looping_defs] =>
      replace (map_outcome f looping_defs) with (Ret (defaults_of looping_defs))
        by reflexivity
  end.
  rewrite bind_run. unfold update_dependent_defaults, get_param_definitions. run.
  set (s0 := set_parameters (defaults_of looping_defs) looping).
  replace (param s0) with looping_defs by reflexivity. unfold looping_defs.
  assert (H1 : update_default repr_unused (S fuel)
                 (PStr "default", looping_default) s0 = (Ret tt, s0))
    by reflexivity.
  assert (H2 : exists s1,
             update_default repr_unused (S fuel) (PStr "X", looping_X) s0
             = (Ret tt, s1)
             /\ param s1 = looping_defs)
    by (eexists; split; reflexivity).
  destruct H2 as (s1 & H2 & Hs1).
  rewrite for_each_cons, H1, for_each_cons, H2, for_each_cons.
  now rewrite (update_default_loops repr_unused (S fuel) s1 Hs1).
Qed.

(** [X] on its own resolves to 5, its parent [default] being a literal; it is
    the call for [A], one step further up the chain, that loops. *)
Example looping_X_resolves :
  fst (get_dependent_default repr_unused 1 looping_X
         (set_parameters (defaults_of looping_defs) looping))
  = Ret (PInt 5).
Proof. reflexivity. Qed.

(** ** Further properties of the tools classes *)

(** *** Text before and after a marker *)

Lemma partition_absent (sep s : string) :
  is_substring sep s = false -> partition sep s = (s, "", "").
Proof.
  induction s as [|c s IH]; cbn [is_substring partition]; intro H;
    apply orb_false_elim in H; destruct H as [Hp Hs].
  - now rewrite Hp.
  - rewrite Hp, (IH Hs). reflexivity.
Qed.

Lemma is_substring_suffix (sep v u : string) :
  is_substring sep (v ++ u) = false -> is_substring sep u = false.
Proof.
  induction v as [|c v IH]; cbn [append is_substring]; [auto|].
  intro H. apply orb_false_elim in H. now apply IH.
Qed.

Lemma prefix_app_long (sep u tail : string) :
  (String.length sep <= String.length u)%nat ->
  prefix sep (u ++ tail) = prefix sep u.
Proof.
  revert u. induction sep as [|a sep IH]; intros [|b u] Hl; cbn in Hl |- *;
    try reflexivity; try lia.
  - now destruct tail.
  - destruct (ascii_dec a b); [apply IH; lia|reflexivity].
Qed.

(** The first occurrence of [sep] in [d ++ tail] is the one that starts
    [tail], when no occurrence starts inside [d]. *)
Lemma partition_at (sep d tail : string) :
  (forall v u, d = v ++ u -> u <> "" -> prefix sep (u ++ tail) = false) ->
  prefix sep tail = true ->
  partition sep (d ++ tail)
  = (d, sep, string_drop (String.length sep) tail).
Proof.
  intros Hd Ht. induction d as [|c d IH].
  - cbn [append]. destruct tail; cbn [partition]; now rewrite Ht.
  - pose proof (Hd "" (String c d) eq_refl ltac:(discriminate)) as Hp.
    cbn [append] in Hp |- *. cbn [partition]. rewrite Hp.
    rewrite IH; [reflexivity|].
    intros v u -> Hu. apply (Hd (String c v) u eq_refl Hu).
Qed.

Lemma prefix_self (a t : string) : prefix a (a ++ t) = true.
Proof.
  induction a as [|x a IH]; cbn [append prefix].
  - now destruct t.
  - destruct (ascii_dec x x); [exact IH|congruence].
Qed.

Lemma string_drop_app (a b : string) :
  string_drop (String.length a) (a ++ b) = b.
Proof. induction a; cbn; auto. Qed.

Ltac split_chars :=
  repeat match goal with
         | |- context [ascii_dec ?a ?b] =>
             destruct (ascii_dec a b) as [?|?]; subst;
             try reflexivity; try congruence
         end.

Lemma no_param_across (u t : string) :
  u <> "" -> is_substring "_param" u = false ->
  prefix "_param" (u ++ "_params." ++ t) = false.
Proof.
  intros Hu H.
  destruct u as [|c1 [|c2 [|c3 [|c4 [|c5 [|c6 u]]]]]]; [congruence| | | | | |].
  1-5: cbn [prefix append]; split_chars.
  rewrite prefix_app_long by (cbn; lia).
  cbn [is_substring] in H. now apply orb_false_elim in H.
Qed.

Lemma no_bibtex_across (u t : string) :
  u <> "" -> is_substring "bibtex:" u = false ->
  prefix "bibtex:" (u ++ "bibtex:" ++ t) = false.
Proof.
  intros Hu H.
  destruct u as [|c1 [|c2 [|c3 [|c4 [|c5 [|c6 [|c7 u]]]]]]]; [congruence| | | | | | |].
  1-6: cbn [prefix append]; split_chars.
  rewrite prefix_app_long by (cbn; lia).
  cbn [is_substring] in H. now apply orb_false_elim in H.
Qed.

Lemma no_endnote_across (u t : string) :
  u <> "" -> is_substring "endnote:" u = false ->
  prefix "endnote:" (u ++ "endnote:" ++ t) = false.
Proof.
  intros Hu H.
  destruct u as [|c1 [|c2 [|c3 [|c4 [|c5 [|c6 [|c7 [|c8 u]]]]]]]];
    [congruence| | | | | | | |].
  1-7: cbn [prefix append]; split_chars.
  rewrite prefix_app_long by (cbn; lia).
  cbn [is_substring] in H. now apply orb_false_elim in H.
Qed.

(** *** Printing *)

Lemma print_run (line : string) (s : tools) :
  print line s = (Ret tt, printed [line] s).
Proof. reflexivity. Qed.

Lemma printed_nil (s : tools) : printed [] s = s.
Proof. destruct s. unfold printed. cbn. now rewrite app_nil_r. Qed.

Lemma printed_app (l1 l2 : list string) (s : tools) :
  printed l2 (printed l1 s) = printed (l1 ++ l2)%list s.
Proof. unfold printed. cbn. now rewrite app_assoc. Qed.

Lemma bind_print {B} (line : string) (k : unit -> M B) (s : tools) :
  bind (print line) k s = k tt (printed [line] s).
Proof. reflexivity. Qed.

#[local] Hint Rewrite @bind_print : run.

(** *** Visibility levels *)

Lemma visibility_of_dict (p v : pyval) :
  visibility_of p = Some v ->
  exists o d, p = PDict o d /\ assoc_get d (PStr "visibility") = Some v.
Proof. destruct p; cbn; try discriminate. eauto. Qed.

Lemma check_data_keys_run (k p v : pyval) :
  visibility_of p = Some v -> _check_data_keys k p = Ret (as_dataset k p).
Proof.
  intros H. destruct (visibility_of_dict _ _ H) as (o & d & -> & Hv).
  unfold _check_data_keys, as_dataset. fold (dataset_key k). rewrite Hv.
  destruct (dataset_key k); [|reflexivity].
  cbn [py_getitem]. rewrite (dict_getitem_str_Some _ _ _ Hv). cbn [obind andb].
  destruct (negb (py_eq v (PStr "datasets")) && negb (py_eq v (PStr "not")));
    reflexivity.
Qed.

Lemma visibility_of_as_dataset (k p v : pyval) :
  visibility_of p = Some v ->
  visibility_of (as_dataset k p)
  = Some (if dataset_key k && negb (py_eq v (PStr "datasets"))
             && negb (py_eq v (PStr "not"))
          then PStr "datasets" else v).
Proof.
  intros H. destruct (visibility_of_dict _ _ H) as (o & d & -> & Hv).
  unfold as_dataset. rewrite Hv.
  destruct (dataset_key k && negb (py_eq v (PStr "datasets"))
            && negb (py_eq v (PStr "not"))); cbn [visibility_of].
  - apply assoc_get_set_str_same.
  - exact Hv.
Qed.

Lemma py_getitem_visibility (p v : pyval) :
  visibility_of p = Some v -> py_getitem p (PStr "visibility") = Ret v.
Proof.
  intros H. destruct (visibility_of_dict _ _ H) as (o & d & -> & Hv).
  cbn [py_getitem]. now apply dict_getitem_str_Some.
Qed.

Lemma py_getitem_str_dict (p v : pyval) (f : string) :
  py_getitem p (PStr f) = Ret v ->
  exists o d, p = PDict o d /\ assoc_get d (PStr f) = Some v.
Proof.
  destruct p as [| | | | t | l | o d]; cbn; try discriminate.
  destruct (assoc_get d (PStr f)) as [v0|] eqn:E; [|discriminate].
  intros [= ->]. eauto.
Qed.

(** The loop on a block whose records all carry a visibility. *)
Lemma visibility_loop_run (repr : pyval -> string) (tool_class : string)
    (items : list (pyval * pyval)) (flag : bool) (s : tools) :
  (forall k p, In (k, p) items -> exists v, visibility_of p = Some v) ->
  visibility_loop repr tool_class items flag s
  = (Ret (flag && forallb level_ok (after_data_keys items),
          after_data_keys items),
     printed (flat_map (visibility_report repr tool_class)
                       (after_data_keys items)) s).
Proof.
  revert flag s. induction items as [|[k p] items IH]; intros flag s Hwf.
  - cbn. now rewrite andb_true_r, printed_nil.
  - destruct (Hwf k p (or_introl eq_refl)) as [v Hv].
    assert (Hwf' : forall k' p', In (k', p') items ->
                     exists v', visibility_of p' = Some v')
      by (intros k' p' Hin; apply (Hwf k' p'); now right).
    cbn [visibility_loop]. rewrite (check_data_keys_run k p v Hv). run.
    pose proof (visibility_of_as_dataset k p v Hv) as Hv'.
    rewrite (py_getitem_visibility _ _ Hv'). run.
    cbn [after_data_keys map flat_map forallb].
    unfold level_ok at 1, visibility_report at 1. cbn [fst snd]. rewrite Hv'.
    fold (valid_level (if dataset_key k && negb (py_eq v (PStr "datasets"))
                          && negb (py_eq v (PStr "not"))
                       then PStr "datasets" else v)).
    destruct (valid_level _); cbn [negb].
    + rewrite bind_run, (IH flag s Hwf'). cbn [app]. run. reflexivity.
    + run. rewrite bind_run, (IH false _ Hwf'). run.
      rewrite !printed_app. cbn [app andb]. now rewrite ?andb_false_r.
Qed.

(** A loop that returns has found a visibility in every record. *)
Lemma visibility_loop_ret (repr : pyval -> string) (tool_class : string)
    (items : list (pyval * pyval)) (flag : bool) (s s' : tools)
    (r : bool * list (pyval * pyval)) :
  visibility_loop repr tool_class items flag s = (Ret r, s') ->
  forall k p, In (k, p) items -> exists v, visibility_of p = Some v.
Proof.
  revert flag s s' r. induction items as [|[k p] items IH];
    intros flag s s' r Hrun k0 p0 Hin; [destruct Hin|].
  cbn [visibility_loop] in Hrun. revert Hrun. rewrite bind_run. unfold lift at 1.
  destruct (_check_data_keys k p) as [p'| |] eqn:Hdk; try discriminate.
  rewrite bind_run. unfold lift at 1.
  destruct (py_getitem p' (PStr "visibility")) as [v| |] eqn:Hget; try discriminate.
  assert (Hp : exists v0, visibility_of p = Some v0).
  { unfold _check_data_keys in Hdk.
    destruct (existsb (py_eq k) _).
    - destruct (py_getitem p (PStr "visibility")) as [v0| |] eqn:Hg0;
        try discriminate.
      destruct (py_getitem_str_dict _ _ _ Hg0) as (o & d & -> & Hd). eauto.
    - injection Hdk as ->.
      destruct (py_getitem_str_dict _ _ _ Hget) as (o & d & -> & Hd). eauto. }
  intros Hrun. destruct Hin as [[= <- <-]|Hin]; [exact Hp|].
  destruct (negb (existsb (py_eq v) (map PStr visibility_levels))).
  - revert Hrun. run. rewrite bind_run.
    destruct (visibility_loop repr tool_class items false _) as [[r'| |] s1] eqn:Hl;
      try discriminate.
    intros _. exact (IH _ _ _ _ Hl k0 p0 Hin).
  - revert Hrun. rewrite bind_run.
    destruct (visibility_loop repr tool_class items flag _) as [[r'| |] s1] eqn:Hl;
      try discriminate.
    intros _. exact (IH _ _ _ _ Hl k0 p0 Hin).
Qed.

Lemma no_visibility_report (repr : pyval -> string) (tool_class : string)
    (items : list (pyval * pyval)) :
  forallb level_ok items = true ->
  flat_map (visibility_report repr tool_class) items = [].
Proof.
  induction items as [|item items IH]; cbn [forallb flat_map]; [reflexivity|].
  intro H. apply andb_true_iff in H. destruct H as [H1 H2].
  rewrite (IH H2), app_nil_r. unfold level_ok in H1. unfold visibility_report.
  destruct (visibility_of (snd item)); [|reflexivity]. now rewrite H1.
Qed.

(** X1: whenever [_check_visibility] returns, it has printed nothing, the
    block is the one it was given with the dataset parameters moved to the
    level [datasets], every record shows one of the six levels, and
    [in_datasets] and [out_datasets] show [datasets] or [not]. *)
Theorem visibility_check_postcondition
    (repr : pyval -> string) (block block' : dict) (tool_class : string)
    (s s' : tools) :
  _check_visibility repr block tool_class s = (Ret block', s') ->
  s' = s
  /\ block' = after_data_keys block
  /\ forall k p', In (k, p') block' ->
       exists v, visibility_of p' = Some v /\ valid_level v = true
                 /\ (dataset_key k = true ->
                     v = PStr "datasets" \/ v = PStr "not").
Proof.
  unfold _check_visibility. rewrite bind_run.
  destruct (visibility_loop repr tool_class block true s) as [[[valid out]| |] s1]
    eqn:Hloop; try discriminate.
  pose proof (visibility_loop_ret _ _ _ _ _ _ _ Hloop) as Hwf.
  rewrite (visibility_loop_run _ _ _ _ _ Hwf) in Hloop.
  injection Hloop as <- <- <-. cbn [andb].
  destruct (forallb level_ok (after_data_keys block)) eqn:Hok; cbn [negb];
    [|discriminate].
  rewrite (no_visibility_report _ _ _ Hok), printed_nil.
  intros [= <- <-]. split; [reflexivity|]. split; [reflexivity|].
  intros k p' Hin.
  rewrite forallb_forall in Hok. pose proof (Hok _ Hin) as Hlevel.
  unfold level_ok in Hlevel. cbn [snd] in Hlevel.
  destruct (visibility_of p') as [v|] eqn:Hv'; [|discriminate].
  exists v. split; [reflexivity|]. split; [exact Hlevel|].
  intros Hk. unfold after_data_keys in Hin. apply in_map_iff in Hin.
  destruct Hin as ([k0 p] & [= -> <-] & Hin).
  destruct (Hwf _ _ Hin) as [v0 Hv0].
  rewrite (visibility_of_as_dataset k p v0 Hv0), Hk in Hv'. cbn [andb] in Hv'.
  destruct (py_eq v0 (PStr "datasets")) eqn:E1; cbn [negb andb] in Hv'.
  - apply py_eq_str_r in E1. left. congruence.
  - destruct (py_eq v0 (PStr "not")) eqn:E2; cbn [negb] in Hv'.
    + apply py_eq_str_r in E2. right. congruence.
    + left. congruence.
Qed.

Lemma visibility_check_postcondition_witness :
  _check_visibility repr_unused dataset_block "DemoTools" (instance [] [])
  = (Ret (after_data_keys dataset_block), instance [] [])
  /\ visibility_of (full_record "basic" (PStr "list") (PList [])) = Some (PStr "basic")
  /\ forall k p', In (k, p') (after_data_keys dataset_block) ->
       exists v, visibility_of p' = Some v /\ valid_level v = true
                 /\ (dataset_key k = true ->
                     v = PStr "datasets" \/ v = PStr "not").
Proof.
  split; [reflexivity|]. split; [reflexivity|].
  exact (proj2 (proj2 (visibility_check_postcondition repr_unused dataset_block
                         (after_data_keys dataset_block) "DemoTools"
                         (instance [] []) (instance [] []) eq_refl))).
Defined.

(** X2: on a block whose records all carry a visibility, [_check_visibility]
    returns the block (dataset parameters moved to [datasets]) without
    printing when every level is one of the six; otherwise it raises after
    printing the three lines of every offending parameter, in the order of
    the block. *)
Theorem visibility_check_reports_every_invalid_level
    (repr : pyval -> string) (block : dict) (tool_class : string) (s : tools) :
  (forall k p, In (k, p) block -> exists v, visibility_of p = Some v) ->
  _check_visibility repr block tool_class s
  = if forallb level_ok (after_data_keys block)
    then (Ret (after_data_keys block), s)
    else (Raise (Exception_ ("Please change the file for " ++ tool_class)),
          printed (flat_map (visibility_report repr tool_class)
                            (after_data_keys block)) s).
Proof.
  intros Hwf. unfold _check_visibility.
  rewrite bind_run, (visibility_loop_run _ _ _ _ _ Hwf). cbn [andb].
  destruct (forallb level_ok (after_data_keys block)) eqn:Hok; cbn [negb].
  - now rewrite (no_visibility_report _ _ _ Hok), printed_nil.
  - reflexivity.
Qed.

Lemma visibility_check_reports_every_invalid_level_witness :
  _check_visibility repr_unused expert_block "DemoTools" (instance [] [])
  = (Raise (Exception_ "Please change the file for DemoTools"),
     Tools [] [] demo_plugin
       [ "Inside DemoTools the size parameter is assigned an invalid visibility level 'expert'";
         "Valid choices are:";
         "basic, intermediate, advanced, datasets, hidden, not";
         "Inside DemoTools the depth parameter is assigned an invalid visibility level 'Basic'";
         "Valid choices are:";
         "basic, intermediate, advanced, datasets, hidden, not" ]).
Proof.
  refine (eq_trans
            (visibility_check_reports_every_invalid_level repr_unused
               expert_block "DemoTools" (instance [] []) _) _).
  - intros k p [[= <- <-]|[[= <- <-]|[[= <- <-]|[]]]]; eexists; reflexivity.
  - reflexivity.
Defined.

(** *** Citation text *)

(** X3: a citation docstring without the marker [bibtex:] is turned into a
    description only, whatever else it holds: an [endnote:] block that is not
    preceded by [bibtex:] ends up inside the description. *)
Theorem citation_without_bibtex_is_description_only
    (remove_new_lines : string -> string) (yaml_text : string) :
  is_substring "bibtex:" yaml_text = false ->
  seperate_description remove_new_lines yaml_text
  = "        description:" ++ remove_new_lines yaml_text.
Proof.
  intro H. unfold seperate_description.
  rewrite (partition_absent _ _ H). reflexivity.
Qed.

Lemma citation_without_bibtex_is_description_only_witness :
  seperate_description (fun t => t) "A method. endnote: %0 Journal Article"
  = "        description:A method. endnote: %0 Journal Article".
Proof.
  exact (citation_without_bibtex_is_description_only (fun t => t)
           "A method. endnote: %0 Journal Article" eq_refl).
Defined.

Lemma nonempty_true (t : string) : t <> "" -> nonempty t = true.
Proof.
  intro H. unfold nonempty. now destruct (String.eqb_spec t "").
Qed.

Lemma partition_bibtex (d rest : string) :
  is_substring "bibtex:" d = false ->
  partition "bibtex:" (d ++ "bibtex:" ++ rest) = (d, "bibtex:", rest).
Proof.
  intros H.
  rewrite (partition_at "bibtex:" d ("bibtex:" ++ rest));
    [reflexivity| |apply prefix_self].
  intros v u -> Hu. apply (no_bibtex_across u rest Hu).
  exact (is_substring_suffix _ _ _ H).
Qed.

Lemma partition_endnote (b e : string) :
  is_substring "endnote:" b = false ->
  partition "endnote:" (b ++ "endnote:" ++ e) = (b, "endnote:", e).
Proof.
  intros H.
  rewrite (partition_at "endnote:" b ("endnote:" ++ e));
    [reflexivity| |apply prefix_self].
  intros v u -> Hu. apply (no_endnote_across u e Hu).
  exact (is_substring_suffix _ _ _ H).
Qed.

(** X4: a docstring made of a description, a [bibtex:] block and an
    [endnote:] block (the description free of the first marker, the bibtex
    block free of the second, both blocks non-empty) is reformatted with the
    two blocks kept character for character behind block markers; only the
    description goes through [remove_new_lines]. *)
Theorem citation_blocks_are_kept_verbatim
    (remove_new_lines : string -> string) (d b e : string) :
  is_substring "bibtex:" d = false ->
  is_substring "endnote:" b = false ->
  b <> "" -> e <> "" ->
  seperate_description remove_new_lines
    (d ++ "bibtex:" ++ b ++ "endnote:" ++ e)
  = ("        description:" ++ remove_new_lines d)
    ++ nl ++ "        bibtex: |" ++ b ++ "endnote: |" ++ e.
Proof.
  intros Hd Hb Hbn Hen. unfold seperate_description.
  rewrite (partition_bibtex d _ Hd). cbn [fst snd].
  rewrite (partition_endnote b e Hb). cbn [fst snd].
  now rewrite (nonempty_true b Hbn), (nonempty_true e Hen).
Qed.

Lemma citation_blocks_are_kept_verbatim_witness :
  seperate_description (fun t => t)
    ("A method." ++ "bibtex:" ++ " @article{a}" ++ "endnote:" ++ " %0 Journal")
  = ("        description:" ++ "A method.")
    ++ nl ++ "        bibtex: |" ++ " @article{a}" ++ "endnote: |" ++ " %0 Journal".
Proof.
  apply (citation_blocks_are_kept_verbatim (fun t => t)
           "A method." " @article{a}" " %0 Journal");
    [reflexivity|reflexivity|discriminate|discriminate].
Defined.

(** *** Sweep labels *)

Lemma prefix_app_true (a b t : string) :
  prefix a b = true -> prefix a (b ++ t) = true.
Proof.
  revert b. induction a as [|x a IH]; intros [|y b]; cbn [prefix append];
    try discriminate; auto.
  - now destruct t.
  - destruct (ascii_dec x y); [apply IH|discriminate].
Qed.

Lemma partition_before_shorter (sep k tail : string) :
  sep <> "" -> is_substring sep k = true ->
  (String.length (fst (fst (partition sep (k ++ tail)))) < String.length k)%nat.
Proof.
  intros Hsep. induction k as [|c k IH]; cbn [is_substring]; intro H.
  - destruct sep; [congruence|discriminate].
  - cbn [append partition].
    destruct (prefix sep (String c (k ++ tail))) eqn:Hp; [cbn; lia|].
    destruct (prefix sep (String c k)) eqn:Hq.
    + apply (prefix_app_true _ _ tail) in Hq. cbn [append] in Hq. congruence.
    + cbn [orb] in H. specialize (IH H).
      destruct (partition sep (k ++ tail)) as [[before found] after].
      cbn in *. lia.
Qed.

Lemma append_assoc_ (a b c : string) : (a ++ b) ++ c = a ++ b ++ c.
Proof. induction a; cbn; congruence. Qed.

Lemma label_before_param (key type_text : string) :
  is_substring "_param" key = false ->
  partition "_param" (key ++ "_params." ++ type_text)
  = (key, "_param", "s." ++ type_text).
Proof.
  intros H.
  rewrite (partition_at "_param" key ("_params." ++ type_text));
    [reflexivity| |exact (prefix_self "_param" ("s." ++ type_text))].
  intros v u -> Hu. apply (no_param_across u type_text Hu).
  exact (is_substring_suffix _ _ _ H).
Qed.

Lemma prefix_split (a b : string) :
  prefix a b = true -> exists t, b = a ++ t.
Proof.
  revert b. induction a as [|x a IH]; intros b H.
  - exists b. reflexivity.
  - destruct b as [|y b]; cbn [prefix] in H; [discriminate|].
    destruct (ascii_dec x y) as [->|]; [|discriminate].
    destruct (IH b H) as [t ->]. now exists t.
Qed.

Lemma prefix_length (a b : string) :
  prefix a b = true -> (String.length a <= String.length b)%nat.
Proof.
  intros H. destruct (prefix_split a b H) as [t ->].
  clear H. induction a; cbn; lia.
Qed.

Lemma is_substring_length (sep k : string) :
  is_substring sep k = true -> (String.length sep <= String.length k)%nat.
Proof.
  induction k as [|c k IH]; cbn [is_substring]; intro H.
  - rewrite orb_false_r in H. exact (prefix_length _ _ H).
  - apply orb_true_iff in H. destruct H as [H|H].
    + exact (prefix_length _ _ H).
    + specialize (IH H). cbn. lia.
Qed.

(** The first occurrence of [sep] in [k ++ tail] lies inside [k] when [k]
    contains [sep]. *)
Lemma partition_inside (sep k tail : string) :
  sep <> "" -> is_substring sep k = true ->
  exists after,
    k = fst (fst (partition sep (k ++ tail))) ++ sep ++ after.
Proof.
  intros Hsep. induction k as [|c k IH]; intro H.
  - cbn [is_substring] in H. destruct sep; [congruence|discriminate].
  - cbn [append partition].
    destruct (prefix sep (String c k)) eqn:Hq.
    + apply (prefix_app_true _ _ tail) in Hq as Hp. cbn [append] in Hp.
      rewrite Hp. cbn [fst append]. exact (prefix_split _ _ Hq).
    + cbn [is_substring] in H. rewrite Hq in H. cbn [orb] in H.
      pose proof (is_substring_length _ _ H) as Hlen.
      change (String c (k ++ tail)) with (String c k ++ tail).
      rewrite prefix_app_long, Hq by (cbn; lia).
      destruct (IH H) as [after Hk].
      destruct (partition sep (k ++ tail)) as [[before found] rest].
      cbn [fst append] in *. exists after. now rewrite <- Hk.
Qed.

Lemma partition_join (sep s : string) :
  let '(before, found, after) := partition sep s in
  s = before ++ found ++ after.
Proof.
  induction s as [|c s IH]; cbn [partition].
  - destruct (prefix sep "") eqn:Hp; [|reflexivity].
    destruct sep; [reflexivity|discriminate].
  - destruct (prefix sep (String c s)) eqn:Hp.
    + cbn [append]. destruct (prefix_split _ _ Hp) as [t Ht].
      rewrite Ht at 2. rewrite string_drop_app. exact Ht.
    + destruct (partition sep s) as [[before found] after].
      cbn [append]. now rewrite <- IH.
Qed.

(** [sep] does not occur in the text before its first occurrence. *)
Lemma partition_before_free (sep s : string) :
  sep <> "" -> is_substring sep (fst (fst (partition sep s))) = false.
Proof.
  intros Hsep. induction s as [|c s IH]; cbn [partition].
  - destruct sep; [congruence|reflexivity].
  - destruct (prefix sep (String c s)) eqn:Hp.
    + destruct sep; [congruence|reflexivity].
    + pose proof (partition_join sep s) as Hj.
      destruct (partition sep s) as [[before found] after].
      cbn [fst] in *. cbn [is_substring]. rewrite IH, orb_false_r.
      destruct (prefix sep (String c before)) eqn:Hq; [|reflexivity].
      apply (prefix_app_true _ _ (found ++ after)) in Hq.
      cbn [append] in Hq. rewrite <- Hj in Hq. congruence.
Qed.

(** X5: the parameter name that [_set_parameters_this_instance] reads back
    from a sweep label built as [key + "_params." + type] is the key itself
    exactly when the key does not contain the text [_param]; for a key that
    contains it, the name read back is the text of the key before its first
    [_param], a proper prefix of the key that is free of [_param]. *)
Theorem sweep_label_gives_back_key (key type_text : string) :
  let label := PStr ((key ++ "_params.") ++ type_text) in
  (split_first "_param" label = Ret (PStr key)
   <-> is_substring "_param" key = false)
  /\ (is_substring "_param" key = true ->
      exists name after : string,
        split_first "_param" label = Ret (PStr name)
        /\ key = name ++ "_param" ++ after
        /\ is_substring "_param" name = false).
Proof.
  cbv zeta. rewrite append_assoc_. cbn [split_first]. split; [split|].
  - intros [= H]. destruct (is_substring "_param" key) eqn:E; [|reflexivity].
    pose proof (partition_before_shorter "_param" key ("_params." ++ type_text)
                  ltac:(discriminate) E) as Hlt.
    assert (Hk : fst (fst (partition "_param" (key ++ "_params." ++ type_text)))
                 = key) by exact H.
    rewrite Hk in Hlt. lia.
  - intros H. now rewrite (label_before_param key type_text H).
  - intros H.
    destruct (partition_inside "_param" key ("_params." ++ type_text)
                ltac:(discriminate) H) as [after Hk].
    exists (fst (fst (partition "_param" (key ++ "_params." ++ type_text)))), after.
    split; [reflexivity|]. split; [exact Hk|].
    apply partition_before_free. discriminate.
Qed.

Lemma sweep_label_gives_back_key_witness :
  exists name after : string,
    split_first "_param" (PStr (("n_params" ++ "_params.") ++ "int"))
    = Ret (PStr name)
    /\ "n_params" = name ++ "_param" ++ after
    /\ is_substring "_param" name = false.
Proof.
  exact (proj2 (sweep_label_gives_back_key "n_params" "int") eq_refl).
Defined.

(** X6: with one sweep registered for a key free of [_param],
    [_set_parameters_this_instance] assigns to that key the value that the
    index selects from the sweep, and changes nothing else. *)
Theorem sweep_instance_assigns_registered_key
    (set_order : list pyval -> list pyval) (dim index values value : pyval)
    (key type_text : string) (s : tools) :
  set_order [dim] = [dim] ->
  hashable dim = true -> py_eq dim dim = true ->
  is_substring "_param" key = false ->
  py_getitem values index = Ret value ->
  _set_parameters_this_instance set_order
    [(dim, PDict false [ (PStr "label", PStr ((key ++ "_params.") ++ type_text));
                         (PStr "values", values) ])]
    (PList [index]) s
  = (Ret tt, set_parameters (assoc_set (parameters s) (PStr key) value) s).
Proof.
  intros Hset Hh Hr Hkey Hv. unfold _set_parameters_this_instance.
  cbn [map fst]. rewrite Hset. cbn [this_instance_loop]. run.
  rewrite (dict_getitem_Some [(dim, _)] dim _ Hh)
    by (cbn [assoc_get]; now rewrite Hr).
  run. cbn [py_getitem].
  erewrite dict_getitem_str_Some by reflexivity. run.
  cbn [split_first]. rewrite append_assoc_, (label_before_param key type_text Hkey).
  cbn [fst]. run.
  erewrite dict_getitem_str_Some by reflexivity. run.
  change (seq_index (List.length [index]) (PInt 0)) with (Ret (A := nat) 0%nat).
  cbn [obind nth]. run. rewrite Hv. run.
  unfold assign_parameter, dict_setitem. cbn [hashable]. run. reflexivity.
Qed.

Lemma sweep_instance_assigns_registered_key_witness :
  _set_parameters_this_instance (fun keys => keys)
    [(PInt 0,
      PDict false
        [ (PStr "label", PStr (("threshold" ++ "_params.") ++ "float"));
          (PStr "values", PList [PFloat 1%float; PFloat 2%float; PFloat 3%float]) ])]
    (PList [PInt 1]) tuned
  = (Ret tt,
     set_parameters
       (assoc_set (parameters tuned) (PStr "threshold") (PFloat 2%float)) tuned).
Proof.
  exact (sweep_instance_assigns_registered_key (fun keys => keys) (PInt 0)
           (PInt 1) (PList [PFloat 1%float; PFloat 2%float; PFloat 3%float])
           (PFloat 2%float) "threshold" "float" tuned
           eq_refl eq_refl eq_refl eq_refl eq_refl).
Defined.

(** *** Citation keys *)

(** X7: for a citation given as a dictionary, [_citation_keys_valid] never
    raises and answers whether the key [description] is present; keys outside
    the six known ones are reported on the console but do not change the
    answer, and nothing is printed when there are none. *)
Theorem citation_validity_is_presence_of_description
    (repr : pyval -> string) (o : bool) (d : dict) (tool_class : string)
    (s : tools) :
  let run := _citation_keys_valid repr (PDict o d) tool_class s in
  fst run = Ret (assoc_mem d (PStr "description"))
  /\ only_printed s (snd run)
  /\ (forallb (fun k => existsb (py_eq k) (map PStr all_keys)) (map fst d) = true
      <-> snd run = s).
Proof.
  cbv zeta. unfold _citation_keys_valid. run.
  assert (Hvalid :
            (if negb (forallb
                        (fun item => existsb (py_eq (PStr item)) (map fst d))
                        ["description"])
             then false else true)
            = assoc_mem d (PStr "description")).
  { cbn [forallb]. rewrite andb_true_r, <- assoc_mem_keys.
    now destruct (assoc_mem d (PStr "description")). }
  rewrite Hvalid. clear Hvalid.
  set (unknown := filter _ (map fst d)).
  assert (Hunknown : unknown = [] <->
            forallb (fun k => existsb (py_eq k) (map PStr all_keys)) (map fst d)
            = true).
  { subst unknown. induction (map fst d) as [|k ks IH]; cbn [filter forallb].
    - tauto.
    - destruct (existsb (py_eq k) (map PStr all_keys)); cbn [negb andb].
      + exact IH.
      + split; discriminate. }
  destruct unknown as [|k ks].
  - run. destruct (assoc_mem d (PStr "description")); cbn [fst snd];
      (split; [reflexivity|]); (split; [exists []; now rewrite printed_nil|]);
      split; auto; intros _; now apply Hunknown.
  - run. destruct (assoc_mem d (PStr "description")); cbn [fst snd];
      (split; [reflexivity|]);
      (split; [rewrite !printed_app; eexists; reflexivity|]);
      (split; [intro H; apply Hunknown in H; discriminate|]);
      rewrite !printed_app; intro H; exfalso;
      apply (f_equal stdout) in H; cbn in H;
      apply (f_equal (@List.length string)) in H;
      rewrite length_app in H; cbn in H; lia.
Qed.

(** *** The validators only print *)

Lemma only_printed_refl (s : tools) : only_printed s s.
Proof. exists []. now rewrite printed_nil. Qed.

Lemma only_printed_trans (s1 s2 s3 : tools) :
  only_printed s1 s2 -> only_printed s2 s3 -> only_printed s1 s3.
Proof.
  intros [l1 ->] [l2 ->]. exists (l1 ++ l2)%list. apply printed_app.
Qed.

Lemma prints_only_ret {A} (a : A) : prints_only (ret a).
Proof. intro s. split; [discriminate|apply only_printed_refl]. Qed.

Lemma prints_only_raise {A} (e : exn) : prints_only (@raise A e).
Proof. intro s. split; [discriminate|apply only_printed_refl]. Qed.

Lemma prints_only_lift {A} (o : outcome A) :
  o <> Diverge -> prints_only (lift o).
Proof. intros H s. split; [exact H|apply only_printed_refl]. Qed.

Lemma prints_only_print (line : string) : prints_only (print line).
Proof. intro s. split; [discriminate|]. now exists [line]. Qed.

Lemma prints_only_bind {A B} (m : M A) (k : A -> M B) :
  prints_only m -> (forall a, prints_only (k a)) -> prints_only (bind m k).
Proof.
  intros Hm Hk s. rewrite bind_run. destruct (Hm s) as [H1 H2].
  destruct (m s) as [[a| |] s1]; cbn [fst snd] in *.
  - destruct (Hk a s1) as [H3 H4]. split; [exact H3|].
    eapply only_printed_trans; eauto.
  - split; [discriminate|exact H2].
  - contradiction.
Qed.

Lemma prints_only_for_each {A} (body : A -> M unit) (l : list A) :
  (forall a, prints_only (body a)) -> prints_only (for_each l body).
Proof.
  intros Hb. induction l as [|a l IH]; [apply prints_only_ret|].
  cbn [for_each]. apply prints_only_bind; auto.
Qed.

Lemma required_keys_loop_halts (items : list (pyval * pyval))
    (rk : list string) (mk : bool) (mkd : list (pyval * list string)) :
  required_keys_loop items rk mk mkd <> Diverge.
Proof.
  revert rk mk mkd. induction items as [|[k p] items IH]; intros rk mk mkd;
    cbn [required_keys_loop]; [discriminate|].
  destruct p; try discriminate.
  match goal with |- context [if ?b then _ else _] => destruct b end; apply IH.
Qed.

Lemma prints_only_check_required_keys (repr : pyval -> string)
    (key_order : list string -> list string) (block : dict)
    (tool_class : string) :
  prints_only (_check_required_keys repr key_order block tool_class).
Proof.
  unfold _check_required_keys.
  apply prints_only_bind; [apply prints_only_lift, required_keys_loop_halts|].
  intros [mk mkd]. destruct mk; [|apply prints_only_ret].
  apply prints_only_bind; [apply prints_only_print|intros _].
  apply prints_only_bind; [|intros _; apply prints_only_raise].
  apply prints_only_for_each. intros [param missing].
  apply prints_only_bind; [apply prints_only_print|intros _].
  apply prints_only_print.
Qed.

Lemma py_get_halts (x : pyval) (k : string) : py_get x k <> Diverge.
Proof. destruct x; discriminate. Qed.

Lemma py_iter_halts (c : pyval) : py_iter c <> Diverge.
Proof. destruct c; discriminate. Qed.

Lemma py_in_halts (x c : pyval) : py_in x c <> Diverge.
Proof.
  destruct c; try discriminate; cbn [py_in].
  - destruct x; discriminate.
  - apply dict_contains_halts.
Qed.

Lemma filter_outcome_halts {A} (f : A -> outcome bool) (l : list A) :
  (forall a, f a <> Diverge) -> filter_outcome f l <> Diverge.
Proof.
  intros Hf. induction l as [|a l IH]; cbn; [discriminate|].
  pose proof (Hf a). destruct (f a); cbn; try discriminate; [|contradiction].
  destruct (filter_outcome f l); cbn; try discriminate. contradiction.
Qed.

Lemma options_loop_halts (items : list (pyval * pyval)) :
  options_loop items <> Diverge.
Proof.
  induction items as [|[k p] items IH]; cbn [options_loop]; [discriminate|].
  pose proof (py_getitem_halts p (PStr "description")) as H1.
  destruct (py_getitem p (PStr "description")) as [desc| |]; cbn [obind];
    try discriminate; [|contradiction].
  destruct (is_dict desc); [|exact IH].
  pose proof (py_get_halts p "options") as H2.
  destruct (py_get p "options") as [options| |]; cbn [obind];
    try discriminate; [|contradiction].
  pose proof (py_get_halts desc "options") as H3.
  destruct (py_get desc "options") as [option_desc| |]; cbn [obind];
    try discriminate; [|contradiction].
  destruct (py_truthy options && py_truthy option_desc); [|exact IH].
  pose proof (py_iter_halts option_desc) as H4.
  destruct (py_iter option_desc) as [opts| |]; cbn [obind];
    try discriminate; [|contradiction].
  match goal with
  | |- context [filter_outcome ?f opts] =>
      assert (H5 : filter_outcome f opts <> Diverge);
      [apply filter_outcome_halts; intro opt;
       pose proof (py_in_halts opt options);
       destruct (py_in opt options); cbn; try discriminate; contradiction|];
      destruct (filter_outcome f opts) as [[|x invalid]| |]
  end; cbn [obind]; try discriminate; [exact IH|contradiction].
Qed.

Lemma prints_only_check_options (block : dict) (tool_class : string) :
  prints_only (_check_options block tool_class).
Proof.
  unfold _check_options.
  apply prints_only_bind; [apply prints_only_lift, options_loop_halts|].
  intros []; [apply prints_only_ret|apply prints_only_raise].
Qed.

Lemma check_data_keys_halts (k p : pyval) : _check_data_keys k p <> Diverge.
Proof.
  unfold _check_data_keys. destruct (existsb _ _); [|discriminate].
  pose proof (py_getitem_halts p (PStr "visibility")) as H.
  destruct (py_getitem p (PStr "visibility")) as [v| |]; cbn [obind];
    try discriminate; [|contradiction].
  destruct (_ && _); [|discriminate]. destruct p; discriminate.
Qed.

Lemma prints_only_visibility_loop (repr : pyval -> string)
    (tool_class : string) (items : list (pyval * pyval)) (flag : bool) :
  prints_only (visibility_loop repr tool_class items flag).
Proof.
  revert flag. induction items as [|[k p] items IH]; intro flag;
    cbn [visibility_loop]; [apply prints_only_ret|].
  apply prints_only_bind; [apply prints_only_lift, check_data_keys_halts|].
  intro p'.
  apply prints_only_bind; [apply prints_only_lift, py_getitem_halts|].
  intro v. destruct (negb _).
  - repeat (apply prints_only_bind; [apply prints_only_print|intros _]).
    apply prints_only_bind; [apply IH|]. intros [valid rest].
    apply prints_only_ret.
  - apply prints_only_bind; [apply IH|]. intros [valid rest].
    apply prints_only_ret.
Qed.

Lemma prints_only_check_visibility (repr : pyval -> string) (block : dict)
    (tool_class : string) :
  prints_only (_check_visibility repr block tool_class).
Proof.
  unfold _check_visibility.
  apply prints_only_bind; [apply prints_only_visibility_loop|].
  intros [valid out]. destruct (negb valid);
    [apply prints_only_raise|apply prints_only_ret].
Qed.

Lemma prints_only_dtype_loop (repr : pyval -> string) (type_dict : dict)
    (items : list (pyval * pyval)) (flag : bool) :
  prints_only (dtype_loop repr type_dict items flag).
Proof.
  revert flag. induction items as [|[k p] items IH]; intro flag;
    cbn [dtype_loop]; [apply prints_only_ret|].
  apply prints_only_bind; [apply prints_only_lift, py_getitem_halts|].
  intro dtype.
  assert (Hscalar : prints_only
            (known <- lift (dict_contains type_dict dtype) ;;
             if negb known then
               print (invalid_type_line repr k dtype) ;;
               dtype_loop repr type_dict items false
             else dtype_loop repr type_dict items flag)).
  { apply prints_only_bind; [apply prints_only_lift, dict_contains_halts|].
    intros []; cbn [negb]; [apply IH|].
    apply prints_only_bind; [apply prints_only_print|intros _; apply IH]. }
  destruct dtype; try exact Hscalar.
  apply prints_only_bind; [|intros _; apply IH].
  apply prints_only_for_each. intro item.
  apply prints_only_bind; [apply prints_only_lift, dict_contains_halts|].
  intros []; cbn [negb]; [apply prints_only_ret|apply prints_only_print].
Qed.

Lemma prints_only_check_dtype (repr : pyval -> string) (type_dict block : dict)
    (tool_class : string) :
  prints_only (_check_dtype repr type_dict block tool_class).
Proof.
  unfold _check_dtype.
  apply prints_only_bind; [apply prints_only_dtype_loop|].
  intros []; cbn [negb]; [apply prints_only_ret|].
  repeat (apply prints_only_bind; [apply prints_only_print|intros _]).
  apply prints_only_raise.
Qed.

(** X8: the four checks run on a parameter block return or raise, and
    whatever they do they leave the definitions, the value-set and the plugin
    alone: the instance afterwards differs from the one before in the lines
    printed only. *)
Theorem validators_only_print
    (repr : pyval -> string) (key_order : list string -> list string)
    (type_dict block : dict) (tool_class : string) :
  prints_only (_check_required_keys repr key_order block tool_class)
  /\ prints_only (_check_options block tool_class)
  /\ prints_only (_check_visibility repr block tool_class)
  /\ prints_only (_check_dtype repr type_dict block tool_class).
Proof.
  split; [apply prints_only_check_required_keys|].
  split; [apply prints_only_check_options|].
  split; [apply prints_only_check_visibility|apply prints_only_check_dtype].
Qed.

(** *** What a block must hold to be stored *)

Lemma required_keys_loop_flagged (items : list (pyval * pyval))
    (rk : list string) (mkd mkd' : list (pyval * list string)) (b : bool) :
  required_keys_loop items rk true mkd = Ret (b, mkd') -> b = true.
Proof.
  revert rk mkd. induction items as [|[k p] items IH]; intros rk mkd;
    cbn [required_keys_loop].
  - now intros [= <- _].
  - destruct p; try discriminate.
    match goal with |- context [if ?c then _ else _] => destruct c end;
      apply IH.
Qed.

(** A pass of the required-key loop that flags nothing has seen a [default]
    in every record. *)
Lemma required_keys_loop_default (items : list (pyval * pyval))
    (rk : list string) (mkd mkd' : list (pyval * list string)) :
  In "default" rk ->
  required_keys_loop items rk false mkd = Ret (false, mkd') ->
  forall k p, In (k, p) items ->
    exists o d, p = PDict o d /\ assoc_mem d (PStr "default") = true.
Proof.
  revert rk mkd. induction items as [|[k p] items IH]; intros rk mkd Hrk Hrun;
    [intros ? ? []|].
  cbn [required_keys_loop] in Hrun.
  destruct p as [| | | | | |o d]; try discriminate.
  set (rk' := if py_eq _ (PStr "hidden") then ["default"] else rk) in Hrun.
  assert (Hrk' : In "default" rk').
  { subst rk'. destruct (py_eq _ _); [now left|exact Hrk]. }
  destruct (forallb _ rk') eqn:Hall; cbn [negb] in Hrun.
  - intros k0 p0 [[= <- <-]|Hin]; [|exact (IH _ _ Hrk' Hrun k0 p0 Hin)].
    exists o, d. split; [reflexivity|].
    rewrite forallb_forall in Hall. rewrite assoc_mem_keys. exact (Hall _ Hrk').
  - apply required_keys_loop_flagged in Hrun. discriminate.
Qed.

Lemma raise_after_not_ret {A B} (m : M A) (e : exn) (s : tools) (b : B) :
  fst (bind m (fun _ => raise e) s) <> Ret b.
Proof.
  rewrite bind_run. destruct (m s) as [[a| |] s1]; cbn; discriminate.
Qed.

Lemma check_required_keys_ret (repr : pyval -> string)
    (key_order : list string -> list string) (block : dict)
    (tool_class : string) (s s' : tools) :
  _check_required_keys repr key_order block tool_class s = (Ret tt, s') ->
  forall k p, In (k, p) block ->
    exists o d, p = PDict o d /\ assoc_mem d (PStr "default") = true.
Proof.
  unfold _check_required_keys. rewrite bind_run. unfold lift at 1.
  destruct (required_keys_loop block _ false []) as [[mk mkd]| |] eqn:Hloop;
    try discriminate.
  destruct mk.
  - intro H. exfalso. revert H. rewrite <- bind_bind.
    match goal with
    | |- ?run = _ -> _ =>
        intro H; apply (f_equal fst) in H; cbn [fst] in H; revert H
    end.
    apply raise_after_not_ret.
  - intros _. eapply required_keys_loop_default; [|exact Hloop].
    cbn. tauto.
Qed.

Lemma options_loop_true (items : list (pyval * pyval)) :
  options_loop items = Ret true ->
  forall k p, In (k, p) items ->
    exists o d, p = PDict o d /\ assoc_mem d (PStr "description") = true.
Proof.
  induction items as [|[k p] items IH]; [intros _ ? ? []|].
  cbn [options_loop].
  destruct (py_getitem p (PStr "description")) as [desc| |] eqn:Hdesc;
    cbn [obind]; try discriminate.
  intros Hrun.
  assert (Hrest : options_loop items = Ret true).
  { destruct (is_dict desc); [|exact Hrun].
    destruct (py_get p "options") as [options| |]; cbn [obind] in Hrun;
      try discriminate.
    destruct (py_get desc "options") as [option_desc| |]; cbn [obind] in Hrun;
      try discriminate.
    destruct (py_truthy options && py_truthy option_desc); [|exact Hrun].
    destruct (py_iter option_desc) as [opts| |]; cbn [obind] in Hrun;
      try discriminate.
    destruct (filter_outcome _ opts) as [[|x invalid]| |]; cbn [obind] in Hrun;
      try discriminate.
    exact Hrun. }
  intros k0 p0 [[= <- <-]|Hin]; [|exact (IH Hrest k0 p0 Hin)].
  destruct (py_getitem_str_dict _ _ _ Hdesc) as (o & d & -> & Hd).
  exists o, d. split; [reflexivity|]. exact (assoc_mem_Some _ _ _ Hd).
Qed.

Lemma check_options_ret (block : dict) (tool_class : string) (s s' : tools) :
  _check_options block tool_class s = (Ret tt, s') ->
  forall k p, In (k, p) block ->
    exists o d, p = PDict o d /\ assoc_mem d (PStr "description") = true.
Proof.
  unfold _check_options. rewrite bind_run. unfold lift at 1.
  destruct (options_loop block) as [[|]| |] eqn:Hloop; try discriminate.
  intros _. now apply options_loop_true.
Qed.

Lemma for_each_ret_inv {A} (body : A -> M unit) (l : list A) (s s' : tools) :
  for_each l body s = (Ret tt, s') ->
  forall a, In a l -> exists s0 s1, body a s0 = (Ret tt, s1).
Proof.
  revert s. induction l as [|a l IH]; intros s Hrun; [intros ? []|].
  rewrite for_each_cons in Hrun.
  destruct (body a s) as [[[]| |] s1] eqn:Hb; try discriminate.
  intros a0 [<-|Hin]; [eauto|exact (IH _ Hrun a0 Hin)].
Qed.

Lemma dtype_loop_ret (repr : pyval -> string) (type_dict : dict)
    (items : list (pyval * pyval)) (flag b : bool) (s s' : tools) :
  dtype_loop repr type_dict items flag s = (Ret b, s') ->
  forall k p, In (k, p) items ->
    exists o d, p = PDict o d /\ assoc_mem d (PStr "dtype") = true.
Proof.
  revert flag s. induction items as [|[k p] items IH]; intros flag s Hrun;
    [intros ? ? []|].
  cbn [dtype_loop] in Hrun. revert Hrun. rewrite bind_run. unfold lift at 1.
  destruct (py_getitem p (PStr "dtype")) as [dtype| |] eqn:Hd; try discriminate.
  intros Hrun.
  assert (Hrest : exists flag' s0, dtype_loop repr type_dict items flag' s0
                                   = (Ret b, s')).
  { assert (Hscalar :
              (known <- lift (dict_contains type_dict dtype) ;;
               if negb known then
                 print (invalid_type_line repr k dtype) ;;
                 dtype_loop repr type_dict items false
               else dtype_loop repr type_dict items flag) s = (Ret b, s') ->
              exists flag' s0, dtype_loop repr type_dict items flag' s0
                               = (Ret b, s')).
    { rewrite bind_run. unfold lift at 1.
      destruct (dict_contains type_dict dtype) as [[|]| |]; cbn [negb];
        try discriminate; run; eauto. }
    destruct dtype; try (exact (Hscalar Hrun)).
    revert Hrun. rewrite bind_run.
    destruct (for_each l _ s) as [[[]| |] s1]; try discriminate. eauto. }
  destruct Hrest as (flag' & s0 & Hrest).
  intros k0 p0 [[= <- <-]|Hin]; [|exact (IH _ _ Hrest k0 p0 Hin)].
  destruct (py_getitem_str_dict _ _ _ Hd) as (o & d & -> & Hd').
  exists o, d. split; [reflexivity|]. exact (assoc_mem_Some _ _ _ Hd').
Qed.

Lemma check_dtype_ret (repr : pyval -> string) (type_dict block : dict)
    (tool_class : string) (s s' : tools) :
  _check_dtype repr type_dict block tool_class s = (Ret tt, s') ->
  forall k p, In (k, p) block ->
    exists o d, p = PDict o d /\ assoc_mem d (PStr "dtype") = true.
Proof.
  unfold _check_dtype. rewrite bind_run.
  destruct (dtype_loop repr type_dict block true s) as [[b| |] s1] eqn:Hloop;
    try discriminate.
  intros _. exact (dtype_loop_ret _ _ _ _ _ _ _ Hloop).
Qed.

Lemma check_visibility_ret (repr : pyval -> string) (block block' : dict)
    (tool_class : string) (s s' : tools) :
  _check_visibility repr block tool_class s = (Ret block', s') ->
  block' = after_data_keys block
  /\ forall k p, In (k, p) block -> exists v, visibility_of p = Some v.
Proof.
  unfold _check_visibility. rewrite bind_run.
  destruct (visibility_loop repr tool_class block true s) as [[[valid out]| |] s1]
    eqn:Hloop; try discriminate.
  pose proof (visibility_loop_ret _ _ _ _ _ _ _ Hloop) as Hwf.
  rewrite (visibility_loop_run _ _ _ _ _ Hwf) in Hloop.
  injection Hloop as <- <- <-.
  destruct (negb _); [discriminate|]. intros [= <- _]. auto.
Qed.

Lemma as_dataset_other_key (k p : pyval) (o : bool) (d : dict) (f : string) :
  as_dataset k p = PDict o d ->
  py_eq (PStr f) (PStr "visibility") = false ->
  exists d0, p = PDict o d0 /\ assoc_mem d0 (PStr f) = assoc_mem d (PStr f).
Proof.
  intros H Hf. unfold as_dataset in H.
  destruct p as [| | | | | |o0 d0]; try discriminate.
  destruct (assoc_get d0 (PStr "visibility")) as [v|];
    [|injection H as <- <-; eauto].
  destruct (_ && _); injection H as <- <-; [|eauto].
  exists d0. split; [reflexivity|]. unfold assoc_mem.
  now rewrite (assoc_get_set_str_other d0 "visibility" _ _ Hf).
Qed.

(** The four checks pass only on a block whose records all carry the four
    keys. *)
Lemma checks_pass_on_complete_records
    (repr : pyval -> string) (key_order : list string -> list string)
    (type_dict block block' : dict)
    (tool_class : string) (s s1 s2 s3 s4 : tools) :
  _check_required_keys repr key_order block tool_class s = (Ret tt, s1) ->
  _check_options block tool_class s1 = (Ret tt, s2) ->
  _check_visibility repr block tool_class s2 = (Ret block', s3) ->
  _check_dtype repr type_dict block' tool_class s3 = (Ret tt, s4) ->
  forallb (fun '(_, p) => complete_record p) block = true.
Proof.
  intros H1 H2 H3 H4. apply forallb_forall. intros [k p] Hin.
  destruct (check_required_keys_ret _ _ _ _ _ _ H1 k p Hin) as (o & d & -> & Hdefault).
  destruct (check_options_ret _ _ _ _ H2 k _ Hin) as (o1 & d1 & [= <- <-] & Hdesc).
  destruct (check_visibility_ret _ _ _ _ _ _ H3) as [-> Hwf].
  destruct (Hwf k _ Hin) as [v Hv]. cbn [visibility_of] in Hv.
  assert (Hin' : In (k, as_dataset k (PDict o d)) (after_data_keys block)).
  { unfold after_data_keys. apply in_map_iff. exists (k, PDict o d). auto. }
  destruct (check_dtype_ret _ _ _ _ _ _ H4 k _ Hin') as (o2 & d2 & Heq & Hdtype).
  destruct (as_dataset_other_key _ _ _ _ "dtype" Heq eq_refl)
    as (d0 & [= <- <-] & Hsame).
  cbn [complete_record forallb].
  now rewrite Hsame, Hdtype, Hdesc, (assoc_mem_Some _ _ _ Hv), Hdefault.
Qed.

(** X9: a parameter block is stored only if every record, the hidden ones
    included, carries [dtype], [description], [visibility] and [default]:
    when one record lacks one of them, [_set_parameter_definitions] raises
    before it stores anything, so that the definitions and the value-set are
    as they were. *)
Theorem block_with_incomplete_record_is_rejected
    (repr : pyval -> string) (key_order : list string -> list string)
    (type_dict : dict)
    (dumps : pyval -> outcome pyval)
    (metadata_set : list (pyval * dict) -> pyval -> dict
                    -> outcome (list (pyval * dict)))
    (block : dict) (tool_class : string) (s : tools) :
  forallb (fun '(_, p) => complete_record p) block = false ->
  exists e : exn,
    fst (_set_parameter_definitions repr type_dict key_order dumps metadata_set
           (PDict true block) tool_class s) = Raise e
    /\ only_printed s
         (snd (_set_parameter_definitions repr type_dict key_order dumps metadata_set
                 (PDict true block) tool_class s)).
Proof.
  intros Hbad.
  assert (Hne : py_truthy (PDict true block) = true)
    by (destruct block; [discriminate|reflexivity]).
  unfold _set_parameter_definitions, _load_param_from_doc. rewrite Hne. run.
  rewrite Hne.
  rewrite bind_run.
  destruct (prints_only_check_required_keys repr key_order block tool_class s) as [Hh1 Hp1].
  destruct (_check_required_keys repr key_order block tool_class s) as [[[]| |] s1] eqn:H1;
    cbn [fst snd] in Hh1, Hp1;
    [|exists e; split; [reflexivity|exact Hp1]|contradiction].
  rewrite bind_run.
  destruct (prints_only_check_options block tool_class s1) as [Hh2 Hp2].
  destruct (_check_options block tool_class s1) as [[[]| |] s2] eqn:H2;
    cbn [fst snd] in Hh2, Hp2;
    [|exists e; split; [reflexivity|exact (only_printed_trans _ _ _ Hp1 Hp2)]
     |contradiction].
  pose proof (only_printed_trans _ _ _ Hp1 Hp2) as Hp12.
  rewrite bind_run.
  destruct (prints_only_check_visibility repr block tool_class s2) as [Hh3 Hp3].
  destruct (_check_visibility repr block tool_class s2) as [[block'| |] s3] eqn:H3;
    cbn [fst snd] in Hh3, Hp3;
    [|exists e; split; [reflexivity|exact (only_printed_trans _ _ _ Hp12 Hp3)]
     |contradiction].
  pose proof (only_printed_trans _ _ _ Hp12 Hp3) as Hp13.
  rewrite bind_run.
  destruct (prints_only_check_dtype repr type_dict block' tool_class s3) as [Hh4 Hp4].
  destruct (_check_dtype repr type_dict block' tool_class s3) as [[[]| |] s4] eqn:H4;
    cbn [fst snd] in Hh4, Hp4;
    [|exists e; split; [reflexivity|exact (only_printed_trans _ _ _ Hp13 Hp4)]
     |contradiction].
  rewrite (checks_pass_on_complete_records _ _ _ _ _ _ _ _ _ _ _ H1 H2 H3 H4) in Hbad.
  discriminate.
Qed.

(** A hidden parameter that declares its default only gets past the
    required-key check and is stopped by the option check, which reads its
    description. *)
Lemma block_with_incomplete_record_is_rejected_witness :
  _check_required_keys repr_unused listed_order [(PStr "secret", hidden_param)] "DemoTools"
    (instance [] [])
  = (Ret tt, instance [] [])
  /\ _set_parameter_definitions repr_unused small_registry listed_order
       (fun v => Ret v) (fun defs k v => Ret (assoc_set defs k v))
       (PDict true [(PStr "secret", hidden_param)]) "DemoTools" (instance [] [])
     = (Raise (KeyError (PStr "description")), instance [] [])
  /\ exists e : exn,
       fst (_set_parameter_definitions repr_unused small_registry listed_order
              (fun v => Ret v) (fun defs k v => Ret (assoc_set defs k v))
              (PDict true [(PStr "secret", hidden_param)]) "DemoTools"
              (instance [] [])) = Raise e
       /\ only_printed (instance [] [])
            (snd (_set_parameter_definitions repr_unused small_registry listed_order
                    (fun v => Ret v) (fun defs k v => Ret (assoc_set defs k v))
                    (PDict true [(PStr "secret", hidden_param)]) "DemoTools"
                    (instance [] []))).
Proof.
  split; [reflexivity|]. split; [reflexivity|].
  exact (block_with_incomplete_record_is_rejected repr_unused listed_order small_registry
           (fun v => Ret v) (fun defs k v => Ret (assoc_set defs k v))
           [(PStr "secret", hidden_param)] "DemoTools" (instance [] []) eq_refl).
Defined.

(** *** Option descriptions *)

Lemma filter_outcome_total {A} (f : A -> outcome bool) (g : A -> bool)
    (l : list A) :
  (forall a, f a = Ret (g a)) -> filter_outcome f l = Ret (filter g l).
Proof.
  intros Hf. induction l as [|a l IH]; cbn [filter_outcome filter];
    [reflexivity|].
  rewrite Hf, IH. cbn [obind]. reflexivity.
Qed.

Lemma filter_none_forallb {A} (g : A -> bool) (l : list A) :
  match filter (fun a => negb (g a)) l with [] => true | _ :: _ => false end
  = forallb g l.
Proof.
  induction l as [|a l IH]; cbn [filter forallb]; [reflexivity|].
  destruct (g a); cbn [negb andb]; [exact IH|reflexivity].
Qed.

Lemma options_loop_run (items : list (pyval * pyval)) :
  forallb options_typed (map snd items) = true ->
  options_loop items = Ret (forallb option_descriptions_ok (map snd items)).
Proof.
  induction items as [|[k p] items IH]; cbn [map snd forallb]; [reflexivity|].
  intro H. apply andb_true_iff in H. destruct H as [Hp Hrest].
  specialize (IH Hrest). cbn [options_loop].
  destruct p as [| | | | | |o d]; try discriminate.
  cbn [options_typed option_descriptions_ok py_getitem py_get] in *.
  destruct (assoc_get d (PStr "description")) as [desc|] eqn:Hdesc;
    [|discriminate].
  rewrite (dict_getitem_str_Some _ _ _ Hdesc). cbn [obind].
  destruct desc as [| | | | | |o' dd]; cbn [is_dict]; try exact IH.
  cbn [py_get obind].
  destruct (assoc_get d (PStr "options")) as [options|];
    [|cbn [py_truthy andb]; exact IH].
  destruct (assoc_get dd (PStr "options")) as [option_desc|].
  - destruct (py_truthy options && py_truthy option_desc) eqn:Ht;
      cbn [negb orb] in Hp.
    + destruct options as [| | | | |l|]; try discriminate.
      destruct option_desc as [| | | | | |oo od]; try discriminate.
      destruct l as [|x l]; [discriminate|].
      cbn [py_iter obind py_in].
      rewrite (filter_outcome_total _
                 (fun opt => negb (existsb (py_eq_deep opt) (x :: l))))
        by reflexivity.
      cbn [obind].
      pose proof (filter_none_forallb
                    (fun opt => existsb (py_eq_deep opt) (x :: l)) (map fst od))
        as Hnone.
      destruct (filter _ (map fst od)); rewrite <- Hnone; [exact IH|reflexivity].
    + rewrite IH.
      destruct options as [| | | | |[|x l]|]; try reflexivity.
      destruct option_desc as [| | | | | |oo [|item od]]; try reflexivity.
      discriminate.
  - rewrite andb_false_r, IH. now destruct options as [| | | | |[|x l]|].
Qed.

(** X10: on a block whose [options] entries have the expected shapes,
    [_check_options] prints nothing and changes nothing; it returns when, in
    every record that lists options, each option explained in the description
    is one of those listed, and raises otherwise. *)
Theorem option_check_contract
    (block : dict) (tool_class : string) (s : tools) :
  forallb options_typed (map snd block) = true ->
  _check_options block tool_class s
  = (if forallb option_descriptions_ok (map snd block) then Ret tt
     else Raise (Exception_ ("Please check the parameter options for "
                             ++ tool_class)),
     s).
Proof.
  intro H. unfold _check_options. rewrite (options_loop_run block H). run.
  now destruct (forallb option_descriptions_ok (map snd block)).
Qed.

Lemma option_check_contract_witness :
  _check_options stray_option_block "DemoTools" (instance [] [])
  = (Raise (Exception_ "Please check the parameter options for DemoTools"),
     instance [] []).
Proof.
  exact (option_check_contract stray_option_block "DemoTools" (instance [] [])
           eq_refl).
Defined.

(** *** Dependent defaults, one level deep and deeper *)

(** X11: a default that depends on a parent whose own default is a literal
    resolves to the branch selected by the parent's current value (not by its
    declared default), and the call changes nothing. *)
Theorem dependent_default_follows_parent_value
    (repr : pyval -> string) (fuel : nat) (child parent rest : dict) (s : tools)
    (o : bool) (parent_name branches literal current value : pyval) :
  assoc_get child (PStr "default")
  = Some (PDict o ((parent_name, branches) :: rest)) ->
  hashable parent_name = true -> py_eq parent_name parent_name = true ->
  assoc_get (param s) parent_name = Some parent ->
  assoc_get parent (PStr "default") = Some literal ->
  is_dict literal = false ->
  assoc_get (parameters s) parent_name = Some current ->
  py_getitem branches current = Ret value ->
  get_dependent_default repr (S fuel) child s = (Ret value, s).
Proof.
  intros Hd Hh Hr Hp Hl Hlit Hc Hv.
  cbn [get_dependent_default]. unfold get_param_definitions. run.
  rewrite (dict_getitem_str_Some _ _ _ Hd). run.
  rewrite (does_exist_Some _ _ _ _ Hh Hp). run.
  rewrite (dict_getitem_str_Some _ _ _ Hl). run.
  assert (Hskip : forall k : unit -> M pyval,
             bind (match literal with
                   | PDict _ descriptor =>
                       v <- get_dependent_default repr fuel descriptor ;;
                       assign_parameter parent_name v
                   | _ => ret tt
                   end) k s = k tt s).
  { intro k. destruct literal; try discriminate; reflexivity. }
  rewrite Hskip. cbn [py_getitem].
  rewrite (dict_getitem_Some ((parent_name, branches) :: rest) parent_name
             branches Hh) by (cbn [assoc_get]; now rewrite Hr).
  run. rewrite (dict_getitem_Some _ _ _ Hh Hc). run.
  now rewrite Hv.
Qed.

Lemma dependent_default_follows_parent_value_witness :
  get_dependent_default repr_unused 1 chain_B chain = (Ret (PStr "x"), chain)
  /\ get_dependent_default repr_unused 1 chain_B
       (instance chain_defs [(PStr "C", PInt 2)])
     = (Ret (PStr "x"), instance chain_defs [(PStr "C", PInt 2)]).
Proof.
  split.
  - exact (dependent_default_follows_parent_value repr_unused 0 chain_B chain_C
             [] chain true (PStr "C") (PDict true [(PInt 2, PStr "x")])
             (PInt 2) (PInt 2) (PStr "x")
             eq_refl eq_refl eq_refl eq_refl eq_refl eq_refl eq_refl eq_refl).
  - reflexivity.
Defined.

(** X12: a default that depends on a parent whose own default is a
    descriptor cannot be resolved: unless that descriptor happens to have an
    entry [default], the recursive call is handed the descriptor in place of
    the parent's record and raises [KeyError('default')], with the instance
    unchanged. *)
Theorem dependent_default_two_levels_deep_raises
    (repr : pyval -> string) (fuel : nat) (child parent descriptor rest : dict)
    (s : tools) (o1 o2 : bool) (name parent_name branches : pyval) :
  assoc_get child (PStr "default")
  = Some (PDict o1 ((parent_name, branches) :: rest)) ->
  hashable parent_name = true ->
  assoc_get (param s) parent_name = Some parent ->
  assoc_get parent (PStr "default") = Some (PDict o2 descriptor) ->
  assoc_get descriptor (PStr "default") = None ->
  get_dependent_default repr (S (S fuel)) child s
  = (Raise (KeyError (PStr "default")), s)
  /\ update_default repr (S (S fuel)) (name, child) s
     = (Raise (KeyError (PStr "default")), s).
Proof.
  intros Hd Hh Hp Hpd Hnone.
  assert (Hcall : get_dependent_default repr (S (S fuel)) child s
                  = (Raise (KeyError (PStr "default")), s)).
  { cbn [get_dependent_default]. unfold get_param_definitions. run.
    rewrite (dict_getitem_str_Some _ _ _ Hd). run.
    rewrite (does_exist_Some _ _ _ _ Hh Hp). run.
    rewrite (dict_getitem_str_Some _ _ _ Hpd). run.
    rewrite (dict_getitem_str_None _ _ Hnone). run.
    reflexivity. }
  split; [exact Hcall|].
  unfold update_default. rewrite (dict_getitem_str_Some _ _ _ Hd). run.
  cbn [py_truthy is_dict andb]. now rewrite bind_run, Hcall.
Qed.

Lemma dependent_default_two_levels_deep_raises_witness :
  get_dependent_default repr_unused 2 chain_A chain
  = (Raise (KeyError (PStr "default")), chain)
  /\ update_default repr_unused 2 (PStr "A", chain_A) chain
     = (Raise (KeyError (PStr "default")), chain).
Proof.
  exact (dependent_default_two_levels_deep_raises repr_unused 0 chain_A chain_B
           [(PStr "C", PDict true [(PInt 2, PStr "x")])] [] chain true true
           (PStr "A") (PStr "B")
           (PDict true [(PStr "x", PInt 42)])
           eq_refl eq_refl eq_refl eq_refl eq_refl).
Defined.

(** X13: as long as no descriptor has an entry keyed [default], a recursion
    budget of two is enough for the whole default-resolution pass: it returns
    or raises, whatever the definitions are. *)
Theorem resolution_needs_depth_two_at_most
    (repr : pyval -> string) (fuel : nat) (s : tools) :
  plain_descriptors (param s) = true -> (2 <= fuel)%nat ->
  fst (_populate_default_parameters repr fuel s) <> Diverge
  /\ fst (update_dependent_defaults repr fuel s) <> Diverge.
Proof.
  intros Hp Hle.
  pose proof (plain_descriptors_call_chains_end (param s) Hp) as Hc.
  split.
  - exact (populate_default_parameters_halts repr (param s) 2 fuel s eq_refl Hc Hle).
  - exact (proj1 (update_dependent_defaults_halts repr (param s) 2 fuel Hc Hle
                    s eq_refl)).
Qed.

Lemma resolution_needs_depth_two_at_most_witness :
  fst (_populate_default_parameters repr_unused 2 (instance chain_defs []))
  <> Diverge
  /\ fst (update_dependent_defaults repr_unused 2 (instance chain_defs []))
     <> Diverge.
Proof.
  exact (resolution_needs_depth_two_at_most repr_unused 2 (instance chain_defs [])
           eq_refl (le_n 2)).
Defined.

(** *** Overrides: frame and effect *)

Lemma grows_refl (s : tools) : grows s s.
Proof. split; [reflexivity|]. exists []. now rewrite app_nil_r. Qed.

Lemma grows_trans (s1 s2 s3 : tools) : grows s1 s2 -> grows s2 s3 -> grows s1 s3.
Proof.
  intros [A1 [l1 B1]] [A2 [l2 B2]]. split; [congruence|].
  exists (l1 ++ l2)%list. now rewrite B2, B1, app_assoc.
Qed.

Lemma assign_parameter_grows (key value : pyval) (s : tools) :
  fst (assign_parameter key value s) <> Diverge
  /\ grows s (snd (assign_parameter key value s)).
Proof.
  unfold assign_parameter, dict_setitem. run.
  destruct (hashable key); run; (split; [discriminate|]).
  - split; [reflexivity|]. exists []. cbn. now rewrite app_nil_r.
  - apply grows_refl.
Qed.

Lemma check_multi_params_grows
    (is_multi_param : pyval -> pyval -> bool)
    (convert_multi_params : pyval -> pyval -> pyval * pyval)
    (value key : pyval) (s : tools) :
  fst (__check_multi_params is_multi_param convert_multi_params value key s)
  <> Diverge
  /\ grows s
       (snd (__check_multi_params is_multi_param convert_multi_params value key s)).
Proof.
  unfold __check_multi_params. run.
  destruct (is_multi_param key value); [|apply assign_parameter_grows].
  destruct (convert_multi_params key value) as [v' err].
  destruct (py_truthy err); cbn [negb];
    [split; [discriminate|apply grows_refl]|].
  destruct (assign_parameter_grows key v' s) as [Hh Ha].
  rewrite bind_run.
  destruct (assign_parameter key v' s) as [[[]| |] s1]; cbn [fst snd] in *;
    [|split; [discriminate|exact Ha]|contradiction].
  destruct (add_str key "_params.") as [prefix| |] eqn:Hadd; run;
    [|split; [discriminate|exact Ha]|destruct key; discriminate].
  pose proof (py_getitem_halts v' (PInt 0)) as Hg.
  destruct (py_getitem v' (PInt 0)) as [first| |]; run;
    [|split; [discriminate|exact Ha]|contradiction].
  assert (Hlen : py_len v' <> Diverge) by (destruct v'; discriminate).
  destruct (py_len v') as [n| |]; run;
    [|split; [discriminate|exact Ha]|contradiction].
  split; [discriminate|]. eapply grows_trans; [exact Ha|].
  split; [reflexivity|]. now exists [PInt n].
Qed.

Lemma override_body_grows (repr : pyval -> string)
    (is_multi_param : pyval -> pyval -> bool)
    (convert_multi_params : pyval -> pyval -> pyval * pyval)
    (input : dict) (key : pyval) (s : tools) :
  fst (override_body repr is_multi_param convert_multi_params input key s)
  <> Diverge
  /\ grows s
       (snd (override_body repr is_multi_param convert_multi_params input key s)).
Proof.
  unfold override_body. run.
  pose proof (dict_contains_halts (parameters s) key) as Hc.
  destruct (dict_contains (parameters s) key) as [[|]| |]; run;
    try (split; [discriminate|apply grows_refl]); [|contradiction].
  pose proof (dict_getitem_halts input key) as Hg.
  destruct (dict_getitem input key) as [v| |]; run;
    try (split; [discriminate|apply grows_refl]); [|contradiction].
  apply check_multi_params_grows.
Qed.

Lemma for_each_grows {A} (body : A -> M unit) (l : list A) (s : tools) :
  (forall a s0, fst (body a s0) <> Diverge /\ grows s0 (snd (body a s0))) ->
  fst (for_each l body s) <> Diverge /\ grows s (snd (for_each l body s)).
Proof.
  intros Hb. revert s. induction l as [|a l IH]; intro s.
  - split; [discriminate|apply grows_refl].
  - rewrite for_each_cons. destruct (Hb a s) as [Hh Ha].
    destruct (body a s) as [[[]| |] s1]; cbn [fst snd] in *;
      [|split; [discriminate|exact Ha]|contradiction].
    destruct (IH s1) as [Hh' Ha']. split; [exact Hh'|].
    eapply grows_trans; eauto.
Qed.

(** X14: applying the overrides of a process list, whether it succeeds or
    raises half-way, returns control, leaves the definitions, the names of
    the value-set and the plugin's name as they were, prints nothing, and
    can only append to the plugin's extra dimensions. *)
Theorem overrides_keep_names_and_print_nothing
    (repr : pyval -> string) (is_multi_param : pyval -> pyval -> bool)
    (convert_multi_params : pyval -> pyval -> pyval * pyval)
    (input : dict) (s : tools) :
  let run :=
    set_plugin_list_parameters repr is_multi_param convert_multi_params input s in
  fst run <> Diverge
  /\ param (snd run) = param s
  /\ map fst (parameters (snd run)) = map fst (parameters s)
  /\ Plugin.name (plugin_class (snd run)) = Plugin.name (plugin_class s)
  /\ stdout (snd run) = stdout s
  /\ exists added : list pyval,
       Plugin.extra_dims (plugin_class (snd run))
       = (Plugin.extra_dims (plugin_class s) ++ added)%list.
Proof.
  cbv zeta.
  destruct (set_list_stable repr is_multi_param convert_multi_params input s)
    as (Hparam & Hkeys & Hname).
  assert (Hgrows :
            fst (set_plugin_list_parameters repr is_multi_param
                   convert_multi_params input s) <> Diverge
            /\ grows s (snd (set_plugin_list_parameters repr is_multi_param
                               convert_multi_params input s))).
  { unfold set_plugin_list_parameters. apply for_each_grows.
    intros key s0. apply override_body_grows. }
  destruct Hgrows as (Hh & Hout & Hdims). auto 10.
Qed.

Lemma assoc_get_distinct {V} (d : list (pyval * V)) (k : pyval) (v : V) :
  distinct_names (map fst d) = true -> In (k, v) d -> assoc_get d k = Some v.
Proof.
  induction d as [|[k' v'] d IH]; [intros _ []|].
  intros Hd Hin. cbn [map fst] in Hd.
  destruct (distinct_names_cons _ _ Hd) as (a & -> & Hex & Hd').
  cbn [assoc_get]. destruct Hin as [[= <- <-]|Hin].
  - now rewrite py_eq_str_refl.
  - assert (Hk : py_eq k (PStr a) = false).
    { apply (distinct_names_tail a (map fst d) k Hd).
      apply in_map_iff. now exists (k, v). }
    rewrite Hk. now apply IH.
Qed.

Lemma overridden_keys (input ps : dict) :
  (forall k v, In (k, v) input -> assoc_mem ps k = true) ->
  map fst (overridden input ps) = map fst ps.
Proof.
  revert ps. induction input as [|[k v] input IH]; intros ps Hknown;
    [reflexivity|].
  cbn [overridden fold_left]. fold (overridden input (assoc_set ps k v)).
  assert (Hk : map fst (assoc_set ps k v) = map fst ps)
    by (apply assoc_set_keys, (Hknown k v); now left).
  rewrite IH; [exact Hk|].
  intros k' v' Hin. rewrite assoc_mem_keys, Hk, <- assoc_mem_keys.
  apply (Hknown k' v'). now right.
Qed.

Lemma overridden_other (input ps : dict) (q : pyval) :
  distinct_names (map fst input) = true ->
  existsb (py_eq q) (map fst input) = false ->
  assoc_get (overridden input ps) q = assoc_get ps q.
Proof.
  revert ps. induction input as [|[k v] input IH]; intros ps Hd Hq;
    [reflexivity|].
  cbn [map fst] in Hd, Hq.
  destruct (distinct_names_cons _ _ Hd) as (a & -> & Hex & Hd').
  cbn [existsb] in Hq. apply orb_false_elim in Hq. destruct Hq as [Hq1 Hq2].
  cbn [overridden fold_left]. fold (overridden input (assoc_set ps (PStr a) v)).
  rewrite (IH _ Hd' Hq2). now apply assoc_get_set_str_other.
Qed.

Lemma overridden_lookup (input ps : dict) (k v : pyval) :
  distinct_names (map fst input) = true -> In (k, v) input ->
  assoc_get (overridden input ps) k = Some v.
Proof.
  revert ps. induction input as [|[k0 v0] input IH]; intros ps Hd Hin;
    [destruct Hin|].
  cbn [map fst] in Hd.
  destruct (distinct_names_cons _ _ Hd) as (a & -> & Hex & Hd').
  cbn [overridden fold_left]. fold (overridden input (assoc_set ps (PStr a) v0)).
  destruct Hin as [[= <- <-]|Hin].
  - rewrite (overridden_other _ _ _ Hd' Hex). apply assoc_get_set_str_same.
  - now apply IH.
Qed.

Lemma plain_overrides_loop (repr : pyval -> string)
    (is_multi_param : pyval -> pyval -> bool)
    (convert_multi_params : pyval -> pyval -> pyval * pyval)
    (whole rest : dict) (s : tools) :
  distinct_names (map fst whole) = true ->
  (forall k v, In (k, v) rest ->
     In (k, v) whole /\ assoc_mem (parameters s) k = true
     /\ is_multi_param k v = false) ->
  for_each (map fst rest)
    (override_body repr is_multi_param convert_multi_params whole) s
  = (Ret tt, set_parameters (overridden rest (parameters s)) s).
Proof.
  intros Hd. revert s. induction rest as [|[k v] rest IH]; intros s Hall.
  - cbn. now destruct s.
  - destruct (Hall k v (or_introl eq_refl)) as (Hin & Hknown & Hplain).
    assert (Hstr : exists a, k = PStr a).
    { apply (distinct_names_str (map fst whole) k Hd).
      apply in_map_iff. now exists (k, v). }
    destruct Hstr as [a ->].
    cbn [map fst]. rewrite for_each_cons. unfold override_body at 1. run.
    rewrite (dict_contains_hashable _ _ (eq_refl : hashable (PStr a) = true)),
      Hknown. run.
    rewrite (dict_getitem_str_Some _ _ _ (assoc_get_distinct _ _ _ Hd Hin)). run.
    unfold __check_multi_params. run. rewrite Hplain.
    unfold assign_parameter, dict_setitem. cbn [hashable]. run.
    unfold modify. cbv beta iota. rewrite IH.
    + reflexivity.
    + intros k' v' Hin'. destruct (Hall k' v' (or_intror Hin')) as (H1 & H2 & H3).
      split; [exact H1|]. split; [|exact H3].
      cbn [parameters set_parameters].
      rewrite assoc_mem_keys, (assoc_set_keys _ _ _ Hknown), <- assoc_mem_keys.
      exact H2.
Qed.

(** X15: overrides of known parameters by plain (not multi-value) values are
    all applied: the call returns, every overridden parameter holds its new
    value, every other parameter its old one, the names of the value-set and
    their order are unchanged, and nothing else in the instance changes. *)
Theorem plain_overrides_are_applied
    (repr : pyval -> string) (is_multi_param : pyval -> pyval -> bool)
    (convert_multi_params : pyval -> pyval -> pyval * pyval)
    (input : dict) (s : tools) :
  distinct_names (map fst input) = true ->
  (forall k v, In (k, v) input ->
     assoc_mem (parameters s) k = true /\ is_multi_param k v = false) ->
  exists ps' : dict,
    set_plugin_list_parameters repr is_multi_param convert_multi_params input s
    = (Ret tt, set_parameters ps' s)
    /\ map fst ps' = map fst (parameters s)
    /\ (forall k v, In (k, v) input -> assoc_get ps' k = Some v)
    /\ (forall q, assoc_mem input q = false ->
                  assoc_get ps' q = assoc_get (parameters s) q).
Proof.
  intros Hd Hall. exists (overridden input (parameters s)).
  split; [|split; [|split]].
  - unfold set_plugin_list_parameters. apply plain_overrides_loop; [exact Hd|].
    intros k v Hin. destruct (Hall k v Hin). auto.
  - apply overridden_keys. intros k v Hin. now destruct (Hall k v Hin).
  - intros k v Hin. now apply overridden_lookup.
  - intros q Hq. apply overridden_other; [exact Hd|].
    now rewrite <- assoc_mem_keys.
Qed.

Lemma plain_overrides_are_applied_witness :
  exists ps' : dict,
    set_plugin_list_parameters repr_unused semicolon_syntax convert_sample
      [(PStr "threshold", PInt 4); (PStr "mode", PStr "manual")] tuned
    = (Ret tt, set_parameters ps' tuned)
    /\ map fst ps' = map fst (parameters tuned)
    /\ (forall k v, In (k, v) [(PStr "threshold", PInt 4); (PStr "mode", PStr "manual")] ->
                    assoc_get ps' k = Some v)
    /\ (forall q, assoc_mem [(PStr "threshold", PInt 4); (PStr "mode", PStr "manual")] q
                  = false ->
                  assoc_get ps' q = assoc_get (parameters tuned) q).
Proof.
  apply (plain_overrides_are_applied repr_unused semicolon_syntax convert_sample
           [(PStr "threshold", PInt 4); (PStr "mode", PStr "manual")] tuned eq_refl).
  intros k v [[= <- <-]|[[= <- <-]|[]]]; split; reflexivity.
Defined.

(** *** What the required-key check reports *)

Lemma for_each_print_pairs {A} (lines : A -> string * string) (l : list A)
    (s : tools) :
  for_each l (fun a => print (fst (lines a)) ;; print (snd (lines a))) s
  = (Ret tt,
     printed (flat_map (fun a => [fst (lines a); snd (lines a)]) l) s).
Proof.
  revert s. induction l as [|a l IH]; intro s.
  - cbn. now rewrite printed_nil.
  - rewrite for_each_cons, bind_print, print_run, IH, !printed_app.
    reflexivity.
Qed.

Lemma for_each_ext {A} (f g : A -> M unit) (l : list A) (s : tools) :
  (forall a s0, f a s0 = g a s0) -> for_each l f s = for_each l g s.
Proof.
  intros H. revert s. induction l as [|a l IH]; intro s; [reflexivity|].
  rewrite !for_each_cons, H. destruct (g a s) as [[[]| |] s1]; auto.
Qed.

Lemma complete_record_missing (p : pyval) (o : bool) (d : dict) :
  p = PDict o d ->
  complete_record p
  = match missing_required p with [] => true | _ :: _ => false end.
Proof.
  intros ->. cbn [complete_record missing_required forallb filter].
  destruct (assoc_mem d (PStr "dtype")), (assoc_mem d (PStr "description")),
    (assoc_mem d (PStr "visibility")), (assoc_mem d (PStr "default"));
    reflexivity.
Qed.

(** The records that lack keys, with the keys they lack. *)
Lemma required_keys_loop_run (items : list (pyval * pyval)) (mk : bool)
    (mkd : list (pyval * list string)) :
  distinct_names (map fst items) = true ->
  forallb shown_record (map snd items) = true ->
  (forall k, In k (map fst items) -> assoc_mem mkd k = false) ->
  required_keys_loop items ["dtype"; "description"; "visibility"; "default"]
    mk mkd
  = Ret (mk || negb (forallb (fun '(_, p) => complete_record p) items),
         (mkd ++ flat_map (fun '(k, p) =>
                             match missing_required p with
                             | [] => []
                             | missing => [(k, missing)]
                             end) items)%list).
Proof.
  revert mk mkd. induction items as [|[k p] items IH]; intros mk mkd Hd Hs Hnew.
  - cbn. now rewrite orb_false_r, app_nil_r.
  - cbn [map fst snd forallb] in Hd, Hs.
    destruct (distinct_names_cons _ _ Hd) as (a & -> & Hex & Hd').
    apply andb_true_iff in Hs. destruct Hs as [Hp Hs].
    destruct p as [| | | | | |o d]; try discriminate.
    cbn [required_keys_loop].
    assert (Hvis : py_eq match assoc_get d (PStr "visibility") with
                         | Some v => v
                         | None => PNone
                         end (PStr "hidden") = false).
    { cbn [shown_record] in Hp.
      destruct (assoc_get d (PStr "visibility")); [|reflexivity].
      now apply negb_true_iff. }
    rewrite Hvis. cbn [forallb filter]. rewrite <- !assoc_mem_keys.
    rewrite (complete_record_missing (PDict o d) o d eq_refl).
    cbn [flat_map forallb missing_required filter].
    destruct (assoc_mem d (PStr "dtype")), (assoc_mem d (PStr "description")),
      (assoc_mem d (PStr "visibility")), (assoc_mem d (PStr "default"));
      cbn [negb andb app];
      try (rewrite IH by
             (auto; intros k' Hk'; apply Hnew; now right);
           reflexivity);
      rewrite (assoc_set_absent mkd (PStr a) _ (Hnew _ (or_introl eq_refl)));
      (rewrite IH;
       [rewrite <- app_assoc; cbn [app orb]; now rewrite orb_true_r
       |exact Hd'|exact Hs|]);
      intros k' Hk'; rewrite assoc_mem_app;
      rewrite (Hnew k' (or_intror Hk')); cbn [orb];
      unfold assoc_mem; cbn [assoc_get];
      rewrite (distinct_names_tail a (map fst items) k' Hd Hk'); reflexivity.
Qed.

Lemma missing_report_flat_map (repr : pyval -> string)
    (key_order : list string -> list string) (block : dict) :
  flat_map (fun item : pyval * list string =>
              [ fst ("The missing required keys for '" ++ py_str repr (fst item)
                     ++ "' are:", join ", " (key_order (snd item)));
                snd ("The missing required keys for '" ++ py_str repr (fst item)
                     ++ "' are:", join ", " (key_order (snd item))) ])
           (flat_map (fun '(k, p) =>
                        match missing_required p with
                        | [] => []
                        | missing => [(k, missing)]
                        end) block)
  = flat_map (missing_report repr key_order) block.
Proof.
  induction block as [|[k p] block IH]; [reflexivity|].
  cbn [flat_map]. rewrite flat_map_app, IH. unfold missing_report at 2.
  cbn [fst snd]. now destruct (missing_required p).
Qed.

(** X16: on a block of dictionaries with distinct names and no hidden
    parameter, [_check_required_keys] returns without printing when every
    record has the four keys; otherwise it raises after a header line and,
    for each incomplete record in the order of the block, the line naming it
    and the line listing the keys it lacks, in the order in which the set of
    these keys is iterated. *)
Theorem required_keys_report_every_incomplete_record
    (repr : pyval -> string) (key_order : list string -> list string)
    (block : dict) (tool_class : string) (s : tools) :
  distinct_names (map fst block) = true ->
  forallb shown_record (map snd block) = true ->
  _check_required_keys repr key_order block tool_class s
  = if forallb (fun '(_, p) => complete_record p) block
    then (Ret tt, s)
    else (Raise (Exception_ ("Please edit " ++ tool_class)),
          printed ((tool_class ++ " doesn't contain all of the required keys.")
                   :: flat_map (missing_report repr key_order) block) s).
Proof.
  intros Hd Hs. unfold _check_required_keys.
  rewrite (required_keys_loop_run block false [] Hd Hs) by reflexivity.
  run. cbn [orb app].
  destruct (forallb (fun '(_, p) => complete_record p) block); cbn [negb];
    [reflexivity|].
  run. rewrite bind_run.
  rewrite (for_each_ext _
             (fun item : pyval * list string =>
                print (fst ("The missing required keys for '"
                            ++ py_str repr (fst item) ++ "' are:",
                            join ", " (key_order (snd item)))) ;;
                print (snd ("The missing required keys for '"
                            ++ py_str repr (fst item) ++ "' are:",
                            join ", " (key_order (snd item))))))
    by (intros [param missing] s0; reflexivity).
  rewrite (for_each_print_pairs
             (fun item : pyval * list string =>
                ("The missing required keys for '" ++ py_str repr (fst item)
                 ++ "' are:", join ", " (key_order (snd item))))).
  run. rewrite printed_app, <- (missing_report_flat_map repr key_order block).
  reflexivity.
Qed.

Lemma required_keys_report_every_incomplete_record_witness :
  _check_required_keys repr_unused listed_order gappy_block "DemoTools"
    (instance [] [])
  = (Raise (Exception_ "Please edit DemoTools"),
     Tools [] [] demo_plugin
       [ "DemoTools doesn't contain all of the required keys.";
         "The missing required keys for 'size' are:";
         "dtype, description";
         "The missing required keys for 'depth' are:";
         "default" ]).
Proof.
  exact (required_keys_report_every_incomplete_record repr_unused listed_order
           gappy_block "DemoTools" (instance [] []) eq_refl eq_refl).
Defined.

(** *** What the dtype check reports *)

Lemma dtype_tokens_run (repr : pyval -> string) (type_dict : dict)
    (p_key : pyval) (l : list pyval) (s : tools) :
  forallb hashable l = true ->
  for_each l (fun item =>
    known <- lift (dict_contains type_dict item) ;;
    if negb known then print (invalid_type_line repr p_key item)
    else ret tt) s
  = (Ret tt,
     printed (map (invalid_type_line repr p_key)
                  (filter (fun token => negb (assoc_mem type_dict token)) l)) s).
Proof.
  revert s. induction l as [|item l IH]; intros s Hl.
  - cbn. now rewrite printed_nil.
  - cbn [forallb] in Hl. apply andb_true_iff in Hl. destruct Hl as [Hi Hl].
    rewrite for_each_cons. run.
    rewrite (dict_contains_hashable _ _ Hi). run. cbn [filter].
    destruct (negb (assoc_mem type_dict item)).
    + rewrite print_run, (IH _ Hl), printed_app. reflexivity.
    + cbn [ret]. now rewrite (IH _ Hl).
Qed.

Lemma dtype_loop_run (repr : pyval -> string) (type_dict : dict)
    (items : list (pyval * pyval)) (flag : bool) (s : tools) :
  forallb dtype_typed (map snd items) = true ->
  dtype_loop repr type_dict items flag s
  = (Ret (flag && forallb (dtype_accepted type_dict) (map snd items)),
     printed (flat_map (dtype_report repr type_dict) items) s).
Proof.
  revert flag s. induction items as [|[k p] items IH]; intros flag s Ht.
  - cbn. now rewrite andb_true_r, printed_nil.
  - cbn [map snd forallb] in Ht. apply andb_true_iff in Ht.
    destruct Ht as [Hp Ht]. unfold dtype_typed in Hp.
    destruct p as [| | | | | |o d]; try discriminate. cbn [dtype_of] in Hp.
    destruct (assoc_get d (PStr "dtype")) as [dtype|] eqn:Hd; [|discriminate].
    cbn [dtype_loop py_getitem map snd forallb flat_map].
    rewrite (dict_getitem_str_Some _ _ _ Hd). run.
    unfold dtype_accepted at 1, dtype_report at 1. cbn [dtype_of fst snd].
    rewrite Hd.
    assert (Hscalar :
              hashable dtype = true ->
              (known <- lift (dict_contains type_dict dtype) ;;
               if negb known then
                 print (invalid_type_line repr k dtype) ;;
                 dtype_loop repr type_dict items false
               else dtype_loop repr type_dict items flag) s
              = (Ret (flag && (assoc_mem type_dict dtype
                               && forallb (dtype_accepted type_dict)
                                          (map snd items))),
                 printed
                   ((if assoc_mem type_dict dtype then []
                     else [invalid_type_line repr k dtype])
                    ++ flat_map (dtype_report repr type_dict) items)%list s)).
    { intro Hh. rewrite (dict_contains_hashable _ _ Hh). run.
      destruct (assoc_mem type_dict dtype); cbn [negb andb app].
      - now rewrite (IH _ _ Ht).
      - run. rewrite (IH _ _ Ht), printed_app. cbn [andb app].
        now rewrite andb_false_r. }
    destruct dtype; try exact (Hscalar Hp); try discriminate.
    rewrite bind_run, (dtype_tokens_run _ _ _ _ _ Hp), (IH _ _ Ht), printed_app.
    reflexivity.
Qed.

(** X17: on a block whose dtypes are hashable tokens or lists of them,
    [_check_dtype] prints one line for every token that the registry lacks,
    in the order of the block; it raises (after listing the registry) exactly
    when such a token is the whole dtype of a record, and returns when every
    unknown token stands inside a list. *)
Theorem dtype_check_contract
    (repr : pyval -> string) (type_dict block : dict) (tool_class : string)
    (s : tools) :
  forallb dtype_typed (map snd block) = true ->
  _check_dtype repr type_dict block tool_class s
  = if forallb (dtype_accepted type_dict) (map snd block)
    then (Ret tt, printed (flat_map (dtype_report repr type_dict) block) s)
    else (Raise (Exception_ ("Please edit " ++ tool_class)),
          printed
            (flat_map (dtype_report repr type_dict) block
             ++ type_options_lines repr type_dict)%list s).
Proof.
  intro Ht. unfold _check_dtype.
  rewrite bind_run, (dtype_loop_run _ _ _ _ _ Ht). cbn [andb].
  destruct (forallb (dtype_accepted type_dict) (map snd block)); cbn [negb];
    [reflexivity|].
  run. now rewrite !printed_app.
Qed.

Lemma dtype_check_contract_witness :
  _check_dtype repr_unused small_registry mistyped_block "DemoTools"
    (instance [] [])
  = (Raise (Exception_ "Please edit DemoTools"),
     Tools [] [] demo_plugin
       [ "The size parameter has been assigned an invalid type 'bogus'.";
         "The mode parameter has been assigned an invalid type 'text'.";
         "The type options are: ";
         "    int" ++ nl ++ "    float" ++ nl ++ "    str" ]).
Proof.
  exact (dtype_check_contract repr_unused small_registry mistyped_block
           "DemoTools" (instance [] []) eq_refl).
Defined.

(** *** Running the dependency check again *)

Lemma map_fst_records {V W} (f : V -> W) (d : list (pyval * V)) :
  map fst (map (fun '(k, v) => (k, f v)) d) = map fst d.
Proof. induction d as [|[k v] d IH]; cbn; congruence. Qed.

Lemma checked_record_dependency (repr : pyval -> string) (ps rec : dict) :
  assoc_get (checked_record repr ps rec) (PStr "dependency")
  = assoc_get rec (PStr "dependency").
Proof.
  unfold checked_record.
  destruct (assoc_get rec (PStr "dependency")) as [dependency|] eqn:Hd;
    [|exact Hd].
  destruct (assoc_get ps (parent_of dependency)); [|exact Hd].
  now rewrite assoc_get_set_str_other.
Qed.

Lemma checked_record_twice (repr : pyval -> string) (ps rec : dict) :
  checked_record repr ps (checked_record repr ps rec)
  = checked_record repr ps rec.
Proof.
  unfold checked_record at 1. rewrite checked_record_dependency.
  unfold checked_record.
  destruct (assoc_get rec (PStr "dependency")) as [dependency|]; [|reflexivity].
  destruct (assoc_get ps (parent_of dependency)) as [v|]; [|reflexivity].
  apply assoc_set_same, assoc_get_set_str_same.
Qed.

Lemma dependencies_ok_checked (repr : pyval -> string) (ps : dict)
    (defs : list (pyval * dict)) :
  dependencies_ok (map (fun '(k, r) => (k, checked_record repr ps r)) defs)
  = dependencies_ok defs.
Proof.
  unfold dependencies_ok. induction defs as [|[k r] defs IH]; [reflexivity|].
  cbn [map forallb]. now rewrite checked_record_dependency, IH.
Qed.

(** X18: on a definition set with distinct names and dependencies of the two
    accepted forms, a dependency check against a value mapping settles the
    display flags: running it again against the same mapping returns and
    changes nothing. *)
Theorem dependency_check_settles
    (repr : pyval -> string) (ps : dict) (s : tools) :
  distinct_names (map fst (param s)) = true ->
  dependencies_ok (param s) = true ->
  let once := snd (check_dependencies repr ps s) in
  fst (check_dependencies repr ps s) = Ret tt
  /\ check_dependencies repr ps once = (Ret tt, once).
Proof.
  intros Hd Hok. cbv zeta.
  rewrite (check_dependencies_run repr ps s Hd Hok). cbn [fst snd].
  split; [reflexivity|].
  rewrite check_dependencies_run.
  - cbn [param set_param]. f_equal.
    rewrite map_map.
    rewrite (map_ext _ (fun x : pyval * dict =>
                          let '(k, r) := x in (k, checked_record repr ps r))).
    + now destruct s.
    + intros [k r]. now rewrite checked_record_twice.
  - cbn [param set_param]. now rewrite map_fst_records.
  - cbn [param set_param]. now rewrite dependencies_ok_checked.
Qed.

Lemma dependency_check_settles_witness :
  let once := snd (check_dependencies repr_unused (parameters tuned) tuned) in
  fst (check_dependencies repr_unused (parameters tuned) tuned) = Ret tt
  /\ check_dependencies repr_unused (parameters tuned) once = (Ret tt, once).
Proof.
  exact (dependency_check_settles repr_unused (parameters tuned) tuned
           eq_refl eq_refl).
Defined.

(** *** A recommendation for a plain description *)

Lemma warn_dependent_passes (repr : pyval -> string)
    (mod_param mod_value name : pyval) (rec : dict) (s : tools) :
  hashable name = true ->
  assoc_get (param s) name = Some rec ->
  passed_over mod_param mod_value rec = true ->
  warn_dependent repr mod_param mod_value name s = (Ret tt, s).
Proof.
  intros Hh Hrec Hp. unfold warn_dependent. run.
  rewrite (dict_getitem_Some _ _ _ Hh Hrec). run.
  unfold passed_over in Hp.
  destruct (assoc_get rec (PStr "default")) as [default|] eqn:Hd;
    [|discriminate].
  rewrite (dict_getitem_str_Some _ _ _ Hd). run.
  destruct default as [| | | | | |[] items]; try reflexivity.
  destruct items as [|[parent_name branches] more]; [discriminate|].
  cbn [map fst first_of]. run.
  destruct (py_eq parent_name mod_param); [|reflexivity].
  apply andb_true_iff in Hp. destruct Hp as [Hp Hb].
  apply andb_true_iff in Hp. destruct Hp as [Hp Hhv].
  apply andb_true_iff in Hp. destruct Hp as [Hhp Hr].
  destruct branches as [| | | | | |ob bd]; try discriminate.
  rewrite (dict_getitem_Some ((parent_name, PDict ob bd) :: more) parent_name
             (PDict ob bd) Hhp) by (cbn [assoc_get]; now rewrite Hr).
  run. rewrite Hhv. run.
  rewrite <- (assoc_mem_keys bd mod_value).
  apply negb_true_iff in Hb. now rewrite Hb.
Qed.

(** X19: when a parameter is modified, the first dependent that has a
    recommended value for the new value must have a structured description:
    if its description is a plain string (or anything but a dictionary),
    [warn_dependents] raises [TypeError] on the assignment of the [range]
    entry, before anything is printed or changed.  The parameters before it
    may have literal defaults, descriptors keyed by other parameters, or
    descriptors keyed by the modified parameter without a branch for the new
    value. *)
Theorem recommendation_needs_structured_description
    (repr : pyval -> string) (s : tools)
    (pre rest : list (pyval * dict)) (pdict more bd : dict)
    (name mod_param mod_value parent_name value desc : pyval) (ob : bool) :
  param s = (pre ++ (name, pdict) :: rest)%list ->
  distinct_names (map fst (param s)) = true ->
  forallb (passed_over mod_param mod_value) (map snd pre) = true ->
  assoc_get pdict (PStr "default")
  = Some (PDict true ((parent_name, PDict ob bd) :: more)) ->
  hashable parent_name = true ->
  py_eq parent_name parent_name = true ->
  py_eq parent_name mod_param = true ->
  hashable mod_value = true ->
  assoc_get bd mod_value = Some value ->
  assoc_get pdict (PStr "description") = Some desc ->
  is_dict desc = false ->
  warn_dependents repr mod_param mod_value s = (Raise TypeError, s).
Proof.
  intros Hs Hd Hpre Hdef Hh Hr Hmod Hhv Hval Hdesc Hplain.
  unfold warn_dependents, get_param_definitions. run.
  rewrite Hs, map_app, for_each_app.
  assert (Hlook : forall k r, In (k, r) (param s) ->
                    hashable k = true /\ assoc_get (param s) k = Some r).
  { intros k r Hin. split; [|now apply assoc_get_distinct].
    destruct (distinct_names_str _ k Hd) as [a ->]; [|reflexivity].
    apply in_map_iff. now exists (k, r). }
  assert (Hskip : for_each (map fst pre) (warn_dependent repr mod_param mod_value) s
                  = (Ret tt, s)).
  { assert (Hin : forall k r, In (k, r) pre -> In (k, r) (param s))
      by (intros; rewrite Hs; apply in_or_app; now left).
    clear Hs. induction pre as [|[k r] pre IH]; [reflexivity|].
    cbn [map fst snd forallb] in Hpre |- *. rewrite for_each_cons.
    apply andb_true_iff in Hpre. destruct Hpre as [Hk Hpre].
    destruct (Hlook k r (Hin k r (or_introl eq_refl))) as [Hhk Hgk].
    rewrite (warn_dependent_passes _ _ _ _ _ _ Hhk Hgk Hk).
    apply IH; [exact Hpre|]. intros k' r' Hin'. apply (Hin k' r'). now right. }
  rewrite Hskip. cbn [map fst]. rewrite for_each_cons.
  destruct (Hlook name pdict) as [Hhn Hgn];
    [rewrite Hs; apply in_or_app; right; now left|].
  assert (Hone : warn_dependent repr mod_param mod_value name s
                 = (Raise TypeError, s)).
  { unfold warn_dependent. run.
    rewrite (dict_getitem_Some _ _ _ Hhn Hgn). run.
    rewrite (dict_getitem_str_Some _ _ _ Hdef). run.
    rewrite Hmod.
    rewrite (dict_getitem_Some ((parent_name, PDict ob bd) :: more) parent_name
               (PDict ob bd) Hh) by (cbn [assoc_get]; now rewrite Hr).
    run. rewrite Hhv. run.
    rewrite <- (assoc_mem_keys bd mod_value), (assoc_mem_Some _ _ _ Hval).
    cbn [py_getitem]. rewrite (dict_getitem_Some _ _ _ Hhv Hval). run.
    rewrite (dict_getitem_str_Some _ _ _ Hdesc). run.
    unfold make_recommendation.
    destruct desc; try discriminate; reflexivity. }
  now rewrite Hone.
Qed.

Lemma recommendation_needs_structured_description_witness :
  forallb (passed_over (PStr "B") (PStr "x")) [chain_C; chain_B] = true
  /\ warn_dependents repr_unused (PStr "B") (PStr "x") chain
     = (Raise TypeError, chain).
Proof.
  split; [reflexivity|].
  exact (recommendation_needs_structured_description repr_unused chain
           [(PStr "C", chain_C); (PStr "B", chain_B)] [] chain_A []
           [(PStr "x", PInt 42)] (PStr "A") (PStr "B") (PStr "x") (PStr "B")
           (PInt 42) (PStr "A parameter.") true
           eq_refl eq_refl eq_refl eq_refl eq_refl eq_refl eq_refl eq_refl
           eq_refl eq_refl eq_refl).
Defined.

(** *** Blocks that are not loaded *)

(** X20: a tools class whose docstring gives nothing (or an empty mapping) is
    skipped without a trace, and a docstring that parses to anything but an
    ordered mapping is refused before any check is run. *)
Theorem only_ordered_blocks_are_loaded
    (repr : pyval -> string) (key_order : list string -> list string)
    (type_dict : dict)
    (dumps : pyval -> outcome pyval)
    (metadata_set : list (pyval * dict) -> pyval -> dict
                    -> outcome (list (pyval * dict)))
    (parsed : pyval) (tool_class : string) (s : tools) :
  (py_truthy parsed = false ->
   _set_parameter_definitions repr type_dict key_order dumps metadata_set parsed
     tool_class s = (Ret tt, s))
  /\ (py_truthy parsed = true -> (forall block, parsed <> PDict true block) ->
      _set_parameter_definitions repr type_dict key_order dumps metadata_set parsed
        tool_class s
      = (Raise (Exception_ ("The parameters have not been read in correctly for "
                            ++ tool_class)), s)).
Proof.
  unfold _set_parameter_definitions, _load_param_from_doc. split.
  - intros H. rewrite H. run. now rewrite H.
  - intros H Hnot. rewrite H.
    destruct parsed as [| | | | | |[] block]; try reflexivity.
    now destruct (Hnot block).
Qed.

(** *** What a stored block looks like *)

Lemma only_printed_fields (s s' : tools) :
  only_printed s s' ->
  param s' = param s /\ parameters s' = parameters s
  /\ plugin_class s' = plugin_class s.
Proof. intros [lines ->]. auto. Qed.

Lemma records_of_ret (block : dict) (records : list (pyval * dict)) :
  records_of block = Ret records ->
  map fst records = map fst block
  /\ forall k o d, In (k, PDict o d) block -> In (k, d) records.
Proof.
  unfold records_of. revert records.
  induction block as [|[k p] block IH]; intros records; cbn [map_outcome].
  - intros [= <-]. split; [reflexivity|intros ? ? ? []].
  - destruct p as [| | | | | |o d]; try discriminate. cbn [obind].
    destruct (map_outcome _ block) as [rest| |]; try discriminate.
    cbn [obind]. intros [= <-]. destruct (IH rest eq_refl) as [Hk Hin].
    split; [cbn; now rewrite Hk|].
    intros k0 o0 d0 [[= <- <- <-]|H]; [now left|right; eauto].
Qed.

Lemma assoc_mem_set_mono {V} (d : list (pyval * V)) (k q : pyval) (v : V) :
  assoc_mem d q = true -> assoc_mem (assoc_set d k v) q = true.
Proof.
  intro H. destruct (assoc_mem d k) eqn:Hk.
  - now rewrite assoc_mem_keys, (assoc_set_keys _ _ _ Hk), <- assoc_mem_keys.
  - now rewrite (assoc_set_absent _ _ _ Hk), assoc_mem_app, H.
Qed.

Lemma store_definition_ret
    (dumps : pyval -> outcome pyval)
    (metadata_set : list (pyval * dict) -> pyval -> dict
                    -> outcome (list (pyval * dict)))
    (k : pyval) (r : dict) (s s' : tools) :
  (forall defs k v, metadata_set defs k v = Ret (assoc_set defs k v)) ->
  store_definition dumps metadata_set (k, r) s = (Ret tt, s') ->
  exists dumped,
    s' = set_param (assoc_set (param s) k
                      (assoc_set r (PStr "default") dumped)) s.
Proof.
  intros Hset. unfold store_definition. rewrite bind_run. unfold lift at 1.
  destruct (dict_getitem r (PStr "default")) as [default| |]; try discriminate.
  rewrite bind_run. unfold lift at 1.
  destruct (dumps default) as [dumped| |]; try discriminate.
  run. rewrite Hset. run. intros [= <-]. now exists dumped.
Qed.

Lemma store_loop_ret
    (dumps : pyval -> outcome pyval)
    (metadata_set : list (pyval * dict) -> pyval -> dict
                    -> outcome (list (pyval * dict)))
    (l : list (pyval * dict)) (s s' : tools) :
  (forall defs k v, metadata_set defs k v = Ret (assoc_set defs k v)) ->
  distinct_names (map fst l) = true ->
  for_each l (store_definition dumps metadata_set) s = (Ret tt, s') ->
  parameters s' = parameters s
  /\ plugin_class s' = plugin_class s
  /\ (forall q, existsb (py_eq q) (map fst l) = false ->
                assoc_get (param s') q = assoc_get (param s) q)
  /\ forall k r, In (k, r) l ->
       exists dumped,
         assoc_get (param s') k = Some (assoc_set r (PStr "default") dumped).
Proof.
  intros Hset. revert s. induction l as [|[k r] l IH]; intros s Hd Hrun.
  - injection Hrun as <-. repeat split; auto. intros ? ? [].
  - cbn [map fst] in Hd.
    destruct (distinct_names_cons _ _ Hd) as (a & -> & Hex & Hd').
    rewrite for_each_cons in Hrun.
    destruct (store_definition dumps metadata_set (PStr a, r) s)
      as [[[]| |] s1] eqn:Hstore; try discriminate.
    destruct (store_definition_ret _ _ _ _ _ _ Hset Hstore) as [dumped ->].
    destruct (IH _ Hd' Hrun) as (Hps & Hplug & Hother & Hin).
    cbn [parameters plugin_class param set_param] in *.
    split; [exact Hps|]. split; [exact Hplug|]. split.
    + intros q Hq. cbn [map fst existsb] in Hq. apply orb_false_elim in Hq.
      destruct Hq as [Hq1 Hq2].
      rewrite (Hother q Hq2). now apply assoc_get_set_str_other.
    + intros k0 r0 [[= <- <-]|Hin0]; [|now apply Hin].
      exists dumped. rewrite (Hother _ Hex). apply assoc_get_set_str_same.
Qed.

Lemma check_visibility_levels (repr : pyval -> string) (block block' : dict)
    (tool_class : string) (s s' : tools) :
  _check_visibility repr block tool_class s = (Ret block', s') ->
  forallb level_ok (after_data_keys block) = true.
Proof.
  unfold _check_visibility. rewrite bind_run.
  destruct (visibility_loop repr tool_class block true s) as [[[valid out]| |] s1]
    eqn:Hloop; try discriminate.
  pose proof (visibility_loop_ret _ _ _ _ _ _ _ Hloop) as Hwf.
  rewrite (visibility_loop_run _ _ _ _ _ Hwf) in Hloop.
  injection Hloop as <- <- <-. cbn [andb].
  now destruct (forallb level_ok (after_data_keys block)).
Qed.

Lemma as_dataset_dict (k : pyval) (o : bool) (d : dict) :
  exists d', as_dataset k (PDict o d) = PDict o d'
             /\ forall q, assoc_mem d q = true -> assoc_mem d' q = true.
Proof.
  unfold as_dataset. destruct (assoc_get d (PStr "visibility")) as [v|];
    [|eauto].
  destruct (_ && _); [|eauto].
  eexists. split; [reflexivity|]. intros q. apply assoc_mem_set_mono.
Qed.

(** X21: when [_set_parameter_definitions] returns on a block with distinct
    names (and [MetaData.set] assigns the item), every parameter of the block
    is stored with the four required keys, a visibility that is one of the
    six levels and the display flag on; the definitions stored under other
    names, the value-set and the plugin are as before. *)
Theorem stored_records_are_complete_and_displayed
    (repr : pyval -> string) (key_order : list string -> list string)
    (type_dict : dict)
    (dumps : pyval -> outcome pyval)
    (metadata_set : list (pyval * dict) -> pyval -> dict
                    -> outcome (list (pyval * dict)))
    (block : dict) (tool_class : string) (s s' : tools) :
  (forall defs k v, metadata_set defs k v = Ret (assoc_set defs k v)) ->
  distinct_names (map fst block) = true ->
  _set_parameter_definitions repr type_dict key_order dumps metadata_set
    (PDict true block) tool_class s = (Ret tt, s') ->
  parameters s' = parameters s
  /\ plugin_class s' = plugin_class s
  /\ (forall q, assoc_mem block q = false ->
                assoc_get (param s') q = assoc_get (param s) q)
  /\ forall k p, In (k, p) block ->
       exists rec v,
         assoc_get (param s') k = Some rec
         /\ assoc_get rec (PStr "display") = Some (PStr "on")
         /\ complete_record (PDict true rec) = true
         /\ assoc_get rec (PStr "visibility") = Some v
         /\ valid_level v = true.
Proof.
  intros Hset Hd.
  destruct (py_truthy (PDict true block)) eqn:Ht.
  2:{ destruct block; [|discriminate]. cbn. intros [= <-].
      repeat split; auto. intros ? ? []. }
  unfold _set_parameter_definitions, _load_param_from_doc. rewrite Ht. run.
  rewrite Ht. rewrite bind_run.
  destruct (prints_only_check_required_keys repr key_order block tool_class s) as [_ Hp1].
  destruct (_check_required_keys repr key_order block tool_class s) as [[[]| |] s1] eqn:H1;
    try discriminate.
  rewrite bind_run.
  destruct (prints_only_check_options block tool_class s1) as [_ Hp2].
  destruct (_check_options block tool_class s1) as [[[]| |] s2] eqn:H2;
    try discriminate.
  rewrite bind_run.
  destruct (prints_only_check_visibility repr block tool_class s2) as [_ Hp3].
  destruct (_check_visibility repr block tool_class s2) as [[block'| |] s3] eqn:H3;
    try discriminate.
  rewrite bind_run.
  destruct (prints_only_check_dtype repr type_dict block' tool_class s3) as [_ Hp4].
  destruct (_check_dtype repr type_dict block' tool_class s3) as [[[]| |] s4] eqn:H4;
    try discriminate.
  cbn [snd] in Hp1, Hp2, Hp3, Hp4.
  rewrite bind_run. unfold lift at 1.
  destruct (records_of block') as [records| |] eqn:Hrec; try discriminate.
  intros Hloop.
  pose proof (only_printed_trans _ _ _
                (only_printed_trans _ _ _
                   (only_printed_trans _ _ _ Hp1 Hp2) Hp3) Hp4) as Hp.
  destruct (only_printed_fields _ _ Hp) as (Hparam4 & Hps4 & Hplug4).
  pose proof (checks_pass_on_complete_records _ _ _ _ _ _ _ _ _ _ _ H1 H2 H3 H4)
    as Hcomplete.
  pose proof (check_visibility_levels _ _ _ _ _ _ H3) as Hlevels.
  destruct (check_visibility_ret _ _ _ _ _ _ H3) as [-> Hwf].
  destruct (records_of_ret _ _ Hrec) as [Hnames Hrecords].
  assert (Hnames' : map fst (_set_display records) = map fst block).
  { unfold _set_display. rewrite map_fst_records.
    transitivity (map fst (after_data_keys block)); [exact Hnames|].
    unfold after_data_keys. clear. induction block as [|[k p] block IH];
      cbn; congruence. }
  destruct (store_loop_ret dumps metadata_set _ _ _ Hset
              ltac:(rewrite Hnames'; exact Hd) Hloop)
    as (Hps & Hplug & Hother & Hstored).
  split; [congruence|]. split; [congruence|]. split.
  - intros q Hq. rewrite <- Hparam4. apply Hother.
    now rewrite Hnames', <- assoc_mem_keys.
  - intros k p Hin.
    rewrite forallb_forall in Hcomplete. pose proof (Hcomplete _ Hin) as Hc.
    cbn beta iota in Hc.
    destruct p as [| | | | | |o d]; try discriminate.
    destruct (as_dataset_dict k o d) as (d' & Hd' & Hmono).
    assert (Hin' : In (k, PDict o d') (after_data_keys block)).
    { rewrite <- Hd'. unfold after_data_keys. apply in_map_iff.
      exists (k, PDict o d). auto. }
    rewrite forallb_forall in Hlevels. pose proof (Hlevels _ Hin') as Hl.
    unfold level_ok in Hl. cbn [snd visibility_of] in Hl.
    destruct (assoc_get d' (PStr "visibility")) as [v|] eqn:Hv; [|discriminate].
    assert (Hin'' : In (k, assoc_set d' (PStr "display") (PStr "on"))
                       (_set_display records)).
    { unfold _set_display. apply in_map_iff. exists (k, d'). split; [reflexivity|].
      exact (Hrecords _ _ _ Hin'). }
    destruct (Hstored _ _ Hin'') as [dumped Hget].
    eexists. exists v. split; [exact Hget|]. split; [|split; [|split]].
    + rewrite assoc_get_set_str_other by reflexivity.
      apply assoc_get_set_str_same.
    + cbn [complete_record forallb] in Hc |- *.
      repeat (apply andb_true_iff in Hc; destruct Hc as [?H Hc]).
      rewrite !andb_true_iff. repeat split;
        repeat apply assoc_mem_set_mono; apply Hmono; assumption.
    + rewrite !assoc_get_set_str_other by reflexivity. exact Hv.
    + exact Hl.
Qed.

Lemma stored_records_are_complete_and_displayed_witness :
  let s' := snd (_set_parameter_definitions repr_unused small_registry listed_order
                   dumps_sample metadata_set_sample (PDict true loadable_block)
                   "DemoTools" tuned) in
  parameters s' = parameters tuned
  /\ plugin_class s' = plugin_class tuned
  /\ (forall q, assoc_mem loadable_block q = false ->
                assoc_get (param s') q = assoc_get (param tuned) q)
  /\ forall k p, In (k, p) loadable_block ->
       exists rec v,
         assoc_get (param s') k = Some rec
         /\ assoc_get rec (PStr "display") = Some (PStr "on")
         /\ complete_record (PDict true rec) = true
         /\ assoc_get rec (PStr "visibility") = Some v
         /\ valid_level v = true.
Proof.
  exact (stored_records_are_complete_and_displayed repr_unused listed_order small_registry
           dumps_sample metadata_set_sample loadable_block "DemoTools" tuned _
           (fun _ _ _ => eq_refl) eq_refl eq_refl).
Defined.

(** *** The value-set keeps the names of the definitions *)

Lemma keeps_names_refl (s : tools) : named s -> keeps_names s s.
Proof. intro H. now split. Qed.

Lemma keeps_names_trans (s1 s2 s3 : tools) :
  keeps_names s1 s2 -> keeps_names s2 s3 -> keeps_names s1 s3.
Proof. intros [A1 B1] [A2 B2]. split; [exact A2|congruence]. Qed.

Lemma named_known (s : tools) (k : pyval) :
  named s -> assoc_mem (param s) k = true -> assoc_mem (parameters s) k = true.
Proof.
  intros [Hk _] H. now rewrite assoc_mem_keys, Hk, <- assoc_mem_keys.
Qed.

Lemma assign_parameter_names (k v : pyval) (s : tools) :
  named s -> assoc_mem (param s) k = true ->
  keeps_names s (snd (assign_parameter k v s)).
Proof.
  intros Hn Hk. unfold assign_parameter, dict_setitem. run.
  destruct (hashable k); run; [|now apply keeps_names_refl].
  destruct Hn as [Hkeys Hd]. split; [split|]; cbn; auto.
  rewrite assoc_set_keys; [exact Hkeys|].
  now apply named_known.
Qed.

Lemma does_exist_known {V} (repr : pyval -> string) (k : pyval)
    (d : list (pyval * V)) (v : V) :
  does_exist repr k d = Ret v -> assoc_mem d k = true.
Proof.
  unfold does_exist, dict_contains. destruct (hashable k); [|discriminate].
  cbn [obind]. now destruct (assoc_mem d k).
Qed.

Lemma get_dependent_default_names (repr : pyval -> string) (fuel : nat)
    (child : dict) (s : tools) :
  named s -> keeps_names s (snd (get_dependent_default repr fuel child s)).
Proof.
  revert child s. induction fuel as [|fuel IH]; intros child s Hn;
    [now apply keeps_names_refl|].
  cbn [get_dependent_default]. unfold get_param_definitions. run.
  destruct (dict_getitem child (PStr "default")) as [default| |]; run;
    try now apply keeps_names_refl.
  destruct (py_keys default) as [keys| |]; run; try now apply keeps_names_refl.
  destruct (first_of keys) as [parent_name| |]; run;
    try now apply keeps_names_refl.
  destruct (does_exist repr parent_name (param s)) as [parent| |] eqn:Hex; run;
    try now apply keeps_names_refl.
  apply does_exist_known in Hex.
  destruct (dict_getitem parent (PStr "default")) as [parent_default| |]; run;
    try now apply keeps_names_refl.
  assert (Hrest : forall s1, keeps_names s s1 ->
            keeps_names s
              (snd ((branches <- lift (py_getitem default parent_name) ;;
                     ps <- get parameters ;;
                     current <- lift (dict_getitem ps parent_name) ;;
                     lift (py_getitem branches current)) s1))).
  { intros s1 H1. run.
    destruct (py_getitem default parent_name) as [branches| |]; run;
      try exact H1.
    destruct (dict_getitem (parameters s1) parent_name) as [current| |]; run;
      exact H1. }
  destruct parent_default as [| | | | | |o descriptor];
    try (rewrite bind_ret; apply Hrest; now apply keeps_names_refl).
  rewrite bind_bind, bind_run.
  pose proof (IH descriptor s Hn) as H1.
  destruct (get_dependent_default repr fuel descriptor s) as [[v| |] s1];
    cbn [snd] in H1 |- *; try exact H1.
  rewrite bind_run.
  assert (H2 : keeps_names s1 (snd (assign_parameter parent_name v s1))).
  { apply assign_parameter_names; [exact (proj1 H1)|].
    rewrite assoc_mem_keys, (proj2 H1), <- assoc_mem_keys. exact Hex. }
  pose proof (keeps_names_trans _ _ _ H1 H2) as H12.
  destruct (assign_parameter parent_name v s1) as [[[]| |] s2];
    cbn [snd] in H12 |- *; try exact H12.
  now apply Hrest.
Qed.

Lemma for_each_names {A} (body : A -> M unit) (l : list A) (s : tools) :
  named s ->
  (forall a s0, In a l -> keeps_names s s0 -> keeps_names s0 (snd (body a s0))) ->
  keeps_names s (snd (for_each l body s)).
Proof.
  intros Hn Hb.
  assert (Hgen : forall s0, keeps_names s s0 ->
                   keeps_names s (snd (for_each l body s0))).
  { induction l as [|a l IH]; intros s0 H0; [exact H0|].
    rewrite for_each_cons.
    pose proof (Hb a s0 (or_introl eq_refl) H0) as Ha.
    pose proof (keeps_names_trans _ _ _ H0 Ha) as H1.
    destruct (body a s0) as [[[]| |] s1]; cbn [snd] in *; try exact H1.
    apply IH; [|exact H1].
    intros a' s' Hin. apply Hb. now right. }
  apply Hgen. now apply keeps_names_refl.
Qed.

Lemma name_is_known (s s0 : tools) (k : pyval) (r : dict) :
  named s -> In (k, r) (param s) -> keeps_names s s0 ->
  assoc_mem (param s0) k = true.
Proof.
  intros [_ Hd] Hin [_ Hsame].
  rewrite assoc_mem_keys, Hsame, <- assoc_mem_keys.
  exact (assoc_mem_Some _ _ _ (assoc_get_distinct _ _ _ Hd Hin)).
Qed.

Lemma update_dependent_defaults_names (repr : pyval -> string) (fuel : nat)
    (s : tools) :
  named s -> keeps_names s (snd (update_dependent_defaults repr fuel s)).
Proof.
  intros Hn. unfold update_dependent_defaults, get_param_definitions. run.
  apply for_each_names; [exact Hn|].
  intros [name pdict] s0 Hin H0. unfold update_default.
  rewrite bind_run. unfold lift at 1.
  destruct (dict_getitem pdict (PStr "default")) as [default| |];
    try (apply keeps_names_refl; exact (proj1 H0)).
  destruct (py_truthy default && is_dict default);
    [|apply keeps_names_refl; exact (proj1 H0)].
  rewrite bind_run.
  pose proof (get_dependent_default_names repr fuel pdict s0 (proj1 H0)) as H1.
  destruct (get_dependent_default repr fuel pdict s0) as [[v| |] s1];
    cbn [snd] in H1 |- *; try exact H1.
  eapply keeps_names_trans; [exact H1|].
  apply assign_parameter_names; [exact (proj1 H1)|].
  exact (name_is_known s s1 name pdict Hn Hin (keeps_names_trans _ _ _ H0 H1)).
Qed.

Lemma assign_field_names (p : pyval) (f : string) (v : pyval) (s : tools) :
  named s -> keeps_names s (snd (assign_field p f v s)).
Proof.
  intros Hn. unfold assign_field. run.
  destruct (dict_getitem (param s) p) as [rec| |] eqn:Hg; run;
    try now apply keeps_names_refl.
  apply dict_getitem_Ret in Hg. destruct Hg as [_ Hg].
  pose proof (assoc_set_keys (param s) p (assoc_set rec (PStr f) v)
                (assoc_mem_Some _ _ _ Hg)) as Hk.
  destruct Hn as [Hkeys Hd]. split; [split|]; cbn; congruence.
Qed.

Lemma check_dependencies_names (repr : pyval -> string) (ps : dict)
    (s : tools) :
  named s -> keeps_names s (snd (check_dependencies repr ps s)).
Proof.
  intros Hn. unfold check_dependencies. run.
  apply for_each_names; [exact Hn|].
  intros [p_name dependency] s0 _ [H0 _]. unfold check_dependency.
  destruct dependency as [| | | | | |[] dep];
    repeat match goal with
      | |- keeps_names ?s1 (snd (bind (lift ?o) _ ?s1)) =>
          rewrite bind_run; unfold lift at 1; destruct o as [?|?|]; cbn [snd]
      | |- keeps_names ?s1 (snd ((if ?b then _ else _) ?s1)) => destruct b
      | |- keeps_names ?s1 (snd (assign_field _ _ _ ?s1)) =>
          now apply assign_field_names
      | |- keeps_names ?s1 ?s1 => now apply keeps_names_refl
      | |- keeps_names ?s1 (snd (ret _ ?s1)) => now apply keeps_names_refl
      end.
Qed.

Lemma defaults_have_the_names (defs : list (pyval * dict)) (ps : dict) :
  map_outcome (fun '(k, v) =>
                 obind (dict_getitem v (PStr "default")) (fun d => Ret (k, d)))
              defs = Ret ps ->
  map fst ps = map fst defs.
Proof.
  revert ps. induction defs as [|[k r] defs IH]; intros ps; cbn [map_outcome].
  - now intros [= <-].
  - destruct (dict_getitem r (PStr "default")) as [d| |]; try discriminate.
    cbn [obind].
    match goal with
    | |- context [map_outcome ?f defs] =>
        destruct (map_outcome f defs) as [rest| |]
    end; try discriminate.
    cbn [obind]. intros [= <-]. cbn. now rewrite (IH rest eq_refl).
Qed.

Lemma defaults_are_found (defs : list (pyval * dict)) :
  (forall k r, In (k, r) defs -> assoc_mem r (PStr "default") = true) ->
  exists ps,
    map_outcome (fun '(k, v) =>
                   obind (dict_getitem v (PStr "default")) (fun d => Ret (k, d)))
                defs = Ret ps.
Proof.
  induction defs as [|[k r] defs IH]; intros Hall; [now exists []|].
  destruct IH as [rest Hrest];
    [intros k' r' Hin; apply (Hall k' r'); now right|].
  pose proof (Hall k r (or_introl eq_refl)) as Hk. unfold assoc_mem in Hk.
  destruct (assoc_get r (PStr "default")) as [d|] eqn:Hd; [|discriminate].
  exists ((k, d) :: rest). cbn [map_outcome].
  now rewrite (dict_getitem_str_Some _ _ _ Hd), Hrest.
Qed.

(** X22: once every definition has a [default] and the names are distinct
    strings, [_populate_default_parameters] leaves, however it ends, a
    value-set with exactly the names of the definitions in the order of the
    definitions, and the names of the definitions are the ones it found. *)
Theorem value_set_has_the_names_of_the_definitions
    (repr : pyval -> string) (fuel : nat) (s : tools) :
  distinct_names (map fst (param s)) = true ->
  (forall k r, In (k, r) (param s) -> assoc_mem r (PStr "default") = true) ->
  let after := snd (_populate_default_parameters repr fuel s) in
  map fst (parameters after) = map fst (param after)
  /\ map fst (param after) = map fst (param s).
Proof.
  intros Hd Hdefault. cbv zeta. rewrite populate_default_parameters_run.
  destruct (defaults_are_found _ Hdefault) as [ps Hps]. rewrite Hps.
  pose proof (defaults_have_the_names _ _ Hps) as Hkeys.
  set (s0 := set_parameters ps s).
  assert (H0 : named s0) by (split; [exact Hkeys|exact Hd]).
  assert (Hall : keeps_names s0
            (snd (bind (update_dependent_defaults repr fuel)
                       (fun _ => bind (get parameters)
                                      (check_dependencies repr)) s0))).
  { rewrite bind_run.
    pose proof (update_dependent_defaults_names repr fuel s0 H0) as H1.
    destruct (update_dependent_defaults repr fuel s0) as [[[]| |] s1];
      cbn [snd] in H1 |- *; try exact H1.
    run. eapply keeps_names_trans; [exact H1|].
    apply check_dependencies_names. exact (proj1 H1). }
  destruct Hall as [[H1 _] H2]. split; [exact H1|exact H2].
Qed.

Lemma value_set_has_the_names_of_the_definitions_witness :
  let after := snd (_populate_default_parameters repr_unused 2
                      (instance chain_defs [])) in
  map fst (parameters after) = map fst (param after)
  /\ map fst (param after) = map fst (param (instance chain_defs [])).
Proof.
  apply (value_set_has_the_names_of_the_definitions repr_unused 2
           (instance chain_defs []) eq_refl).
  intros k r [[= <- <-]|[[= <- <-]|[[= <- <-]|[]]]]; reflexivity.
Defined.

(** *** From the docstrings to the value-set *)

Lemma distinct_names_snoc (names : list pyval) (a : string) :
  distinct_names names = true ->
  existsb (py_eq (PStr a)) names = false ->
  distinct_names (names ++ [PStr a]) = true.
Proof.
  induction names as [|k names IH]; intros Hd Hnew; [reflexivity|].
  destruct (distinct_names_cons _ _ Hd) as (b & -> & Hex & Hd').
  cbn [existsb] in Hnew. apply orb_false_elim in Hnew. destruct Hnew as [Hab Hnew].
  cbn [app distinct_names]. rewrite existsb_app, Hex, (IH Hd' Hnew).
  cbn [existsb orb].
  assert (Hba : py_eq (PStr b) (PStr a) = false).
  { destruct (py_eq (PStr b) (PStr a)) eqn:E; [|reflexivity].
    apply py_eq_str_l in E. injection E as ->.
    now rewrite py_eq_str_refl in Hab. }
  now rewrite Hba.
Qed.

Lemma in_assoc_set {V} (d : list (pyval * V)) (key k : pyval) (v r : V) :
  In (k, r) (assoc_set d key v) -> r = v \/ In (k, r) d.
Proof.
  induction d as [|[k' v'] d IH]; cbn [assoc_set].
  - intros [[= _ <-]|[]]. now left.
  - destruct (py_eq key k').
    + intros [[= _ <-]|Hin]; [now left|right; now right].
    + intros [Heq|Hin]; [right; now left|].
      destruct (IH Hin); [now left|right; now right].
Qed.

Lemma defaults_declared_set (s : tools) (a : string) (r : dict) :
  defaults_declared s -> assoc_mem r (PStr "default") = true ->
  defaults_declared (set_param (assoc_set (param s) (PStr a) r) s).
Proof.
  intros [Hd Hall] Hr. split; cbn [param set_param].
  - destruct (assoc_mem (param s) (PStr a)) eqn:Hk.
    + now rewrite (assoc_set_keys _ _ _ Hk).
    + rewrite (assoc_set_absent _ _ _ Hk), map_app. cbn [map fst].
      apply distinct_names_snoc; [exact Hd|]. now rewrite <- assoc_mem_keys.
  - intros k r0 Hin. destruct (in_assoc_set _ _ _ _ _ Hin) as [->|Hin'];
      [exact Hr|exact (Hall k r0 Hin')].
Qed.

Lemma store_loop_declared
    (dumps : pyval -> outcome pyval)
    (metadata_set : list (pyval * dict) -> pyval -> dict
                    -> outcome (list (pyval * dict)))
    (l : list (pyval * dict)) (s s' : tools) :
  (forall defs k v, metadata_set defs k v = Ret (assoc_set defs k v)) ->
  forallb (fun k => match k with PStr _ => true | _ => false end) (map fst l)
  = true ->
  defaults_declared s ->
  for_each l (store_definition dumps metadata_set) s = (Ret tt, s') ->
  defaults_declared s' /\ parameters s' = parameters s.
Proof.
  intros Hset. revert s. induction l as [|[k r] l IH]; intros s Hstr Hs Hrun.
  - injection Hrun as <-. auto.
  - cbn [map fst forallb] in Hstr. apply andb_true_iff in Hstr.
    destruct Hstr as [Hk Hstr]. destruct k as [| | | |a| |]; try discriminate.
    rewrite for_each_cons in Hrun.
    destruct (store_definition dumps metadata_set (PStr a, r) s)
      as [[[]| |] s1] eqn:Hstore; try discriminate.
    destruct (store_definition_ret _ _ _ _ _ _ Hset Hstore) as [dumped ->].
    destruct (IH _ Hstr
                (defaults_declared_set s a _ Hs
                   (assoc_mem_Some _ _ _ (assoc_get_set_str_same r _ _)))
                Hrun) as [H1 H2].
    split; [exact H1|exact H2].
Qed.

Lemma load_keeps_defaults_declared
    (repr : pyval -> string) (key_order : list string -> list string)
    (type_dict : dict)
    (dumps : pyval -> outcome pyval)
    (metadata_set : list (pyval * dict) -> pyval -> dict
                    -> outcome (list (pyval * dict)))
    (parsed : pyval) (tool_class : string) (s s' : tools) :
  (forall defs k v, metadata_set defs k v = Ret (assoc_set defs k v)) ->
  string_names parsed = true ->
  defaults_declared s ->
  _set_parameter_definitions repr type_dict key_order dumps metadata_set parsed
    tool_class s = (Ret tt, s') ->
  defaults_declared s' /\ parameters s' = parameters s.
Proof.
  intros Hset Hstr Hs. unfold _set_parameter_definitions.
  rewrite bind_run. unfold lift at 1.
  destruct (_load_param_from_doc parsed tool_class) as [block0| |] eqn:Hload;
    try discriminate.
  assert (block0 = parsed).
  { unfold _load_param_from_doc in Hload.
    destruct (py_truthy parsed); [|congruence].
    destruct parsed as [| | | | | |[] ?]; congruence. }
  subst block0.
  destruct (py_truthy parsed); [|intros [= <-]; auto].
  destruct parsed as [| | | | | |o block]; try discriminate.
  rewrite bind_run.
  destruct (prints_only_check_required_keys repr key_order block tool_class s) as [_ Hp1].
  destruct (_check_required_keys repr key_order block tool_class s) as [[[]| |] s1];
    try discriminate.
  rewrite bind_run.
  destruct (prints_only_check_options block tool_class s1) as [_ Hp2].
  destruct (_check_options block tool_class s1) as [[[]| |] s2]; try discriminate.
  rewrite bind_run.
  destruct (prints_only_check_visibility repr block tool_class s2) as [_ Hp3].
  destruct (_check_visibility repr block tool_class s2) as [[block'| |] s3] eqn:H3;
    try discriminate.
  rewrite bind_run.
  destruct (prints_only_check_dtype repr type_dict block' tool_class s3) as [_ Hp4].
  destruct (_check_dtype repr type_dict block' tool_class s3) as [[[]| |] s4];
    try discriminate.
  cbn [snd] in Hp1, Hp2, Hp3, Hp4.
  rewrite bind_run. unfold lift at 1.
  destruct (records_of block') as [records| |] eqn:Hrec; try discriminate.
  intros Hloop.
  pose proof (only_printed_trans _ _ _
                (only_printed_trans _ _ _
                   (only_printed_trans _ _ _ Hp1 Hp2) Hp3) Hp4) as Hp.
  destruct (only_printed_fields _ _ Hp) as (Hparam4 & Hps4 & _).
  destruct (check_visibility_ret _ _ _ _ _ _ H3) as [-> _].
  destruct (records_of_ret _ _ Hrec) as [Hnames _].
  assert (Hnames' : map fst (_set_display records) = map fst block).
  { unfold _set_display. rewrite map_fst_records.
    transitivity (map fst (after_data_keys block)); [exact Hnames|].
    unfold after_data_keys. clear. induction block as [|[k p] block IH];
      cbn; congruence. }
  assert (Hs4 : defaults_declared s4).
  { destruct Hs as [Hd Hall]. split; rewrite Hparam4; assumption. }
  destruct (store_loop_declared dumps metadata_set _ _ _ Hset
              ltac:(rewrite Hnames'; exact Hstr) Hs4 Hloop) as [H1 H2].
  split; [exact H1|congruence].
Qed.

(** X23: on an instance that starts without definitions, whenever
    [populate_parameters] returns (with [MetaData.set] assigning the item and
    the parameter names being strings) the value-set holds exactly the names
    of the stored definitions, in their order. *)
Theorem populated_values_have_the_definition_names
    (repr : pyval -> string) (key_order : list string -> list string)
    (type_dict : dict)
    (dumps : pyval -> outcome pyval)
    (metadata_set : list (pyval * dict) -> pyval -> dict
                    -> outcome (list (pyval * dict)))
    (fuel : nat) (tools_list : list (pyval * string)) (s s' : tools) :
  (forall defs k v, metadata_set defs k v = Ret (assoc_set defs k v)) ->
  forallb (fun '(parsed, _) => string_names parsed) tools_list = true ->
  param s = [] ->
  populate_parameters repr type_dict key_order dumps metadata_set fuel tools_list s
  = (Ret tt, s') ->
  map fst (parameters s') = map fst (param s').
Proof.
  intros Hset Hstr Hempty. unfold populate_parameters. rewrite bind_run.
  match goal with
  | |- context [for_each tools_list ?body s] =>
      destruct (for_each tools_list body s) as [[[]| |] s1] eqn:Hload
  end; try discriminate.
  assert (Hs1 : defaults_declared s1).
  { assert (Hs : defaults_declared s)
      by (split; rewrite Hempty; [reflexivity|intros ? ? []]).
    clear Hempty. revert s Hs Hload.
    induction tools_list as [|[parsed tool_class] tools_list IH];
      intros s Hs Hload.
    - now injection Hload as <-.
    - cbn [forallb] in Hstr. apply andb_true_iff in Hstr.
      destruct Hstr as [Hp Hstr]. rewrite for_each_cons in Hload.
      destruct (_set_parameter_definitions repr type_dict key_order dumps metadata_set
                  parsed tool_class s) as [[[]| |] s0] eqn:Hone;
        try discriminate.
      destruct (load_keeps_defaults_declared _ _ _ _ _ _ _ _ _ Hset Hp Hs Hone)
        as [Hs0 _].
      exact (IH Hstr s0 Hs0 Hload). }
  destruct Hs1 as [Hd Hdefault].
  rewrite populate_default_parameters_run.
  destruct (defaults_are_found _ Hdefault) as [ps Hps]. rewrite Hps.
  pose proof (defaults_have_the_names _ _ Hps) as Hkeys.
  set (s0 := set_parameters ps s1).
  assert (H0 : named s0) by (split; [exact Hkeys|exact Hd]).
  rewrite bind_run.
  pose proof (update_dependent_defaults_names repr fuel s0 H0) as H1.
  destruct (update_dependent_defaults repr fuel s0) as [[[]| |] s2];
    cbn [snd] in H1; try discriminate.
  run. intros Hcheck.
  pose proof (check_dependencies_names repr (parameters s2) s2 (proj1 H1)) as H2.
  rewrite Hcheck in H2. exact (proj1 (proj1 H2)).
Qed.

Lemma populated_values_have_the_definition_names_witness :
  let s' := snd (populate_parameters repr_unused small_registry listed_order dumps_sample
                   metadata_set_sample 1
                   [ (PNone, "BaseTools");
                     (PDict true loadable_block, "DemoTools") ]
                   (instance [] [])) in
  map fst (parameters s') = map fst (param s').
Proof.
  exact (populated_values_have_the_definition_names repr_unused listed_order small_registry
           dumps_sample metadata_set_sample 1
           [ (PNone, "BaseTools"); (PDict true loadable_block, "DemoTools") ]
           (instance [] []) _ (fun _ _ _ => eq_refl) eq_refl eq_refl eq_refl).
Defined.

(** The block of C2 with the hidden parameter first. *)
Lemma required_keys_hidden_first_passes_witness :
  _check_required_keys repr_unused listed_order hidden_first "DemoTools"
    (instance [] [])
  = (Ret tt, instance [] []).
Proof.
  apply (required_keys_hidden_first_passes repr_unused listed_order
           (PStr "secret") true
           [(PStr "visibility", PStr "hidden"); (PStr "default", PInt 0)]
           [(PStr "size", bare_param)] "DemoTools" (instance [] []));
    [reflexivity|reflexivity|].
  intros k p [[= <- <-]|[]]. eexists. eexists. split; reflexivity.
Defined.
